(** * eurostat_intra_eu_trade_2022.py: reshaping, annotating and summing
      Eurostat road-freight tables

    A shallow embedding of the script.  The script is written against pandas;
    the pandas operations it calls are modelled below (module [Pandas]) on
    row-major frames of cells, each raising the exception pandas raises.  The
    three functions of the script and its top-level statements follow, under
    their own names.  A number is carried as an integer that stands for a
    machine number; the two places where the script adds numbers up (the sum
    of line 125 and the additions of line 129) take the machine operation as
    a parameter, so that nothing is assumed about overflow or rounding. *)

From Stdlib Require Import String Ascii List ZArith Lia Bool Arith PeanoNat.
Import ListNotations.
Local Open Scope string_scope.
Local Open Scope list_scope.

(** ** Python values: exceptions and strings *)

Module Py.

Inductive exn : Type :=
| KeyError | ValueError | AttributeError | IndexError | TypeError.

Inductive result (A : Type) : Type :=
| Ok (a : A)
| Raise (e : exn).

Arguments Ok {A} a.
Arguments Raise {A} e.

Definition bind {A B : Type} (m : result A) (k : A -> result B) : result B :=
  match m with
  | Ok a => k a
  | Raise e => Raise e
  end.

(** [str.isspace] on the code points below 256. *)
Definition isspace (c : ascii) : bool :=
  let n := nat_of_ascii c in
  ((9 <=? n)%nat && (n <=? 13)%nat) || ((28 <=? n)%nat && (n <=? 32)%nat)
  || (n =? 133)%nat || (n =? 160)%nat.

Fixpoint lstrip (s : string) : string :=
  match s with
  | EmptyString => EmptyString
  | String c r => if isspace c then lstrip r else s
  end.

Fixpoint rstrip (s : string) : string :=
  match s with
  | EmptyString => EmptyString
  | String c r =>
      match rstrip r with
      | EmptyString => if isspace c then EmptyString else String c EmptyString
      | r' => String c r'
      end
  end.

(** [str.strip()] with no argument. *)
Definition strip (s : string) : string := rstrip (lstrip s).

(** [str.split(sep)] for a one-character separator: never the empty list. *)
Fixpoint split (sep : ascii) (s : string) : list string :=
  match s with
  | EmptyString => [EmptyString]
  | String c r =>
      if Ascii.eqb c sep then EmptyString :: split sep r
      else match split sep r with
           | h :: t => String c h :: t
           | [] => [String c EmptyString]
           end
  end.

(** A string without leading or trailing whitespace. *)
Definition head_space (s : string) : bool :=
  match s with
  | EmptyString => false
  | String c _ => isspace c
  end.

Fixpoint last_space (s : string) : bool :=
  match s with
  | EmptyString => false
  | String c EmptyString => isspace c
  | String _ r => last_space r
  end.

Definition trimmed (s : string) : bool :=
  negb (head_space s) && negb (last_space s).



End Py.
Import Py.

Notation "x <- m ;; k" := (bind m (fun x => k))
  (at level 61, m at next level, right associativity).

(** ** The pandas operations the script calls *)

Module Pandas.

(** A cell: text, a number, or missing ([NaN]/[None]). *)
Inductive cell : Type :=
| Str (s : string)
| Num (v : Z)
| NaN.

Definition cell_eqb (a b : cell) : bool :=
  match a, b with
  | Str s, Str t => String.eqb s t
  | Num v, Num w => Z.eqb v w
  | NaN, NaN => true
  | _, _ => false
  end.

Definition is_str (c : cell) : bool :=
  match c with Str _ => true | _ => false end.

Definition is_num (c : cell) : bool :=
  match c with Num _ => true | _ => false end.

(** A frame: column labels and rows (a [RangeIndex] is implicit). *)
Record DataFrame : Type := mkDF {
  columns : list string;
  rows : list (list cell)
}.

Definition Series : Type := list cell.

Definition count_label (label : string) (labels : list string) : nat :=
  count_occ string_dec labels label.

Definition has_label (label : string) (labels : list string) : bool :=
  existsb (String.eqb label) labels.

Fixpoint index_of (label : string) (labels : list string) : nat :=
  match labels with
  | [] => 0
  | l :: ls => if String.eqb l label then 0 else S (index_of label ls)
  end.

Definition column_at (i : nat) (rs : list (list cell)) : Series :=
  map (fun r => nth i r NaN) rs.

(** [df[label]] and [df.label] used as a Series: the label must name one
    column.  A missing label raises; a repeated label selects a sub-frame in
    pandas, on which the Series operations of the script are not defined, and
    the model raises there. *)
Definition getitem (df : DataFrame) (label : string) : result Series :=
  match count_label label (columns df) with
  | 0 => Raise KeyError
  | 1 => Ok (column_at (index_of label (columns df)) (rows df))
  | _ => Raise AttributeError
  end.

(** The [.str] accessor: refused on a non-empty column holding no text (such
    a column is read as float64). *)
Definition str_accessor (s : Series) : result Series :=
  if existsb is_str s || (length s =? 0)%nat then Ok s else Raise AttributeError.

Definition split_cell (c : cell) : list cell :=
  match c with
  | Str s => map Str (split "," s)
  | _ => [NaN]
  end.

Definition expand_width (parts : list (list cell)) : nat :=
  fold_right (fun p w => Nat.max (length p) w) 0 parts.

Definition pad_row (w : nat) (p : list cell) : list cell :=
  p ++ repeat NaN (w - length p).

(** [s.str.split(',', expand=True)]: as many columns as the longest split,
    shorter rows filled with missing cells; no column at all for no row. *)
Definition str_split_expand (s : Series) : list (list cell) :=
  let parts := map split_cell s in
  map (pad_row (expand_width parts)) parts.

Definition split_width (s : Series) : nat :=
  expand_width (map split_cell s).

(** [frame.columns = labels]: the number of labels must be the width. *)
Definition set_columns (width : nat) (rs : list (list cell))
  (labels : list string) : result DataFrame :=
  if (length labels =? width)%nat then Ok (mkDF labels rs) else Raise ValueError.

Fixpoint select {A : Type} (mask : list bool) (xs : list A) : list A :=
  match mask, xs with
  | b :: m, x :: r => if b then x :: select m r else select m r
  | _, _ => []
  end.

(** [df.drop(columns=[label])]. *)
Definition drop (df : DataFrame) (label : string) : result DataFrame :=
  if has_label label (columns df) then
    let keep := map (fun c => negb (String.eqb c label)) (columns df) in
    Ok (mkDF (select keep (columns df)) (map (select keep) (rows df)))
  else Raise KeyError.

(** [pd.concat([a, b], axis=1)] of two frames on the same index. *)
Definition concat_axis1 (a b : DataFrame) : DataFrame :=
  mkDF (columns a ++ columns b)
       (map (fun p => fst p ++ snd p) (combine (rows a) (rows b))).

Fixpoint nodupb (l : list string) : bool :=
  match l with
  | [] => true
  | x :: r => negb (has_label x r) && nodupb r
  end.

(** [pd.melt(df, id_vars=..., var_name=..., value_name=...)].
    - the value label must not be a column of the frame ([ValueError]);
    - every identifier must be a column ([KeyError]);
    - popping an identifier that labels several columns, or popping one a
      second time, fails;
    - the other columns are unpivoted by position, column after column; the
      variable column is written last and overwrites an identifier of the same
      label. *)
Definition melt (df : DataFrame) (id_vars : list string)
  (var_name value_name : string) : result DataFrame :=
  if has_label value_name (columns df) then Raise ValueError
  else if negb (forallb (fun v => has_label v (columns df)) id_vars)
  then Raise KeyError
  else if negb (forallb (fun v => (count_label v (columns df) =? 1)%nat) id_vars)
  then Raise AttributeError
  else if negb (nodupb id_vars) then Raise KeyError
  else
    let vmask := map (fun c => negb (has_label c id_vars)) (columns df) in
    let vnames := select vmask (columns df) in
    let ids (r : list cell) (name : string) :=
      map (fun v => if String.eqb v var_name then Str name
                    else nth (index_of v (columns df)) r NaN) id_vars in
    Ok (mkDF (id_vars ++ [var_name; value_name])
          (flat_map
             (fun j =>
                map (fun r => ids r (nth j vnames "")
                              ++ [Str (nth j vnames "");
                                  nth j (select vmask r) NaN])
                    (rows df))
             (seq 0 (length vnames)))).

(** [df.label]: attribute access to a column. *)
Definition getattr (df : DataFrame) (label : string) : result Series :=
  match count_label label (columns df) with
  | 0 => Raise AttributeError
  | 1 => Ok (column_at (index_of label (columns df)) (rows df))
  | _ => Raise AttributeError
  end.

(** [series == "text"], element by element; a missing cell compares false. *)
Definition eq_str (c : cell) (s : string) : bool :=
  match c with
  | Str t => String.eqb t s
  | _ => false
  end.

Definition eq_scalar (s : Series) (v : string) : list bool :=
  map (fun c => eq_str c v) s.

(** [series.str.len()] on a column of split fields (object dtype). *)
Definition str_len (s : Series) : Series :=
  map (fun c => match c with
                | Str t => Num (Z.of_nat (String.length t))
                | _ => NaN
                end) s.

Definition eq_num (s : Series) (n : Z) : list bool :=
  map (fun c => match c with Num v => Z.eqb v n | _ => false end) s.

(** [a & b] on boolean columns of one frame. *)
Definition mask_and (a b : list bool) : list bool :=
  map (fun p => fst p && snd p) (combine a b).

(** [df[mask]]. *)
Definition boolean_index (df : DataFrame) (mask : list bool) : DataFrame :=
  mkDF (columns df) (select mask (rows df)).

(** Numbers are carried as integers that stand for the machine numbers of
    a column (int64 when every cell of the column as read is an integer,
    float64 otherwise).  How numpy adds them up is not part of this
    repository: the sum of a non-empty numeric array is the parameter
    [np_sum], the sum of two scalars the parameter [np_add]. *)
Definition fill_zero (c : cell) : Z :=
  match c with Num v => v | _ => 0%Z end.

Definition array_sum (np_sum : list Z -> Z) (a : list Z) : Z :=
  match a with
  | [] => 0%Z
  | _ => np_sum a
  end.

Definition join_text (s : Series) : string :=
  fold_right (fun c acc => match c with
                           | Str t => (t ++ acc)%string
                           | _ => acc
                           end) EmptyString s.

(** [series.sum()]: missing cells are replaced by zero and the array is
    summed; the empty sum is zero.  A column of text only is concatenated;
    text next to a number or to a missing cell cannot be added. *)
Definition series_sum (np_sum : list Z -> Z) (s : Series) : result cell :=
  if existsb is_str s then
    if forallb is_str s then Ok (Str (join_text s)) else Raise TypeError
  else Ok (Num (array_sum np_sum (map fill_zero s))).

(** [series.values[0]]. *)
Definition values0 (s : Series) : result cell :=
  match s with
  | [] => Raise IndexError
  | v :: _ => Ok v
  end.

(** [a + b] on scalars: a missing operand gives a missing result, two texts
    are concatenated, text and a number cannot be added. *)
Definition add_cell (np_add : Z -> Z -> Z) (a b : cell) : result cell :=
  match a, b with
  | Num x, Num y => Ok (Num (np_add x y))
  | Str s, Str t => Ok (Str (s ++ t))
  | Str _, _ | _, Str _ => Raise TypeError
  | _, _ => Ok NaN
  end.

(** The key column of a merge: the label must name exactly one column. *)
Definition merge_key (df : DataFrame) (label : string) : result Series :=
  match count_label label (columns df) with
  | 0 => Raise KeyError
  | 1 => Ok (column_at (index_of label (columns df)) (rows df))
  | _ => Raise ValueError
  end.

(** A column holding numbers and no text has a numeric dtype. *)
Definition numeric_dtype (s : Series) : bool :=
  existsb is_num s && negb (existsb is_str s).

Definition add_suffix (sfx : string) (other labels : list string)
  : list string :=
  map (fun c => if has_label c other then (c ++ sfx)%string else c) labels.

Definition drop_mask (label : string) (labels : list string) : list bool :=
  map (fun c => negb (String.eqb c label)) labels.

(** [left.merge(right, how="left", left_on=..., right_on=...)].
    - the rows of [left] in their order; each is followed by the cells of
      every row of [right] with the same key, in the order of [right], or by
      missing cells when there is none (missing keys match each other);
    - a text key column cannot be merged with a numeric one;
    - labels the two frames share get the suffixes [_x] and [_y]; when both
      keys have one label, only one key column is kept. *)
Definition merge_left (left right : DataFrame) (left_on right_on : string)
  : result DataFrame :=
  lk <- merge_key left left_on ;;
  rk <- merge_key right right_on ;;
  if xorb (numeric_dtype lk) (numeric_dtype rk) then Raise ValueError
  else
    let same := String.eqb left_on right_on in
    let empty := (length (rows left) =? 0)%nat in
    let lmask := if same && empty then drop_mask left_on (columns left)
                 else map (fun _ => true) (columns left) in
    let rmask := if same && negb empty then drop_mask right_on (columns right)
                 else map (fun _ => true) (columns right) in
    let lcols := select lmask (columns left) in
    let rcols := select rmask (columns right) in
    let li := index_of left_on (columns left) in
    let ri := index_of right_on (columns right) in
    Ok (mkDF (add_suffix "_x" rcols lcols ++ add_suffix "_y" lcols rcols)
          (flat_map
             (fun l =>
                match filter (fun r => cell_eqb (nth ri r NaN) (nth li l NaN))
                             (rows right) with
                | [] => [select lmask l ++ repeat NaN (length rcols)]
                | ms => map (fun r => select lmask l ++ select rmask r) ms
                end)
             (rows left))).

(** [df.rename(columns={old: new})]. *)
Definition rename (df : DataFrame) (old new : string) : DataFrame :=
  mkDF (map (fun c => if String.eqb c old then new else c) (columns df))
       (rows df).

End Pandas.
Import Pandas.

(** ** The script *)

(** [process_road_euro_stat(df, cols, first_col)], lines 20-26. *)
Definition process_road_euro_stat (df : DataFrame) (cols : list string)
  (first_col : string) : result DataFrame :=
  compound <- getitem df first_col ;;
  compound <- str_accessor compound ;;
  split_columns <-
    set_columns (split_width compound) (str_split_expand compound) cols ;;
  df <- drop df first_col ;;
  let df := concat_axis1 split_columns df in
  let df := mkDF (map strip (columns df)) (rows df) in
  let id_vars := columns split_columns in
  melt df id_vars "TIME_PERIOD" "value".

(** The country table read from the spreadsheet, with the four columns the
    script names at line 48. *)
Record CountryRow : Type := mkCountry {
  Country : cell;
  Alpha2 : cell;
  Alpha3 : cell;
  Numeric : cell
}.

Definition country_updates : list (string * string) :=
  [("US", "United States"); ("GB", "United Kingdom");
   ("NL", "Netherlands"); ("MD", "Moldova")].

Definition code_updates : list (string * string) :=
  [("Greece", "EL"); ("United Kingdom", "UK")].

(** [t.loc[t["Alpha-2 code"] == code, "Country"] = country]. *)
Definition set_country (code country : string) (t : list CountryRow)
  : list CountryRow :=
  map (fun r => if eq_str (Alpha2 r) code
                then mkCountry (Str country) (Alpha2 r) (Alpha3 r) (Numeric r)
                else r) t.

(** [t.loc[t.Country == country, "Alpha-2 code"] = code]. *)
Definition set_code (country code : string) (t : list CountryRow)
  : list CountryRow :=
  map (fun r => if eq_str (Country r) country
                then mkCountry (Country r) (Str code) (Alpha3 r) (Numeric r)
                else r) t.

(** The first loop, lines 41-42. *)
Definition apply_country_updates (t : list CountryRow) : list CountryRow :=
  fold_left (fun t kv => set_country (fst kv) (snd kv) t) country_updates t.

(** The second loop, lines 44-45. *)
Definition apply_code_updates (t : list CountryRow) : list CountryRow :=
  fold_left (fun t kv => set_code (fst kv) (snd kv) t) code_updates t.

(** The two loops in the order of the source. *)
Definition corrections (t : list CountryRow) : list CountryRow :=
  apply_code_updates (apply_country_updates t).

Definition new_rows : list CountryRow :=
  [mkCountry (Str "Kosovo") (Str "XK") (Str "XKO") (Num 9999)].

(** [get_country_codes(excel_path)], lines 37-51; [excel] is the table that
    [pd.read_excel] returns. *)
Definition get_country_codes (excel : list CountryRow) : list CountryRow :=
  let country_codes := corrections excel in
  country_codes ++ new_rows.

(** [country_codes[["Country", "Alpha-2 code"]]]. *)
Definition country_frame (t : list CountryRow) : DataFrame :=
  mkDF ["Country"; "Alpha-2 code"] (map (fun r => [Country r; Alpha2 r]) t).

(** [merge_and_rename(df, merge_on, new_column_name)], lines 66-75. *)
Definition merge_and_rename (excel : list CountryRow) (df : DataFrame)
  (merge_on new_column_name : string) : result DataFrame :=
  let country_codes := get_country_codes excel in
  df <- merge_left df (country_frame country_codes) merge_on "Alpha-2 code" ;;
  let df := rename df "Country" new_column_name in
  drop df "Alpha-2 code".

Definition lgtt_cols : list string :=
  ["freq"; "tra_type"; "c_unload"; "nst07"; "unit"; "geo"].
Definition lgtt_fc : string := "freq,tra_type,c_unload,nst07,unit,geo\TIME_PERIOD".

Definition ugtt_cols : list string :=
  ["freq"; "tra_type"; "c_load"; "nst07"; "unit"; "geo"].
Definition ugtt_fc : string := "freq,tra_type,c_load,nst07,unit,geo\TIME_PERIOD".

Definition cross_cols : list string :=
  ["freq"; "tra_type"; "c_load"; "c_unload"; "nst07"; "unit"; "geo"].
Definition cross_fc : string :=
  "freq,tra_type,c_load,c_unload,nst07,unit,geo\TIME_PERIOD".

(** Lines 106-110: [lgtt = lgtt[(...) & ... & (lgtt.c_unload.str.len() == 2)]].
    The comparisons are evaluated from left to right; the [.str] accessor of
    the last one is refused on a code column without text. *)
Definition filter_lgtt (lgtt : DataFrame) : result DataFrame :=
  tra_type <- getattr lgtt "tra_type" ;;
  unit <- getattr lgtt "unit" ;;
  nst07 <- getattr lgtt "nst07" ;;
  period <- getattr lgtt "TIME_PERIOD" ;;
  c_unload <- getattr lgtt "c_unload" ;;
  c_unload <- str_accessor c_unload ;;
  Ok (boolean_index lgtt
        (mask_and
           (mask_and
              (mask_and (mask_and (eq_scalar tra_type "TOTAL")
                                  (eq_scalar unit "THS_T"))
                        (eq_scalar nst07 "TOTAL"))
              (eq_scalar period "2022"))
           (eq_num (str_len c_unload) 2))).

(** Lines 112-116. *)
Definition filter_ugtt (ugtt : DataFrame) : result DataFrame :=
  tra_type <- getattr ugtt "tra_type" ;;
  unit <- getattr ugtt "unit" ;;
  nst07 <- getattr ugtt "nst07" ;;
  period <- getattr ugtt "TIME_PERIOD" ;;
  c_load <- getattr ugtt "c_load" ;;
  c_load <- str_accessor c_load ;;
  Ok (boolean_index ugtt
        (mask_and
           (mask_and
              (mask_and (mask_and (eq_scalar tra_type "TOTAL")
                                  (eq_scalar unit "THS_T"))
                        (eq_scalar nst07 "TOTAL"))
              (eq_scalar period "2022"))
           (eq_num (str_len c_load) 2))).

(** Lines 118-123. *)
Definition filter_cross (cross : DataFrame) : result DataFrame :=
  tra_type <- getattr cross "tra_type" ;;
  unit <- getattr cross "unit" ;;
  nst07 <- getattr cross "nst07" ;;
  period <- getattr cross "TIME_PERIOD" ;;
  c_load <- getattr cross "c_load" ;;
  c_load <- str_accessor c_load ;;
  c_unload <- getattr cross "c_unload" ;;
  c_unload <- str_accessor c_unload ;;
  Ok (boolean_index cross
        (mask_and
           (mask_and
              (mask_and
                 (mask_and (mask_and (eq_scalar tra_type "TOTAL")
                                     (eq_scalar unit "THS_T"))
                           (eq_scalar nst07 "TOTAL"))
                 (eq_scalar period "2022"))
              (eq_num (str_len c_load) 2))
           (eq_num (str_len c_unload) 2))).

(** Line 125: the sum over the Belgium-to-France rows of the cross table. *)
Definition cross_be_fr (np_sum : list Z -> Z) (cross : DataFrame)
  : result cell :=
  load_country <- getattr cross "load_country" ;;
  unload_country <- getattr cross "unload_country" ;;
  let sel := boolean_index cross
               (mask_and (eq_scalar load_country "Belgium")
                         (eq_scalar unload_country "France")) in
  value <- getitem sel "value" ;;
  series_sum np_sum value.

(** Line 126: the first value among the Belgium/France rows of lgtt. *)
Definition lgtt_be_fr (lgtt : DataFrame) : result cell :=
  geo_country <- getattr lgtt "geo_country" ;;
  unload_country <- getattr lgtt "unload_country" ;;
  let sel := boolean_index lgtt
               (mask_and (eq_scalar geo_country "Belgium")
                         (eq_scalar unload_country "France")) in
  value <- getattr sel "value" ;;
  values0 value.

(** Line 127: the first value among the Belgium/France rows of ugtt. *)
Definition ugtt_be_fr (ugtt : DataFrame) : result cell :=
  load_country <- getattr ugtt "load_country" ;;
  geo_country <- getattr ugtt "geo_country" ;;
  let sel := boolean_index ugtt
               (mask_and (eq_scalar load_country "Belgium")
                         (eq_scalar geo_country "France")) in
  value <- getattr sel "value" ;;
  values0 value.

(** The top-level statements, lines 77-129: the three tables as read, the
    country spreadsheet as read, and the number printed. *)
Definition main (np_sum : list Z -> Z) (np_add : Z -> Z -> Z)
  (excel : list CountryRow) (lgtt ugtt cross : DataFrame) : result cell :=
  lgtt <- process_road_euro_stat lgtt lgtt_cols lgtt_fc ;;
  ugtt <- process_road_euro_stat ugtt ugtt_cols ugtt_fc ;;
  cross <- process_road_euro_stat cross cross_cols cross_fc ;;
  lgtt <- merge_and_rename excel lgtt "c_unload" "unload_country" ;;
  lgtt <- merge_and_rename excel lgtt "geo" "geo_country" ;;
  ugtt <- merge_and_rename excel ugtt "c_load" "load_country" ;;
  ugtt <- merge_and_rename excel ugtt "geo" "geo_country" ;;
  cross <- merge_and_rename excel cross "c_load" "load_country" ;;
  cross <- merge_and_rename excel cross "c_unload" "unload_country" ;;
  lgtt <- filter_lgtt lgtt ;;
  ugtt <- filter_ugtt ugtt ;;
  cross <- filter_cross cross ;;
  c <- cross_be_fr np_sum cross ;;
  l <- lgtt_be_fr lgtt ;;
  u <- ugtt_be_fr ugtt ;;
  cl <- add_cell np_add c l ;;
  add_cell np_add cl u.

(** ** Tables and predicates of the statements *)

Definition ex_wide : DataFrame :=
  mkDF ["k,geo\TIME_PERIOD"; "2021 "; "2022 "]
       [[Str "A,BE"; Num 1; Num 2]; [Str "B,FR"; NaN; Num 4]].

Definition ex_excel : list CountryRow :=
  [mkCountry (Str "Belgium") (Str "BE") (Str "BEL") (Num 56);
   mkCountry (Str "France") (Str "FR") (Str "FRA") (Num 250);
   mkCountry (Str "United Kingdom of Great Britain") (Str "GB") (Str "GBR") (Num 826);
   mkCountry (Str "Greece") (Str "GR") (Str "GRC") (Num 300)].

Definition ex_lgtt : DataFrame :=
  mkDF [lgtt_fc; "2021 "; "2022 "]
       [[Str "A,TOTAL,FR,TOTAL,THS_T,BE"; Num 10; Num 11];
        [Str "A,TOTAL,GB,TOTAL,THS_T,BE"; Num 20; Num 21];
        [Str "A,TOTAL,EU27_2020,TOTAL,THS_T,BE"; Num 30; Num 31]].

Definition ex_ugtt : DataFrame :=
  mkDF [ugtt_fc; "2021 "; "2022 "]
       [[Str "A,TOTAL,BE,TOTAL,THS_T,FR"; Num 40; Num 41];
        [Str "A,TOTAL,BE,TOTAL,MIO_TKM,FR"; Num 50; Num 51]].

Definition ex_cross : DataFrame :=
  mkDF [cross_fc; "2021 "; "2022 "]
       [[Str "A,TOTAL,BE,FR,TOTAL,THS_T,NL"; Num 1; Num 2];
        [Str "A,TOTAL,BE,FR,TOTAL,THS_T,DE"; Num 3; NaN];
        [Str "A,TOTAL,BE,FR,TOTAL,THS_T,LU"; Num 5; Num 6]].

(** What the two loops do to one row: the first loop on one row ... *)
Definition rename_row (r : CountryRow) : CountryRow :=
  fold_left
    (fun r kv => if eq_str (Alpha2 r) (fst kv)
                 then mkCountry (Str (snd kv)) (Alpha2 r) (Alpha3 r) (Numeric r)
                 else r)
    country_updates r.

(** ... the second loop on one row ... *)
Definition recode_row (r : CountryRow) : CountryRow :=
  fold_left
    (fun r kv => if eq_str (Country r) (fst kv)
                 then mkCountry (Country r) (Str (snd kv)) (Alpha3 r) (Numeric r)
                 else r)
    code_updates r.

(** ... and both, in the order of the source. *)
Definition correct_row (r : CountryRow) : CountryRow :=
  recode_row (rename_row r).

(** Number of rows carrying a 2-letter code. *)
Definition count_code (code : string) (t : list CountryRow) : nat :=
  length (filter (fun r => eq_str (Alpha2 r) code) t).

(** The cell of row [r] under [label]. *)
Definition field (df : DataFrame) (r : list cell) (label : string) : cell :=
  nth (index_of label (columns df)) r NaN.

(** Each of [labels] names exactly one column of [df]. *)
Definition has_columns (df : DataFrame) (labels : list string) : Prop :=
  Forall (fun l => count_label l (columns df) = 1) labels.

(** The column [label] of [df] is open to the [.str] accessor: it has a text
    cell, or the table has no row. *)
Definition holds_text (df : DataFrame) (label : string) : Prop :=
  rows df = []
  \/ exists r, In r (rows df) /\ is_str (field df r label) = true.

(** A text cell of exactly two characters. *)
Definition two_letters (c : cell) : bool :=
  match c with
  | Str t => (String.length t =? 2)%nat
  | _ => false
  end.

(** The predicate of the three filters, on a row, as a boolean ... *)
Definition keptb (df : DataFrame) (codes : list string) (r : list cell)
  : bool :=
  eq_str (field df r "tra_type") "TOTAL"
  && eq_str (field df r "unit") "THS_T"
  && eq_str (field df r "nst07") "TOTAL"
  && eq_str (field df r "TIME_PERIOD") "2022"
  && forallb (fun c => two_letters (field df r c)) codes.

(** ... and as a proposition. *)
Definition kept (df : DataFrame) (codes : list string) (r : list cell)
  : Prop :=
  field df r "tra_type" = Str "TOTAL"
  /\ field df r "unit" = Str "THS_T"
  /\ field df r "nst07" = Str "TOTAL"
  /\ field df r "TIME_PERIOD" = Str "2022"
  /\ forall c, In c codes ->
       exists t, field df r c = Str t /\ String.length t = 2.

(** [res] is [df] cut down to the rows that satisfy the predicate, in their
    order: none missing, none added. *)
Definition filtered_to (df : DataFrame) (codes : list string)
  (res : result DataFrame) : Prop :=
  exists out,
    res = Ok out
    /\ columns out = columns df
    /\ rows out = filter (keptb df codes) (rows df)
    /\ forall r, In r (rows out) <-> In r (rows df) /\ kept df codes r.

(** The rows of [df] with "Belgium" under [a] and "France" under [b]. *)
Definition matching (df : DataFrame) (a b : string) : list (list cell) :=
  filter (fun r => eq_str (field df r a) "Belgium"
                   && eq_str (field df r b) "France") (rows df).

(** The numbers among some cells, and their sum. *)
Definition numbers (s : list cell) : list Z :=
  flat_map (fun c => match c with Num v => [v] | _ => [] end) s.

Definition Zsum (l : list Z) : Z := fold_right Z.add 0%Z l.

(** The three example tables after reshaping and annotating. *)
Definition ex_lgtt_annotated : DataFrame :=
  mkDF ["freq"; "tra_type"; "c_unload"; "nst07"; "unit"; "geo";
        "TIME_PERIOD"; "value"; "unload_country"; "geo_country"]
    [[Str "A"; Str "TOTAL"; Str "FR"; Str "TOTAL"; Str "THS_T"; Str "BE";
      Str "2021"; Num 10; Str "France"; Str "Belgium"];
     [Str "A"; Str "TOTAL"; Str "GB"; Str "TOTAL"; Str "THS_T"; Str "BE";
      Str "2021"; Num 20; NaN; Str "Belgium"];
     [Str "A"; Str "TOTAL"; Str "EU27_2020"; Str "TOTAL"; Str "THS_T";
      Str "BE"; Str "2021"; Num 30; NaN; Str "Belgium"];
     [Str "A"; Str "TOTAL"; Str "FR"; Str "TOTAL"; Str "THS_T"; Str "BE";
      Str "2022"; Num 11; Str "France"; Str "Belgium"];
     [Str "A"; Str "TOTAL"; Str "GB"; Str "TOTAL"; Str "THS_T"; Str "BE";
      Str "2022"; Num 21; NaN; Str "Belgium"];
     [Str "A"; Str "TOTAL"; Str "EU27_2020"; Str "TOTAL"; Str "THS_T";
      Str "BE"; Str "2022"; Num 31; NaN; Str "Belgium"]].

Definition ex_ugtt_annotated : DataFrame :=
  mkDF ["freq"; "tra_type"; "c_load"; "nst07"; "unit"; "geo";
        "TIME_PERIOD"; "value"; "load_country"; "geo_country"]
    [[Str "A"; Str "TOTAL"; Str "BE"; Str "TOTAL"; Str "THS_T"; Str "FR";
      Str "2021"; Num 40; Str "Belgium"; Str "France"];
     [Str "A"; Str "TOTAL"; Str "BE"; Str "TOTAL"; Str "MIO_TKM"; Str "FR";
      Str "2021"; Num 50; Str "Belgium"; Str "France"];
     [Str "A"; Str "TOTAL"; Str "BE"; Str "TOTAL"; Str "THS_T"; Str "FR";
      Str "2022"; Num 41; Str "Belgium"; Str "France"];
     [Str "A"; Str "TOTAL"; Str "BE"; Str "TOTAL"; Str "MIO_TKM"; Str "FR";
      Str "2022"; Num 51; Str "Belgium"; Str "France"]].

Definition ex_cross_annotated : DataFrame :=
  mkDF ["freq"; "tra_type"; "c_load"; "c_unload"; "nst07"; "unit"; "geo";
        "TIME_PERIOD"; "value"; "load_country"; "unload_country"]
    [[Str "A"; Str "TOTAL"; Str "BE"; Str "FR"; Str "TOTAL"; Str "THS_T";
      Str "NL"; Str "2021"; Num 1; Str "Belgium"; Str "France"];
     [Str "A"; Str "TOTAL"; Str "BE"; Str "FR"; Str "TOTAL"; Str "THS_T";
      Str "DE"; Str "2021"; Num 3; Str "Belgium"; Str "France"];
     [Str "A"; Str "TOTAL"; Str "BE"; Str "FR"; Str "TOTAL"; Str "THS_T";
      Str "LU"; Str "2021"; Num 5; Str "Belgium"; Str "France"];
     [Str "A"; Str "TOTAL"; Str "BE"; Str "FR"; Str "TOTAL"; Str "THS_T";
      Str "NL"; Str "2022"; Num 2; Str "Belgium"; Str "France"];
     [Str "A"; Str "TOTAL"; Str "BE"; Str "FR"; Str "TOTAL"; Str "THS_T";
      Str "DE"; Str "2022"; NaN; Str "Belgium"; Str "France"];
     [Str "A"; Str "TOTAL"; Str "BE"; Str "FR"; Str "TOTAL"; Str "THS_T";
      Str "LU"; Str "2022"; Num 6; Str "Belgium"; Str "France"]].

(** A table in which two rows are Belgium/France rows. *)
Definition ex_two_matches : DataFrame :=
  mkDF ["value"; "load_country"; "unload_country"; "geo_country"]
    [[Num 7; Str "Belgium"; Str "France"; Str "Belgium"];
     [Num 8; Str "Belgium"; Str "France"; Str "Belgium"];
     [Num 9; Str "Germany"; Str "Spain"; Str "Belgium"]].

(** A table with a flagged value, kept as text, next to a number. *)
Definition ex_flagged : DataFrame :=
  mkDF ["load_country"; "unload_country"; "value"]
       [[Str "Belgium"; Str "France"; Num 5];
        [Str "Belgium"; Str "France"; Str "12 e"]].

(** The names the corrected table [t] gives to a key: the names of the
    entries with that code, in the order of the table, or one missing name
    when no entry has it. *)
Definition country_names (t : list CountryRow) (key : cell) : list cell :=
  match filter (fun e => cell_eqb (Alpha2 e) key) t with
  | [] => [NaN]
  | ms => map Country ms
  end.

(** A frame that can be annotated on column [merge_on] under the label
    [new_column_name]: rows as wide as the header, [merge_on] one of its
    columns and holding codes (text or missing, no number), no column
    already labelled like those of the country table, and a new label that is
    not the one dropped after the join. *)
Definition joinable (df : DataFrame) (merge_on new_column_name : string)
  : Prop :=
  Forall (fun r => length r = length (columns df)) (rows df)
  /\ count_label merge_on (columns df) = 1
  /\ has_label "Country" (columns df) = false
  /\ has_label "Alpha-2 code" (columns df) = false
  /\ new_column_name <> "Alpha-2 code"
  /\ Forall (fun r => is_num (field df r merge_on) = false) (rows df).

(** A reshaped table with a known, an unknown, a recoded and a missing
    code. *)
Definition ex_codes : DataFrame :=
  mkDF ["geo"; "TIME_PERIOD"; "value"]
    [[Str "BE"; Str "2022"; Num 1];
     [Str "ZZ"; Str "2022"; Num 2];
     [Str "GB"; Str "2022"; Num 3];
     [Str "GR"; Str "2022"; Num 4];
     [NaN; Str "2022"; Num 5]].

(** The spreadsheet names each of its "GR" rows "Greece". *)
Definition gr_is_greece (excel : list CountryRow) : Prop :=
  forall r, In r excel -> Alpha2 r = Str "GR" -> Country r = Str "Greece".


(** The function once the compound column is found: what remains depends on
    the header only through the position of the compound column and the
    stripped labels of the other columns. *)
Definition reshape_from (compound : Series) (others : list string)
  (other_cells : list (list cell)) (cols : list string) : result DataFrame :=
  compound <- str_accessor compound ;;
  split_columns <-
    set_columns (split_width compound) (str_split_expand compound) cols ;;
  let df := concat_axis1 split_columns (mkDF others other_cells) in
  melt (mkDF (map strip (columns df)) (rows df))
       (columns split_columns) "TIME_PERIOD" "value".

(** Equality of two lists of cells. *)
Fixpoint cells_eqb (a b : list cell) : bool :=
  match a, b with
  | [], [] => true
  | x :: a', y :: b' => cell_eqb x y && cells_eqb a' b'
  | _, _ => false
  end.

(** The parts of a wide table: the labels and the cells of the columns
    other than the compound column, and the fields of the compound cell. *)
Definition year_labels (df : DataFrame) (first_col : string) : list string :=
  select (drop_mask first_col (columns df)) (columns df).

Definition year_cells (df : DataFrame) (first_col : string) (r : list cell)
  : list cell :=
  select (drop_mask first_col (columns df)) r.

Definition key_fields (df : DataFrame) (first_col : string) (r : list cell)
  : list cell :=
  split_cell (field df r first_col).

(** The records the reshaping produces: for each year column in turn, one
    record per row. *)
Definition tidy_rows (df : DataFrame) (first_col : string)
  : list (list cell) :=
  flat_map
    (fun j =>
       map (fun r => key_fields df first_col r
                     ++ [Str (nth j (map strip (year_labels df first_col)) "");
                         nth j (year_cells df first_col r) NaN])
           (rows df))
    (seq 0 (length (year_labels df first_col))).

(** A wide table that [process_road_euro_stat] reshapes under the key
    names [cols]:
    - its rows are as wide as its header and [first_col] labels one column;
    - it has a row, and every compound cell is text with as many
      comma-separated fields as there are key names;
    - the key names are trimmed, pairwise distinct, and none is a stripped
      label of another column;
    - ["value"] is neither a key name nor a stripped label, and
      ["TIME_PERIOD"] is not a key name. *)
Record reshapable (df : DataFrame) (cols : list string) (first_col : string)
  : Prop := {
  rs_wide : Forall (fun r => length r = length (columns df)) (rows df);
  rs_first_col : count_label first_col (columns df) = 1;
  rs_rows : rows df <> [];
  rs_fields :
    Forall (fun r => exists s, field df r first_col = Str s
                               /\ length (split "," s) = length cols)
           (rows df);
  rs_trimmed : Forall (fun c => trimmed c = true) cols;
  rs_distinct : NoDup cols;
  rs_apart :
    forall c, In c cols -> ~ In c (map strip (year_labels df first_col));
  rs_value_key : ~ In "value" cols;
  rs_value_year : ~ In "value" (map strip (year_labels df first_col));
  rs_period : ~ In "TIME_PERIOD" cols
}.

Arguments rs_wide {df cols first_col}.
Arguments rs_first_col {df cols first_col}.
Arguments rs_rows {df cols first_col}.
Arguments rs_fields {df cols first_col}.
Arguments rs_trimmed {df cols first_col}.
Arguments rs_distinct {df cols first_col}.
Arguments rs_apart {df cols first_col}.
Arguments rs_value_key {df cols first_col}.
Arguments rs_value_year {df cols first_col}.
Arguments rs_period {df cols first_col}.

(** What re-pivoting needs on top: the year labels stay distinct once
    stripped, and no two rows have the same compound cell. *)
Record keyed (df : DataFrame) (first_col : string) : Prop := {
  kd_years : NoDup (map strip (year_labels df first_col));
  kd_rows : NoDup (map (fun r => field df r first_col) (rows df))
}.

Arguments kd_years {df first_col}.
Arguments kd_rows {df first_col}.

(** Re-pivoting the tidy table on the key fields and the year, as the
    spec words it: the values of the records that carry the given key fields
    and year.  (pandas [pivot] takes the single such value and refuses a table
    in which there are several.) *)
Definition pivot_cell (tidy : DataFrame) (cols : list string)
  (key : list cell) (year : string) : list cell :=
  map (fun r => field tidy r "value")
      (filter (fun r => cells_eqb (map (field tidy r) cols) key
                        && cell_eqb (field tidy r "TIME_PERIOD") (Str year))
              (rows tidy)).

(** A frame whose first columns are the key columns [cols], holding no
    number, and whose rows are as wide as its header. *)
Definition key_frame (cols : list string) (f : DataFrame) : Prop :=
  (exists extra, columns f = cols ++ extra)
  /\ Forall (fun r => length r = length (columns f)
                      /\ Forall (fun c => is_num c = false)
                                (firstn (length cols) r))
            (rows f).

(** The key cells of a row once the split is as wide as the key names:
    the fields of the compound cell, then missing cells. *)
Definition padded_keys (df : DataFrame) (cols : list string)
  (first_col : string) (r : list cell) : list cell :=
  pad_row (length cols) (key_fields df first_col r).

(** The spreadsheet follows ISO 3166: it lists the United Kingdom under
    "GB" and Greece, by that name, under "GR", and does not use the codes
    "UK", "EL" and "XK". *)
Definition iso_spreadsheet (excel : list CountryRow) : Prop :=
  (exists r, In r excel /\ Alpha2 r = Str "GB")
  /\ (exists r, In r excel /\ Alpha2 r = Str "GR" /\ Country r = Str "Greece")
  /\ forall r, In r excel ->
       Alpha2 r <> Str "UK" /\ Alpha2 r <> Str "EL" /\ Alpha2 r <> Str "XK".

(** The codes Eurostat uses where ISO 3166 differs, with the names the
    corrected table has for them. *)
Definition eurostat_codes : list (string * string) :=
  [("UK", "United Kingdom"); ("EL", "Greece"); ("XK", "Kosovo")].

(** The columns other than the compound column hold numbers or missing
    cells, as [read_csv] gives them when every cell is a number or one of the
    [na_values]. *)
Definition numeric_years (df : DataFrame) (first_col : string) : Prop :=
  Forall (fun r => Forall (fun c => is_str c = false)
                          (year_cells df first_col r))
         (rows df).

(** The lgtt table as it stands at line 126: reshaped (line 92), annotated
    (lines 97-98) and filtered (lines 106-110). *)
Definition lgtt_table (excel : list CountryRow) (lgtt : DataFrame)
  : result DataFrame :=
  t <- process_road_euro_stat lgtt lgtt_cols lgtt_fc ;;
  t <- merge_and_rename excel t "c_unload" "unload_country" ;;
  t <- merge_and_rename excel t "geo" "geo_country" ;;
  filter_lgtt t.

(** The ugtt table as it stands at line 127 (lines 93, 100-101, 112-116). *)
Definition ugtt_table (excel : list CountryRow) (ugtt : DataFrame)
  : result DataFrame :=
  t <- process_road_euro_stat ugtt ugtt_cols ugtt_fc ;;
  t <- merge_and_rename excel t "c_load" "load_country" ;;
  t <- merge_and_rename excel t "geo" "geo_country" ;;
  filter_ugtt t.

(** The cross table as it stands at line 125 (lines 94, 103-104,
    118-123). *)
Definition cross_table (excel : list CountryRow) (cross : DataFrame)
  : result DataFrame :=
  t <- process_road_euro_stat cross cross_cols cross_fc ;;
  t <- merge_and_rename excel t "c_load" "load_country" ;;
  t <- merge_and_rename excel t "c_unload" "unload_country" ;;
  filter_cross t.

(** The values of the Belgium/France rows of a table. *)
Definition be_fr_values (df : DataFrame) (a b : string) : list cell :=
  map (fun r => field df r "value") (matching df a b).

(** [a + b] on numbers and missing values, for the scalar addition
    [np_add]. *)
Definition nan_add (np_add : Z -> Z -> Z) (a b : cell) : cell :=
  match a, b with
  | Num x, Num y => Num (np_add x y)
  | _, _ => NaN
  end.

(** ** Running the script on small tables *)

Example process_ex_wide :
  process_road_euro_stat ex_wide ["k"; "geo"] "k,geo\TIME_PERIOD"
  = Ok (mkDF ["k"; "geo"; "TIME_PERIOD"; "value"]
          [[Str "A"; Str "BE"; Str "2021"; Num 1];
           [Str "B"; Str "FR"; Str "2021"; NaN];
           [Str "A"; Str "BE"; Str "2022"; Num 2];
           [Str "B"; Str "FR"; Str "2022"; Num 4]]).
Proof. reflexivity. Qed.

Example main_example :
  main Zsum Z.add ex_excel ex_lgtt ex_ugtt ex_cross = Ok (Num 60).
Proof. reflexivity. Qed.

(** ** Strings: stripping and splitting *)

Section Strings.

Lemma isspace_space : isspace " " = true.
Proof. reflexivity. Qed.

Lemma rstrip_no_last_space (s : string) : last_space (rstrip s) = false.
Proof.
  induction s as [|c r IH]; simpl; [reflexivity|].
  destruct (rstrip r) as [|d r'] eqn:E.
  - destruct (isspace c) eqn:Ec; simpl; [reflexivity | exact Ec].
  - exact IH.
Qed.

Lemma rstrip_head (c : ascii) (r : string) :
  isspace c = false -> exists r', rstrip (String c r) = String c r'.
Proof.
  intros Hc. simpl. destruct (rstrip r) as [|d r'].
  - rewrite Hc. now exists EmptyString.
  - now exists (String d r').
Qed.

Lemma lstrip_head (s : string) : head_space (lstrip s) = false.
Proof.
  induction s as [|c r IH]; simpl; [reflexivity|].
  destruct (isspace c) eqn:Ec; [exact IH | simpl; exact Ec].
Qed.

Lemma strip_trimmed (s : string) : trimmed (strip s) = true.
Proof.
  unfold trimmed, strip. rewrite rstrip_no_last_space.
  pose proof (lstrip_head s) as Hh.
  destruct (lstrip s) as [|c r]; [reflexivity|].
  simpl in Hh. destruct (rstrip_head c r Hh) as [r' ->].
  simpl. now rewrite Hh.
Qed.

Lemma lstrip_id (s : string) : head_space s = false -> lstrip s = s.
Proof. destruct s as [|c r]; simpl; [reflexivity | now intros ->]. Qed.

Lemma rstrip_id (s : string) : last_space s = false -> rstrip s = s.
Proof.
  induction s as [|c r IH]; simpl; [reflexivity|].
  destruct r as [|d r'].
  - intros ->. reflexivity.
  - intros H. rewrite (IH H). reflexivity.
Qed.

Lemma trimmed_strip (s : string) : trimmed s = true -> strip s = s.
Proof.
  unfold trimmed, strip. intros H.
  apply andb_prop in H as [H1 H2].
  apply negb_true_iff in H1, H2.
  rewrite (lstrip_id _ H1). now apply rstrip_id.
Qed.

Lemma strip_idempotent (s : string) : strip (strip s) = strip s.
Proof. apply trimmed_strip, strip_trimmed. Qed.






Lemma split_not_nil (sep : ascii) (s : string) : split sep s <> [].
Proof.
  destruct s as [|c r]; simpl; [discriminate|].
  destruct (Ascii.eqb c sep); [discriminate|].
  destruct (split sep r); discriminate.
Qed.

Lemma split_injective (sep : ascii) (s t : string) :
  split sep s = split sep t -> s = t.
Proof.
  revert t. induction s as [|c r IH]; intros [|d u]; simpl.
  - reflexivity.
  - destruct (Ascii.eqb d sep).
    + intros H. injection H as H. symmetry in H. now apply split_not_nil in H.
    + destruct (split sep u); discriminate.
  - destruct (Ascii.eqb c sep).
    + intros H. injection H as H. now apply split_not_nil in H.
    + destruct (split sep r); discriminate.
  - destruct (Ascii.eqb c sep) eqn:Ec, (Ascii.eqb d sep) eqn:Ed.
    + apply Ascii.eqb_eq in Ec, Ed. subst. intros H. injection H as H.
      f_equal. now apply IH.
    + destruct (split sep u); discriminate.
    + destruct (split sep r); discriminate.
    + destruct (split sep r) as [|h1 t1] eqn:E1; [now apply split_not_nil in E1|].
      destruct (split sep u) as [|h2 t2] eqn:E2; [now apply split_not_nil in E2|].
      intros H. injection H as Hc Hh Ht. subst.
      f_equal. apply IH. now rewrite E2.
Qed.

End Strings.

(** ** The country table: corrections and the appended row *)

Section CountryTable.

Lemma apply_country_updates_map (t : list CountryRow) :
  apply_country_updates t = map rename_row t.
Proof.
  unfold apply_country_updates, rename_row, country_updates, set_country.
  simpl. rewrite !map_map. reflexivity.
Qed.

Lemma apply_code_updates_map (t : list CountryRow) :
  apply_code_updates t = map recode_row t.
Proof.
  unfold apply_code_updates, recode_row, code_updates, set_code.
  simpl. rewrite !map_map. reflexivity.
Qed.

Lemma corrections_map (t : list CountryRow) :
  corrections t = map correct_row t.
Proof.
  unfold corrections, correct_row.
  rewrite apply_country_updates_map, apply_code_updates_map.
  apply map_map.
Qed.

Ltac case_eqb :=
  match goal with
  | |- context [String.eqb ?a ?b] =>
      let E := fresh "E" in
      destruct (String.eqb a b) eqn:E;
      [apply String.eqb_eq in E; subst | ]
  end.

Lemma correct_row_gb (r : CountryRow) :
  Alpha2 r = Str "GB" ->
  correct_row r
  = mkCountry (Str "United Kingdom") (Str "UK") (Alpha3 r) (Numeric r).
Proof.
  destruct r as [c a a3 n]. simpl. intros ->. reflexivity.
Qed.

Lemma rename_row_other (c : cell) (s : string) (a3 n : cell) :
  String.eqb s "US" = false -> String.eqb s "GB" = false ->
  String.eqb s "NL" = false -> String.eqb s "MD" = false ->
  rename_row (mkCountry c (Str s) a3 n) = mkCountry c (Str s) a3 n.
Proof.
  intros E1 E2 E3 E4. unfold rename_row. simpl.
  rewrite E1. simpl. rewrite E2. simpl. rewrite E3. simpl. rewrite E4.
  reflexivity.
Qed.

Lemma recode_row_other (u : string) (a a3 n : cell) :
  String.eqb u "Greece" = false -> String.eqb u "United Kingdom" = false ->
  recode_row (mkCountry (Str u) a a3 n) = mkCountry (Str u) a a3 n.
Proof.
  intros E1 E2. unfold recode_row. simpl.
  rewrite E1. simpl. rewrite E2. reflexivity.
Qed.

(** A row is either renamed by one of the four codes, or left alone by the
    first loop. *)
Lemma rename_row_cases (r : CountryRow) :
  (exists c a3 n code, r = mkCountry c (Str code) a3 n
                       /\ In code ["US"; "GB"; "NL"; "MD"])
  \/ rename_row r = r.
Proof.
  destruct r as [c a a3 n]. destruct a as [s| |]; [|now right|now right].
  destruct (String.eqb s "US") eqn:E1;
    [apply String.eqb_eq in E1; subst; left; exists c, a3, n, "US"; simpl; auto 10|].
  destruct (String.eqb s "GB") eqn:E2;
    [apply String.eqb_eq in E2; subst; left; exists c, a3, n, "GB"; simpl; auto 10|].
  destruct (String.eqb s "NL") eqn:E3;
    [apply String.eqb_eq in E3; subst; left; exists c, a3, n, "NL"; simpl; auto 10|].
  destruct (String.eqb s "MD") eqn:E4;
    [apply String.eqb_eq in E4; subst; left; exists c, a3, n, "MD"; simpl; auto 10|].
  right. now apply rename_row_other.
Qed.

(** A row is either recoded by one of the two names, or left alone by the
    second loop. *)
Lemma recode_row_cases (r : CountryRow) :
  (exists a a3 n name, r = mkCountry (Str name) a a3 n
                       /\ In name ["Greece"; "United Kingdom"])
  \/ recode_row r = r.
Proof.
  destruct r as [c a a3 n]. destruct c as [u| |]; [|now right|now right].
  destruct (String.eqb u "Greece") eqn:E1;
    [apply String.eqb_eq in E1; subst; left;
     exists a, a3, n, "Greece"; simpl; auto 10|].
  destruct (String.eqb u "United Kingdom") eqn:E2;
    [apply String.eqb_eq in E2; subst; left;
     exists a, a3, n, "United Kingdom"; simpl; auto 10|].
  right. now apply recode_row_other.
Qed.

Lemma correct_row_fixed (r : CountryRow) :
  correct_row (correct_row r) = correct_row r.
Proof.
  destruct (rename_row_cases r) as [(c & a3 & n & code & -> & Hc)|Hr].
  - simpl in Hc.
    destruct Hc as [<-|[<-|[<-|[<-|[]]]]]; reflexivity.
  - unfold correct_row at 2 3. rewrite Hr.
    destruct (recode_row_cases r) as [(a & a3 & n & name & -> & Hn)|Hc].
    + simpl in Hn. destruct Hn as [<-|[<-|[]]]; reflexivity.
    + rewrite Hc. unfold correct_row. now rewrite Hr, Hc.
Qed.

(** The code a corrected row carries is "EL", "UK", or the code it had. *)
Lemma correct_row_code (r : CountryRow) :
  Alpha2 (correct_row r) = Str "EL" \/ Alpha2 (correct_row r) = Str "UK"
  \/ Alpha2 (correct_row r) = Alpha2 r.
Proof.
  assert (Hn : Alpha2 (rename_row r) = Alpha2 r).
  { destruct (rename_row_cases r) as [(c & a3 & n & code & -> & Hc)|Hr].
    - simpl in Hc. destruct Hc as [<-|[<-|[<-|[<-|[]]]]]; reflexivity.
    - now rewrite Hr. }
  unfold correct_row.
  destruct (recode_row_cases (rename_row r))
    as [(a & a3 & n & name & -> & Hc)|Hc].
  - simpl in Hc. destruct Hc as [<-|[<-|[]]]; simpl; auto.
  - rewrite Hc. auto.
Qed.

Lemma correct_row_gr (r : CountryRow) :
  Alpha2 r = Str "GR" -> Country r = Str "Greece" ->
  Alpha2 (correct_row r) = Str "EL".
Proof.
  destruct r as [c a a3 n]. simpl. intros -> ->. reflexivity.
Qed.

Lemma correct_row_keeps_gr (r : CountryRow) :
  Alpha2 (correct_row r) = Str "GR" -> Alpha2 r = Str "GR".
Proof.
  intros H. destruct (correct_row_code r) as [E|[E|E]];
    rewrite E in H; try discriminate. exact H.
Qed.

Lemma correct_row_not_gb (r : CountryRow) :
  Alpha2 (correct_row r) <> Str "GB".
Proof.
  intros H. destruct (correct_row_code r) as [E|[E|E]].
  - rewrite E in H. discriminate.
  - rewrite E in H. discriminate.
  - rewrite H in E. symmetry in E.
    rewrite (correct_row_gb r E) in H. discriminate.
Qed.

Lemma in_get_country_codes (excel : list CountryRow) (e : CountryRow) :
  In e (get_country_codes excel) ->
  (exists r, In r excel /\ e = correct_row r)
  \/ e = mkCountry (Str "Kosovo") (Str "XK") (Str "XKO") (Num 9999).
Proof.
  unfold get_country_codes. rewrite corrections_map. intros H.
  apply in_app_or in H as [H|H].
  - apply in_map_iff in H as (r & <- & Hr). left. now exists r.
  - destruct H as [<-|[]]. now right.
Qed.

Lemma no_gb_after_corrections (excel : list CountryRow) (e : CountryRow) :
  In e (get_country_codes excel) -> Alpha2 e <> Str "GB".
Proof.
  intros H. apply in_get_country_codes in H as [(r & _ & ->)| ->].
  - apply correct_row_not_gb.
  - discriminate.
Qed.

Lemma no_gr_after_corrections (excel : list CountryRow) (e : CountryRow) :
  (forall r, In r excel -> Alpha2 r = Str "GR" -> Country r = Str "Greece") ->
  In e (get_country_codes excel) -> Alpha2 e <> Str "GR".
Proof.
  intros Hgr H. apply in_get_country_codes in H as [(r & Hr & ->)| ->].
  - intros E. pose proof (correct_row_keeps_gr r E) as E0.
    rewrite (correct_row_gr r E0 (Hgr r Hr E0)) in E. discriminate.
  - discriminate.
Qed.

Lemma eq_str_true (c : cell) (s : string) : eq_str c s = true <-> c = Str s.
Proof.
  destruct c as [t| |]; simpl; split; try discriminate.
  - intros H. apply String.eqb_eq in H. now subst.
  - intros H. injection H as ->. apply String.eqb_refl.
Qed.

Lemma count_code_corrections_xk (excel : list CountryRow) :
  (forall r, In r excel -> Alpha2 r <> Str "XK") ->
  count_code "XK" (corrections excel) = 0.
Proof.
  intros H. unfold count_code. rewrite corrections_map.
  induction excel as [|r t IH]; simpl; [reflexivity|].
  destruct (eq_str (Alpha2 (correct_row r)) "XK") eqn:E.
  - exfalso. apply eq_str_true in E.
    destruct (correct_row_code r) as [E'|[E'|E']]; rewrite E' in E;
      try discriminate.
    apply (H r); [now left | exact E].
  - apply IH. intros r' Hr'. apply H. now right.
Qed.

End CountryTable.

(** C3.  The code rewrites run after the name rewrites: the row of the
    spreadsheet whose 2-letter code is "GB" is, at the same position of the
    returned table, named "United Kingdom" and coded "UK". *)
Theorem C3_gb_row_renamed_then_recoded :
  forall (excel : list CountryRow) (i : nat) (r : CountryRow),
    nth_error excel i = Some r ->
    Alpha2 r = Str "GB" ->
    get_country_codes excel
    = apply_code_updates (apply_country_updates excel) ++ new_rows
    /\ nth_error (get_country_codes excel) i
       = Some (mkCountry (Str "United Kingdom") (Str "UK")
                         (Alpha3 r) (Numeric r)).
Proof.
  intros excel i r Hi Hgb. split; [reflexivity|].
  unfold get_country_codes. rewrite corrections_map.
  rewrite nth_error_app1.
  - rewrite nth_error_map, Hi. simpl. now rewrite correct_row_gb.
  - rewrite length_map. apply nth_error_Some. now rewrite Hi.
Qed.

Lemma C3_witness :
  nth_error (get_country_codes ex_excel) 2
  = Some (mkCountry (Str "United Kingdom") (Str "UK") (Str "GBR") (Num 826)).
Proof.
  apply (C3_gb_row_renamed_then_recoded ex_excel 2
           (mkCountry (Str "United Kingdom of Great Britain") (Str "GB")
                      (Str "GBR") (Num 826))); reflexivity.
Defined.

(** With the two loops in the other order the "GB" row would keep its code:
    the order of the source is what recodes it. *)
Example code_rewrites_first_keep_gb :
  map Alpha2 (apply_country_updates (apply_code_updates ex_excel))
  = [Str "BE"; Str "FR"; Str "GB"; Str "EL"].
Proof. reflexivity. Qed.

(** C6.  The two rewrite passes are idempotent: run on the corrected table
    (with or without the appended row) they change nothing. *)
Theorem C6_corrections_idempotent :
  forall excel : list CountryRow,
    corrections (corrections excel) = corrections excel
    /\ corrections (get_country_codes excel) = get_country_codes excel.
Proof.
  intros excel.
  assert (H : forall t, corrections (corrections t) = corrections t).
  { intros t. rewrite !corrections_map, map_map.
    apply map_ext. intros r. apply correct_row_fixed. }
  split; [apply H|].
  unfold get_country_codes.
  rewrite (corrections_map (_ ++ _)), map_app, <- corrections_map, H.
  reflexivity.
Qed.

(** C7.  One row is appended, the Kosovo row; when the spreadsheet has no
    row coded "XK", the returned table has exactly one. *)
Theorem C7_one_kosovo_row :
  forall excel : list CountryRow,
    (forall r, In r excel -> Alpha2 r <> Str "XK") ->
    get_country_codes excel
    = corrections excel
      ++ [mkCountry (Str "Kosovo") (Str "XK") (Str "XKO") (Num 9999)]
    /\ length (get_country_codes excel) = S (length excel)
    /\ count_code "XK" (get_country_codes excel) = 1.
Proof.
  intros excel H. split; [reflexivity|]. split.
  - unfold get_country_codes. rewrite length_app, corrections_map, length_map.
    simpl. lia.
  - pose proof (count_code_corrections_xk excel H) as H0.
    unfold count_code, get_country_codes in *.
    rewrite filter_app, length_app, H0. reflexivity.
Qed.

Lemma C7_witness :
  count_code "XK" (get_country_codes ex_excel) = 1.
Proof.
  apply (C7_one_kosovo_row ex_excel).
  intros r H. simpl in H.
  repeat (destruct H as [<-|H]; [discriminate|]). destruct H.
Defined.

(** ** Columns, masks and row predicates *)

Section Frames.

Lemma getattr_unique (df : DataFrame) (label : string) :
  count_label label (columns df) = 1 ->
  getattr df label = Ok (map (fun r => field df r label) (rows df)).
Proof. unfold getattr. now intros ->. Qed.

Lemma getitem_unique (df : DataFrame) (label : string) :
  count_label label (columns df) = 1 ->
  getitem df label = Ok (map (fun r => field df r label) (rows df)).
Proof. unfold getitem. now intros ->. Qed.

Lemma merge_key_unique (df : DataFrame) (label : string) :
  count_label label (columns df) = 1 ->
  merge_key df label = Ok (map (fun r => field df r label) (rows df)).
Proof. unfold merge_key. now intros ->. Qed.

Lemma select_map_filter {A : Type} (f : A -> bool) (l : list A) :
  select (map f l) l = filter f l.
Proof.
  induction l as [|x l IH]; simpl; [reflexivity|].
  rewrite IH. reflexivity.
Qed.

Lemma mask_and_map {A : Type} (f g : A -> bool) (l : list A) :
  mask_and (map f l) (map g l) = map (fun x => f x && g x) l.
Proof.
  unfold mask_and. induction l as [|x l IH]; simpl; [reflexivity|].
  now rewrite IH.
Qed.

Lemma eq_scalar_map {A : Type} (f : A -> cell) (l : list A) (s : string) :
  eq_scalar (map f l) s = map (fun x => eq_str (f x) s) l.
Proof. unfold eq_scalar. apply map_map. Qed.

Lemma len_eq_2_map {A : Type} (f : A -> cell) (l : list A) :
  eq_num (str_len (map f l)) 2 = map (fun x => two_letters (f x)) l.
Proof.
  unfold eq_num, str_len. rewrite !map_map. apply map_ext. intros x.
  destruct (f x) as [t| |]; simpl; try reflexivity.
  destruct (Nat.eqb_spec (String.length t) 2) as [E|E].
  - rewrite E. reflexivity.
  - apply Z.eqb_neq. lia.
Qed.

Lemma two_letters_true (c : cell) :
  two_letters c = true <-> exists t, c = Str t /\ String.length t = 2.
Proof.
  destruct c as [t| |]; simpl; split.
  - intros H. exists t. split; [reflexivity | now apply Nat.eqb_eq].
  - intros (u & E & H). injection E as ->. now apply Nat.eqb_eq.
  - discriminate.
  - intros (u & E & _). discriminate.
  - discriminate.
  - intros (u & E & _). discriminate.
Qed.

Lemma keptb_kept (df : DataFrame) (codes : list string) (r : list cell) :
  keptb df codes r = true <-> kept df codes r.
Proof.
  unfold keptb, kept.
  rewrite !andb_true_iff, !eq_str_true, forallb_forall.
  split.
  - intros ((((H1 & H2) & H3) & H4) & H5). repeat split; trivial.
    intros c Hc. apply two_letters_true. now apply H5.
  - intros (H1 & H2 & H3 & H4 & H5). repeat split; trivial.
    intros c Hc. apply two_letters_true. now apply H5.
Qed.

Lemma conjunction_mask (df : DataFrame) (codes : list string)
  (m : list bool) :
  m = map (fun r => forallb (fun c => two_letters (field df r c)) codes)
          (rows df) ->
  mask_and
    (mask_and
       (mask_and
          (mask_and (eq_scalar (map (fun r => field df r "tra_type") (rows df))
                               "TOTAL")
                    (eq_scalar (map (fun r => field df r "unit") (rows df))
                               "THS_T"))
          (eq_scalar (map (fun r => field df r "nst07") (rows df)) "TOTAL"))
       (eq_scalar (map (fun r => field df r "TIME_PERIOD") (rows df)) "2022"))
    m
  = map (keptb df codes) (rows df).
Proof.
  intros ->. rewrite !eq_scalar_map, !mask_and_map. reflexivity.
Qed.

Lemma filtered_to_intro (df : DataFrame) (codes : list string)
  (mask : list bool) :
  mask = map (keptb df codes) (rows df) ->
  filtered_to df codes (Ok (boolean_index df mask)).
Proof.
  intros ->. exists (boolean_index df (map (keptb df codes) (rows df))).
  unfold boolean_index. simpl. rewrite select_map_filter.
  split; [reflexivity|]. split; [reflexivity|]. split; [reflexivity|].
  intros r. rewrite filter_In, keptb_kept. reflexivity.
Qed.

Lemma belgium_france_mask (df : DataFrame) (a b : string) :
  boolean_index df
    (mask_and (eq_scalar (map (fun r => field df r a) (rows df)) "Belgium")
              (eq_scalar (map (fun r => field df r b) (rows df)) "France"))
  = mkDF (columns df) (matching df a b).
Proof.
  unfold boolean_index, matching.
  now rewrite !eq_scalar_map, mask_and_map, select_map_filter.
Qed.

Lemma fill_zero_numbers (s : Series) :
  Zsum (map fill_zero s) = Zsum (numbers s).
Proof.
  induction s as [|c s IH]; simpl; [reflexivity|].
  destruct c as [t|v|]; simpl; now rewrite IH.
Qed.

Lemma series_sum_numbers (np_sum : list Z -> Z) (s : Series) :
  existsb is_str s = false ->
  series_sum np_sum s = Ok (Num (array_sum np_sum (map fill_zero s))).
Proof. intros H. unfold series_sum. now rewrite H. Qed.

Lemma series_sum_raises (np_sum : list Z -> Z) (s : Series) (e : exn) :
  series_sum np_sum s = Raise e ->
  e = TypeError /\ existsb is_str s = true /\ forallb is_str s = false.
Proof.
  unfold series_sum.
  destruct (existsb is_str s); [|discriminate].
  destruct (forallb is_str s); [discriminate|].
  intros [= <-]. now repeat split.
Qed.

Lemma str_accessor_text (df : DataFrame) (label : string) :
  holds_text df label ->
  str_accessor (map (fun r => field df r label) (rows df))
  = Ok (map (fun r => field df r label) (rows df)).
Proof.
  intros [E | (r & Hr & Hs)]; unfold str_accessor.
  - rewrite E. reflexivity.
  - replace (existsb is_str (map (fun r => field df r label) (rows df)))
      with true; [reflexivity|].
    symmetry. apply existsb_exists. exists (field df r label).
    split; [|exact Hs].
    apply (in_map (fun r => field df r label)), Hr.
Qed.

Lemma no_text {A : Type} (f : A -> cell) (l : list A) :
  Forall (fun x => is_str (f x) = false) l ->
  existsb is_str (map f l) = false.
Proof.
  induction 1 as [|x l Hx _ IH]; simpl; [reflexivity|].
  now rewrite Hx, IH.
Qed.

End Frames.

(** C4.  Each of the three filters, on a table whose code columns hold
    text (or that has no row), returns a table, and keeps exactly the rows
    with transport type "TOTAL", unit "THS_T", goods category "TOTAL", year
    "2022" and a two-character code in its code columns ([c_unload] for
    lgtt, [c_load] for ugtt, both for cross): no such row is dropped, no
    other row is kept. *)
Theorem C4_filters_keep_exactly_the_predicate :
  forall lgtt ugtt cross : DataFrame,
    has_columns lgtt ["tra_type"; "unit"; "nst07"; "TIME_PERIOD"; "c_unload"] ->
    has_columns ugtt ["tra_type"; "unit"; "nst07"; "TIME_PERIOD"; "c_load"] ->
    has_columns cross
      ["tra_type"; "unit"; "nst07"; "TIME_PERIOD"; "c_load"; "c_unload"] ->
    holds_text lgtt "c_unload" ->
    holds_text ugtt "c_load" ->
    holds_text cross "c_load" ->
    holds_text cross "c_unload" ->
    filtered_to lgtt ["c_unload"] (filter_lgtt lgtt)
    /\ filtered_to ugtt ["c_load"] (filter_ugtt ugtt)
    /\ filtered_to cross ["c_load"; "c_unload"] (filter_cross cross).
Proof.
  intros lgtt ugtt cross Hl Hu Hc Tl Tu Tc1 Tc2.
  unfold has_columns in *.
  repeat rewrite Forall_cons_iff in Hl.
  repeat rewrite Forall_cons_iff in Hu.
  repeat rewrite Forall_cons_iff in Hc.
  destruct Hl as (L1 & L2 & L3 & L4 & L5 & _).
  destruct Hu as (U1 & U2 & U3 & U4 & U5 & _).
  destruct Hc as (C1 & C2 & C3 & C4 & C5 & C6 & _).
  repeat split.
  - unfold filter_lgtt.
    rewrite (getattr_unique _ _ L1), (getattr_unique _ _ L2),
      (getattr_unique _ _ L3), (getattr_unique _ _ L4),
      (getattr_unique _ _ L5).
    cbn [bind]. rewrite (str_accessor_text _ _ Tl). cbn [bind].
    apply filtered_to_intro.
    apply (conjunction_mask lgtt ["c_unload"]).
    rewrite len_eq_2_map. apply map_ext. intros r. simpl.
    now rewrite andb_true_r.
  - unfold filter_ugtt.
    rewrite (getattr_unique _ _ U1), (getattr_unique _ _ U2),
      (getattr_unique _ _ U3), (getattr_unique _ _ U4),
      (getattr_unique _ _ U5).
    cbn [bind]. rewrite (str_accessor_text _ _ Tu). cbn [bind].
    apply filtered_to_intro.
    apply (conjunction_mask ugtt ["c_load"]).
    rewrite len_eq_2_map. apply map_ext. intros r. simpl.
    now rewrite andb_true_r.
  - unfold filter_cross.
    rewrite (getattr_unique _ _ C1), (getattr_unique _ _ C2),
      (getattr_unique _ _ C3), (getattr_unique _ _ C4),
      (getattr_unique _ _ C5), (getattr_unique _ _ C6).
    cbn [bind]. rewrite (str_accessor_text _ _ Tc1). cbn [bind].
    rewrite (str_accessor_text _ _ Tc2). cbn [bind].
    apply filtered_to_intro.
    rewrite !len_eq_2_map, !eq_scalar_map, !mask_and_map.
    apply map_ext. intros r. unfold keptb. simpl.
    now rewrite andb_true_r, !andb_assoc.
Qed.

(** A code column without text: the accessor of the length test is
    refused. *)
Example filter_numeric_code_column :
  filter_lgtt
    (mkDF ["tra_type"; "unit"; "nst07"; "TIME_PERIOD"; "c_unload"]
          [[Str "TOTAL"; Str "THS_T"; Str "TOTAL"; Str "2022"; Num 12]])
  = Raise AttributeError.
Proof. reflexivity. Qed.

Example ex_lgtt_pipeline :
  (t <- process_road_euro_stat ex_lgtt lgtt_cols lgtt_fc ;;
   t <- merge_and_rename ex_excel t "c_unload" "unload_country" ;;
   merge_and_rename ex_excel t "geo" "geo_country")
  = Ok ex_lgtt_annotated.
Proof. reflexivity. Qed.

Example ex_ugtt_pipeline :
  (t <- process_road_euro_stat ex_ugtt ugtt_cols ugtt_fc ;;
   t <- merge_and_rename ex_excel t "c_load" "load_country" ;;
   merge_and_rename ex_excel t "geo" "geo_country")
  = Ok ex_ugtt_annotated.
Proof. reflexivity. Qed.

Example ex_cross_pipeline :
  (t <- process_road_euro_stat ex_cross cross_cols cross_fc ;;
   t <- merge_and_rename ex_excel t "c_load" "load_country" ;;
   merge_and_rename ex_excel t "c_unload" "unload_country")
  = Ok ex_cross_annotated.
Proof. reflexivity. Qed.

Lemma C4_witness :
  filtered_to ex_lgtt_annotated ["c_unload"] (filter_lgtt ex_lgtt_annotated)
  /\ filtered_to ex_ugtt_annotated ["c_load"] (filter_ugtt ex_ugtt_annotated)
  /\ filtered_to ex_cross_annotated ["c_load"; "c_unload"]
       (filter_cross ex_cross_annotated).
Proof.
  apply (C4_filters_keep_exactly_the_predicate
           ex_lgtt_annotated ex_ugtt_annotated ex_cross_annotated);
    try (repeat constructor; fail);
    right; eexists; (split; [left; reflexivity | reflexivity]).
Defined.

(** C1, as stated, fails: with two matching rows the positional access does
    not raise, it returns the value of the first matching row. *)
Lemma C1_counterexample :
  has_columns ex_two_matches ["geo_country"; "unload_country"; "value"]
  /\ length (matching ex_two_matches "geo_country" "unload_country") = 2
  /\ lgtt_be_fr ex_two_matches = Ok (Num 7)
  /\ lgtt_be_fr ex_two_matches <> Raise IndexError.
Proof.
  split; [repeat constructor|]. split; [reflexivity|].
  split; [reflexivity | discriminate].
Qed.

(** C1, amended.  Each of the two positional lookups raises [IndexError]
    exactly when no row is a Belgium/France row; otherwise it returns the
    value of the first such row, which is the single value when exactly one
    row matches. *)
Theorem C1_positional_lookup :
  forall lgtt ugtt : DataFrame,
    has_columns lgtt ["geo_country"; "unload_country"; "value"] ->
    has_columns ugtt ["load_country"; "geo_country"; "value"] ->
    (lgtt_be_fr lgtt = Raise IndexError
       <-> matching lgtt "geo_country" "unload_country" = [])
    /\ (forall r rest,
          matching lgtt "geo_country" "unload_country" = r :: rest ->
          lgtt_be_fr lgtt = Ok (field lgtt r "value"))
    /\ (ugtt_be_fr ugtt = Raise IndexError
          <-> matching ugtt "load_country" "geo_country" = [])
    /\ (forall r rest,
          matching ugtt "load_country" "geo_country" = r :: rest ->
          ugtt_be_fr ugtt = Ok (field ugtt r "value")).
Proof.
  intros lgtt ugtt Hl Hu. unfold has_columns in *.
  repeat rewrite Forall_cons_iff in Hl.
  repeat rewrite Forall_cons_iff in Hu.
  destruct Hl as (L1 & L2 & L3 & _). destruct Hu as (U1 & U2 & U3 & _).
  assert (Hlg : lgtt_be_fr lgtt
                = values0 (map (fun r => field lgtt r "value")
                             (matching lgtt "geo_country" "unload_country"))).
  { unfold lgtt_be_fr.
    rewrite (getattr_unique _ _ L1), (getattr_unique _ _ L2). cbn [bind].
    rewrite belgium_france_mask.
    now rewrite (getattr_unique (mkDF _ _) "value" L3). }
  assert (Hug : ugtt_be_fr ugtt
                = values0 (map (fun r => field ugtt r "value")
                             (matching ugtt "load_country" "geo_country"))).
  { unfold ugtt_be_fr.
    rewrite (getattr_unique _ _ U1), (getattr_unique _ _ U2). cbn [bind].
    rewrite belgium_france_mask.
    now rewrite (getattr_unique (mkDF _ _) "value" U3). }
  rewrite Hlg, Hug.
  repeat split.
  - destruct (matching lgtt _ _); simpl; [reflexivity | discriminate].
  - now intros ->.
  - now intros r rest ->.
  - destruct (matching ugtt _ _); simpl; [reflexivity | discriminate].
  - now intros ->.
  - now intros r rest ->.
Qed.

Lemma C1_witness :
  lgtt_be_fr ex_two_matches = Ok (Num 7)
  /\ ugtt_be_fr ex_two_matches = Raise IndexError.
Proof.
  destruct (C1_positional_lookup ex_two_matches ex_two_matches)
    as (_ & H2 & H3 & _); [repeat constructor | repeat constructor |].
  split.
  - apply (H2 [Num 7; Str "Belgium"; Str "France"; Str "Belgium"]
              [[Num 8; Str "Belgium"; Str "France"; Str "Belgium"]]).
    reflexivity.
  - apply H3. reflexivity.
Defined.

(** C9, as stated, fails: the aggregation raises when a number and a text
    value stand in the value column of two Belgium/France rows. *)
Lemma C9_counterexample :
  has_columns ex_flagged ["load_country"; "unload_country"; "value"]
  /\ length (matching ex_flagged "load_country" "unload_country") = 2
  /\ cross_be_fr Zsum ex_flagged = Raise TypeError.
Proof.
  split; [repeat constructor|]. split; reflexivity.
Qed.

(** C9, amended.  The cross-table aggregation does not depend on the number
    of Belgium/France rows.  When their value cells are numbers or missing it
    returns the sum of the value column over all of them, a missing value
    entering the sum as zero; this is the exact sum of the values present
    whenever the machine sum of the array is exact.  When no row matches the
    result is zero.  It raises only [TypeError], and only when a text value
    stands next to a value that is not text. *)
Theorem C9_cross_sum_total :
  forall (np_sum : list Z -> Z) (cross : DataFrame),
    has_columns cross ["load_country"; "unload_country"; "value"] ->
    (Forall (fun r => is_str (field cross r "value") = false)
            (matching cross "load_country" "unload_country") ->
     cross_be_fr np_sum cross
     = Ok (Num (array_sum np_sum
                  (map fill_zero
                     (be_fr_values cross "load_country" "unload_country"))))
     /\ (np_sum (map fill_zero
                   (be_fr_values cross "load_country" "unload_country"))
         = Zsum (map fill_zero
                   (be_fr_values cross "load_country" "unload_country")) ->
         cross_be_fr np_sum cross
         = Ok (Num (Zsum (numbers (be_fr_values cross "load_country"
                                     "unload_country"))))))
    /\ (matching cross "load_country" "unload_country" = [] ->
        cross_be_fr np_sum cross = Ok (Num 0))
    /\ (forall e, cross_be_fr np_sum cross = Raise e ->
          e = TypeError
          /\ exists r1 r2,
               In r1 (matching cross "load_country" "unload_country")
               /\ In r2 (matching cross "load_country" "unload_country")
               /\ is_str (field cross r1 "value") = true
               /\ is_str (field cross r2 "value") = false).
Proof.
  intros np_sum cross Hc. unfold has_columns in Hc.
  repeat rewrite Forall_cons_iff in Hc. destruct Hc as (C1 & C2 & C3 & _).
  assert (H : cross_be_fr np_sum cross
              = series_sum np_sum
                  (be_fr_values cross "load_country" "unload_country")).
  { unfold cross_be_fr.
    rewrite (getattr_unique _ _ C1), (getattr_unique _ _ C2). cbn [bind].
    rewrite belgium_france_mask.
    rewrite (getitem_unique (mkDF _ _) "value" C3). reflexivity. }
  rewrite H. unfold be_fr_values. repeat split.
  - apply series_sum_numbers, no_text. assumption.
  - intros Hx. rewrite series_sum_numbers by now apply no_text.
    do 2 f_equal. rewrite <- fill_zero_numbers.
    destruct (map fill_zero _) eqn:E; [reflexivity|].
    exact Hx.
  - intros ->. reflexivity.
  - now apply series_sum_raises in H0.
  - apply series_sum_raises in H0. destruct H0 as (_ & Ht & Hn).
    apply existsb_exists in Ht. destruct Ht as (c1 & Hc1 & Ht).
    apply in_map_iff in Hc1. destruct Hc1 as (r1 & <- & Hr1).
    assert (Hn' : exists c2, In c2 (map (fun r => field cross r "value")
                      (matching cross "load_country" "unload_country"))
                  /\ is_str c2 = false).
    { clear - Hn. induction (map _ _) as [|c l IH]; simpl in Hn;
        [discriminate|].
      apply andb_false_iff in Hn. destruct Hn as [Hn|Hn].
      - exists c. split; [now left | exact Hn].
      - destruct (IH Hn) as (c2 & Hin & Hc2).
        exists c2. split; [now right | exact Hc2]. }
    destruct Hn' as (c2 & Hc2 & Hn2).
    apply in_map_iff in Hc2. destruct Hc2 as (r2 & <- & Hr2).
    exists r1, r2. now repeat split.
Qed.

Lemma C9_witness :
  cross_be_fr Zsum ex_cross_annotated = Ok (Num 17)
  /\ cross_be_fr Zsum (mkDF ["load_country"; "unload_country"; "value"] [])
     = Ok (Num 0).
Proof.
  split.
  - apply (C9_cross_sum_total Zsum ex_cross_annotated);
      repeat constructor.
  - apply (C9_cross_sum_total Zsum
             (mkDF ["load_country"; "unload_country"; "value"] []));
      repeat constructor.
Defined.

(** ** The left join with the country table *)

Section Join.

Lemma cell_eqb_eq (a b : cell) : cell_eqb a b = true <-> a = b.
Proof.
  destruct a as [s|v|], b as [t|w|]; simpl; split; intros H;
    try discriminate; try reflexivity.
  - apply String.eqb_eq in H. now subst.
  - injection H as ->. apply String.eqb_refl.
  - apply Z.eqb_eq in H. now subst.
  - injection H as ->. apply Z.eqb_refl.
Qed.

Lemma cell_eqb_refl (a : cell) : cell_eqb a a = true.
Proof. now apply cell_eqb_eq. Qed.

Lemma select_all {A : Type} (l : list A) (m : list bool) :
  length m = length l -> Forall (fun b => b = true) m -> select m l = l.
Proof.
  revert m. induction l as [|x l IH]; intros [|b m]; simpl; try discriminate;
    try reflexivity.
  intros Hl Hm. inversion Hm as [|? ? Hb Hm']; subst.
  f_equal. apply IH; [lia | exact Hm'].
Qed.

Lemma select_app {A : Type} (m1 m2 : list bool) (l1 l2 : list A) :
  length m1 = length l1 ->
  select (m1 ++ m2) (l1 ++ l2) = select m1 l1 ++ select m2 l2.
Proof.
  revert l1. induction m1 as [|b m1 IH]; intros [|x l1]; simpl;
    try discriminate; try reflexivity.
  intros H. destruct b; simpl; rewrite IH by lia; reflexivity.
Qed.

Lemma select_const_true {A B : Type} (labels : list B) (l : list A) :
  length l = length labels -> select (map (fun _ => true) labels) l = l.
Proof.
  intros H. apply select_all.
  - now rewrite length_map.
  - apply Forall_forall. intros b Hb. apply in_map_iff in Hb as (? & <- & _).
    reflexivity.
Qed.

Lemma has_label_false (label : string) (labels : list string) :
  has_label label labels = false <-> ~ In label labels.
Proof.
  unfold has_label. split.
  - intros H Hin. assert (E : existsb (String.eqb label) labels = true).
    { apply existsb_exists. exists label. split; [exact Hin|].
      apply String.eqb_refl. }
    congruence.
  - intros H. destruct (existsb (String.eqb label) labels) eqn:E; [|reflexivity].
    apply existsb_exists in E as (x & Hx & E). apply String.eqb_eq in E.
    subst. contradiction.
Qed.

Lemma has_label_true (label : string) (labels : list string) :
  has_label label labels = true <-> In label labels.
Proof.
  unfold has_label. rewrite existsb_exists. split.
  - intros (x & Hx & E). apply String.eqb_eq in E. now subst.
  - intros H. exists label. split; [exact H | apply String.eqb_refl].
Qed.

Lemma count_label_in (label : string) (labels : list string) :
  count_label label labels = 1 -> In label labels.
Proof.
  unfold count_label. intros H.
  apply (count_occ_In string_dec). lia.
Qed.

Lemma drop_mask_absent (label : string) (labels : list string) :
  ~ In label labels -> drop_mask label labels = map (fun _ => true) labels.
Proof.
  intros H. unfold drop_mask. apply map_ext_in. intros c Hc.
  destruct (String.eqb_spec c label) as [->|_]; [contradiction | reflexivity].
Qed.

Lemma add_suffix_disjoint (sfx : string) (other labels : list string) :
  (forall c, In c labels -> ~ In c other) ->
  add_suffix sfx other labels = labels.
Proof.
  intros H. unfold add_suffix. rewrite <- (map_id labels) at 2.
  apply map_ext_in. intros c Hc.
  now rewrite (proj2 (has_label_false c other) (H c Hc)).
Qed.

Lemma rename_absent (old new : string) (labels : list string) :
  ~ In old labels ->
  map (fun c => if String.eqb c old then new else c) labels = labels.
Proof.
  intros H. rewrite <- (map_id labels) at 2. apply map_ext_in. intros c Hc.
  destruct (String.eqb_spec c old) as [->|_]; [contradiction | reflexivity].
Qed.

Lemma flat_map_ext_in {A B : Type} (f g : A -> list B) (l : list A) :
  (forall x, In x l -> f x = g x) -> flat_map f l = flat_map g l.
Proof.
  induction l as [|x l IH]; simpl; intros H; [reflexivity|].
  rewrite (H x) by now left. f_equal. apply IH. intros y Hy. apply H.
  now right.
Qed.

Lemma map_flat_map {A B C : Type} (g : B -> C) (f : A -> list B)
  (l : list A) :
  map g (flat_map f l) = flat_map (fun x => map g (f x)) l.
Proof.
  induction l as [|x l IH]; simpl; [reflexivity|].
  now rewrite map_app, IH.
Qed.

Lemma filter_map_comm {A B : Type} (g : A -> B) (p : B -> bool)
  (l : list A) :
  filter p (map g l) = map g (filter (fun x => p (g x)) l).
Proof.
  induction l as [|x l IH]; simpl; [reflexivity|].
  destruct (p (g x)); simpl; now rewrite IH.
Qed.

Lemma numeric_dtype_country_frame (excel : list CountryRow) :
  numeric_dtype
    (map (fun r => field (country_frame (get_country_codes excel)) r
                     "Alpha-2 code")
       (rows (country_frame (get_country_codes excel)))) = false.
Proof.
  unfold numeric_dtype. apply andb_false_iff. right.
  apply negb_false_iff, existsb_exists.
  exists (Str "XK"). split; [|reflexivity].
  apply in_map_iff. exists [Str "Kosovo"; Str "XK"]. split; [reflexivity|].
  simpl. apply in_map_iff.
  exists (mkCountry (Str "Kosovo") (Str "XK") (Str "XKO") (Num 9999)).
  split; [reflexivity|]. unfold get_country_codes. apply in_or_app.
  right. now left.
Qed.

Lemma numeric_dtype_codes {A : Type} (f : A -> cell) (l : list A) :
  Forall (fun x => is_num (f x) = false) l ->
  numeric_dtype (map f l) = false.
Proof.
  intros H. unfold numeric_dtype. apply andb_false_iff. left.
  induction H as [|x l Hx _ IH]; simpl; [reflexivity|].
  now rewrite Hx, IH.
Qed.

(** What [merge_and_rename] returns on a joinable frame: the rows of the
    frame in their order, each with the names its code has in the corrected
    country table. *)
Lemma merge_and_rename_ok (excel : list CountryRow) (df : DataFrame)
  (merge_on new_column_name : string) :
  joinable df merge_on new_column_name ->
  merge_and_rename excel df merge_on new_column_name
  = Ok (mkDF (columns df ++ [new_column_name])
          (flat_map
             (fun l => map (fun n => l ++ [n])
                         (country_names (get_country_codes excel)
                                        (field df l merge_on)))
             (rows df))).
Proof.
  intros (Hwf & Hon & Hc & Ha & Hnew & Hnum).
  apply has_label_false in Hc, Ha.
  assert (Hne : String.eqb merge_on "Alpha-2 code" = false).
  { apply String.eqb_neq. intros ->. apply Ha. now apply count_label_in. }
  unfold merge_and_rename, merge_left.
  rewrite (merge_key_unique df merge_on Hon).
  rewrite (merge_key_unique (country_frame _) "Alpha-2 code" eq_refl).
  cbv beta iota delta [bind].
  rewrite (numeric_dtype_codes _ _ Hnum), numeric_dtype_country_frame.
  cbv beta iota delta [xorb]. rewrite Hne.
  cbv beta iota delta [andb].
  rewrite (select_const_true (columns df) (columns df) eq_refl).
  rewrite (select_const_true (columns (country_frame _))
             (columns (country_frame (get_country_codes excel))) eq_refl).
  change (columns (country_frame (get_country_codes excel)))
    with ["Country"; "Alpha-2 code"].
  rewrite add_suffix_disjoint.
  2:{ intros c Hcin [<-|[<-|[]]]; contradiction. }
  rewrite add_suffix_disjoint.
  2:{ intros c [<-|[<-|[]]]; assumption. }
  unfold rename, drop. cbn [columns rows].
  rewrite map_app, (rename_absent _ _ _ Hc).
  change (map (fun c => if String.eqb c "Country" then new_column_name else c)
              ["Country"; "Alpha-2 code"])
    with [new_column_name; "Alpha-2 code"].
  assert (Hhas : has_label "Alpha-2 code"
                   (columns df ++ [new_column_name; "Alpha-2 code"]) = true).
  { apply has_label_true, in_or_app. right. right. now left. }
  rewrite Hhas.
  assert (Hkeep : map (fun c => negb (String.eqb c "Alpha-2 code"))
                    (columns df ++ [new_column_name; "Alpha-2 code"])
                  = map (fun _ => true) (columns df) ++ [true; false]).
  { rewrite map_app. f_equal.
    - apply (drop_mask_absent _ _ Ha).
    - simpl. apply String.eqb_neq in Hnew. now rewrite Hnew. }
  rewrite Hkeep. f_equal. f_equal.
  - rewrite select_app by (now rewrite length_map).
    rewrite (select_const_true _ _ eq_refl). reflexivity.
  - rewrite map_flat_map. apply flat_map_ext_in. intros l Hl.
    rewrite Forall_forall in Hwf. specialize (Hwf l Hl).
    rewrite (select_const_true _ _ Hwf).
    change (rows (country_frame (get_country_codes excel)))
      with (map (fun r => [Country r; Alpha2 r]) (get_country_codes excel)).
    rewrite filter_map_comm. unfold country_names, field.
    change (index_of "Alpha-2 code" ["Country"; "Alpha-2 code"]) with 1.
    cbv beta. simpl nth at 1.
    destruct (filter _ (get_country_codes excel)) as [|e ms].
    + simpl. rewrite select_app by (now rewrite length_map).
      rewrite (select_const_true _ _ Hwf). reflexivity.
    + cbn [map]. f_equal.
      * rewrite select_app by (now rewrite length_map).
        rewrite (select_const_true _ _ Hwf). reflexivity.
      * rewrite !map_map. apply map_ext. intros e'.
        rewrite select_app by (now rewrite length_map).
        rewrite (select_const_true _ _ Hwf). reflexivity.
Qed.

End Join.

Section JoinRows.

Variable t : list CountryRow.

Lemma country_names_in (e : CountryRow) (key : cell) :
  In e t -> Alpha2 e = key -> In (Country e) (country_names t key).
Proof.
  intros He Hk. unfold country_names.
  assert (Hin : In e (filter (fun e => cell_eqb (Alpha2 e) key) t)).
  { apply filter_In. split; [exact He|]. now apply cell_eqb_eq. }
  destruct (filter _ t) as [|m ms]; [destruct Hin|].
  now apply in_map.
Qed.

Lemma country_names_none (key : cell) :
  (forall e, In e t -> Alpha2 e <> key) -> country_names t key = [NaN].
Proof.
  intros H. unfold country_names.
  destruct (filter _ t) as [|m ms] eqn:E; [reflexivity|].
  assert (Hin : In m (filter (fun e => cell_eqb (Alpha2 e) key) t))
    by (rewrite E; now left).
  apply filter_In in Hin as [Hm Hk]. apply cell_eqb_eq in Hk.
  now apply H in Hm.
Qed.

Lemma country_names_cases (key n : cell) :
  In n (country_names t key) ->
  (exists e, In e t /\ Alpha2 e = key /\ n = Country e)
  \/ ((forall e, In e t -> Alpha2 e <> key) /\ n = NaN).
Proof.
  unfold country_names.
  destruct (filter _ t) as [|m ms] eqn:E.
  - intros [<-|[]]. right. split; [|reflexivity].
    intros e He Hk.
    assert (Hin : In e (filter (fun e => cell_eqb (Alpha2 e) key) t)).
    { apply filter_In. split; [exact He|]. now apply cell_eqb_eq. }
    now rewrite E in Hin.
  - intros Hn. apply in_map_iff in Hn as (e & <- & He). left.
    rewrite <- E in He. apply filter_In in He as [He Hk].
    apply cell_eqb_eq in Hk. now exists e.
Qed.


(** Membership in the joined rows. *)
Lemma in_joined (key : list cell -> cell) (rs : list (list cell))
  (row : list cell) :
  In row (flat_map (fun l => map (fun n => l ++ [n])
                                (country_names t (key l))) rs)
  <-> exists l n, In l rs /\ In n (country_names t (key l))
                  /\ row = l ++ [n].
Proof.
  rewrite in_flat_map. split.
  - intros (l & Hl & Hr). apply in_map_iff in Hr as (n & <- & Hn).
    now exists l, n.
  - intros (l & n & Hl & Hn & ->). exists l. split; [exact Hl|].
    apply (in_map (fun n => l ++ [n])). exact Hn.
Qed.

End JoinRows.


Example ex_codes_joined :
  merge_and_rename ex_excel ex_codes "geo" "geo_country"
  = Ok (mkDF ["geo"; "TIME_PERIOD"; "value"; "geo_country"]
          [[Str "BE"; Str "2022"; Num 1; Str "Belgium"];
           [Str "ZZ"; Str "2022"; Num 2; NaN];
           [Str "GB"; Str "2022"; Num 3; NaN];
           [Str "GR"; Str "2022"; Num 4; NaN];
           [NaN; Str "2022"; Num 5; NaN]]).
Proof. reflexivity. Qed.

Lemma ex_codes_joinable : joinable ex_codes "geo" "geo_country".
Proof.
  unfold joinable. repeat split; try reflexivity; try discriminate;
    repeat constructor.
Defined.


(** C10.  The corrected table has no row coded "GB" and, when the
    spreadsheet names its "GR" rows "Greece", none coded "GR"; so
    [merge_and_rename] gives a missing name, and no other, to every row whose
    code is "GB" or (under the same proviso) "GR". *)
Theorem C10_gb_gr_unmatched :
  forall excel : list CountryRow,
    (forall e, In e (get_country_codes excel) -> Alpha2 e <> Str "GB")
    /\ (gr_is_greece excel ->
        forall e, In e (get_country_codes excel) -> Alpha2 e <> Str "GR")
    /\ forall (df : DataFrame) (merge_on new_column_name : string),
         joinable df merge_on new_column_name ->
         exists out,
           merge_and_rename excel df merge_on new_column_name = Ok out
           /\ forall l,
                In l (rows df) ->
                field df l merge_on = Str "GB"
                \/ (field df l merge_on = Str "GR" /\ gr_is_greece excel) ->
                In (l ++ [NaN]) (rows out)
                /\ forall n, In (l ++ [n]) (rows out) -> n = NaN.
Proof.
  intros excel.
  split; [apply no_gb_after_corrections|].
  split; [intros Hgr e He; exact (no_gr_after_corrections excel e Hgr He)|].
  intros df merge_on new_column_name Hj.
  eexists. split; [apply (merge_and_rename_ok excel _ _ _ Hj)|].
  cbn [rows]. intros l Hl Hcode.
  set (t := get_country_codes excel).
  set (key := fun l => field df l merge_on).
  assert (Hnone : country_names t (key l) = [NaN]).
  { apply country_names_none. intros e He. unfold key.
    destruct Hcode as [-> | [-> Hgr]].
    - exact (no_gb_after_corrections excel e He).
    - exact (no_gr_after_corrections excel e Hgr He). }
  split.
  - apply (in_joined t key). exists l, NaN. split; [exact Hl|].
    split; [|reflexivity]. rewrite Hnone. now left.
  - intros n Hn. apply (in_joined t key) in Hn as (l' & n' & _ & Hn' & E).
    apply app_inj_tail in E as [<- <-]. rewrite Hnone in Hn'.
    destruct Hn' as [<-|[]]. reflexivity.
Qed.

Lemma C10_witness :
  gr_is_greece ex_excel
  /\ (forall e, In e (get_country_codes ex_excel) ->
                Alpha2 e <> Str "GB" /\ Alpha2 e <> Str "GR")
  /\ exists out,
       merge_and_rename ex_excel ex_codes "geo" "geo_country" = Ok out
       /\ In ([Str "GB"; Str "2022"; Num 3] ++ [NaN]) (rows out)
       /\ In ([Str "GR"; Str "2022"; Num 4] ++ [NaN]) (rows out).
Proof.
  assert (Hgr : gr_is_greece ex_excel).
  { intros r H. simpl in H.
    repeat (destruct H as [<-|H]; [simpl; try discriminate; reflexivity|]).
    destruct H. }
  destruct (C10_gb_gr_unmatched ex_excel) as (Hgb & Hno & Hm).
  split; [exact Hgr|].
  split; [intros e He; split; [now apply Hgb | now apply Hno]|].
  destruct (Hm ex_codes "geo" "geo_country" ex_codes_joinable)
    as (out & Hout & Hrows).
  exists out. split; [exact Hout|]. split.
  - apply (Hrows [Str "GB"; Str "2022"; Num 3]); simpl; auto 10.
  - apply (Hrows [Str "GR"; Str "2022"; Num 4]); simpl; auto 10.
Defined.

(** ** Reshaping: header padding *)

Section Padding.





Lemma count_label_cons (label c : string) (labels : list string) :
  count_label label (c :: labels)
  = (if String.eqb c label then 1 else 0) + count_label label labels.
Proof.
  unfold count_label. simpl.
  destruct (string_dec c label) as [->|Hne].
  - now rewrite String.eqb_refl.
  - apply String.eqb_neq in Hne. now rewrite Hne.
Qed.


Lemma has_label_count (label : string) (labels : list string) :
  count_label label labels = 1 -> has_label label labels = true.
Proof. intros H. now apply has_label_true, count_label_in. Qed.

Lemma process_reshape_from (df : DataFrame) (cols : list string)
  (first_col : string) :
  count_label first_col (columns df) = 1 ->
  process_road_euro_stat df cols first_col
  = reshape_from (map (fun r => field df r first_col) (rows df))
      (select (drop_mask first_col (columns df)) (columns df))
      (map (select (drop_mask first_col (columns df))) (rows df)) cols.
Proof.
  intros H. unfold process_road_euro_stat, reshape_from.
  rewrite (getitem_unique df first_col H). cbn [bind].
  destruct (str_accessor _) as [compound|e]; [|reflexivity]. cbn [bind].
  destruct (set_columns _ _ cols) as [sc|e]; [|reflexivity]. cbn [bind].
  unfold drop. rewrite (has_label_count _ _ H). reflexivity.
Qed.




End Padding.

(** ** Reshaping: record count and round trip *)

Section Melt.

Lemma expand_width_uniform (parts : list (list cell)) (n : nat) :
  parts <> [] -> Forall (fun p => length p = n) parts ->
  expand_width parts = n.
Proof.
  intros Hne H. unfold expand_width.
  induction H as [|p ps Hp Hps IH]; [contradiction|].
  simpl. destruct ps as [|q ps].
  - simpl. lia.
  - rewrite IH by discriminate. lia.
Qed.

Lemma pad_row_full (p : list cell) : pad_row (length p) p = p.
Proof. unfold pad_row. rewrite Nat.sub_diag. apply app_nil_r. Qed.

Lemma combine_map {A B C : Type} (f : A -> B) (g : A -> C) (l : list A) :
  combine (map f l) (map g l) = map (fun x => (f x, g x)) l.
Proof. induction l as [|x l IH]; simpl; [reflexivity | now rewrite IH]. Qed.

Lemma index_of_app_in (x : string) (l1 l2 : list string) :
  In x l1 -> index_of x (l1 ++ l2) = index_of x l1.
Proof.
  induction l1 as [|a l1 IH]; simpl; [contradiction|].
  intros H. destruct (String.eqb_spec a x) as [_|Hne]; [reflexivity|].
  f_equal. apply IH. destruct H as [H|H]; [contradiction | exact H].
Qed.

Lemma index_of_app_notin (x : string) (l1 l2 : list string) :
  ~ In x l1 -> index_of x (l1 ++ l2) = length l1 + index_of x l2.
Proof.
  induction l1 as [|a l1 IH]; simpl; [reflexivity|].
  intros H. destruct (String.eqb_spec a x) as [->|_].
  - exfalso. apply H. now left.
  - f_equal. apply IH. intros Hin. apply H. now right.
Qed.

(** Reading the cells of distinct labels off a row gives the row back. *)
Lemma nth_index_of (labels : list string) (keys rest : list cell) :
  NoDup labels -> length keys = length labels ->
  map (fun v => nth (index_of v labels) (keys ++ rest) NaN) labels = keys.
Proof.
  revert keys. induction labels as [|c cs IH]; intros [|k ks] Hnd Hlen;
    try discriminate; [reflexivity|].
  inversion Hnd as [|? ? Hc Hcs]; subst. injection Hlen as Hlen.
  cbn [map index_of]. rewrite String.eqb_refl. cbn [nth app]. f_equal.
  etransitivity; [|apply (IH ks Hcs Hlen)].
  apply map_ext_in. intros v Hv.
  destruct (String.eqb_spec c v) as [->|_]; [contradiction | reflexivity].
Qed.

Lemma select_none {A B : Type} (labels : list B) (l : list A) :
  select (map (fun _ => false) labels) l = [].
Proof.
  revert l. induction labels as [|c cs IH]; intros [|x l]; simpl;
    try reflexivity. apply IH.
Qed.

Lemma nodupb_NoDup (l : list string) : NoDup l -> nodupb l = true.
Proof.
  induction 1 as [|x l Hx _ IH]; simpl; [reflexivity|].
  rewrite IH, andb_true_r. apply negb_true_iff.
  now apply has_label_false.
Qed.

Lemma count_label_NoDup (x : string) (l : list string) :
  NoDup l -> In x l -> count_label x l = 1.
Proof.
  intros Hnd Hin. unfold count_label.
  pose proof (proj1 (NoDup_count_occ string_dec l) Hnd x) as Hle.
  apply (count_occ_In string_dec) in Hin. lia.
Qed.

Lemma count_label_app (x : string) (l1 l2 : list string) :
  count_label x (l1 ++ l2) = count_label x l1 + count_label x l2.
Proof. unfold count_label. apply count_occ_app. Qed.

Lemma count_label_notin (x : string) (l : list string) :
  ~ In x l -> count_label x l = 0.
Proof. unfold count_label. apply count_occ_not_In. Qed.

Lemma length_flat_map_uniform {A B : Type} (f : A -> list B) (l : list A)
  (n : nat) :
  (forall x, length (f x) = n) -> length (flat_map f l) = length l * n.
Proof.
  intros H. induction l as [|x l IH]; simpl; [reflexivity|].
  now rewrite length_app, H, IH.
Qed.

Lemma filter_flat_map {A B : Type} (p : B -> bool) (f : A -> list B)
  (l : list A) :
  filter p (flat_map f l) = flat_map (fun x => filter p (f x)) l.
Proof.
  induction l as [|x l IH]; simpl; [reflexivity|].
  now rewrite filter_app, IH.
Qed.

(** A [flat_map] in which only one index contributes. *)
Lemma flat_map_single {B : Type} (f : nat -> list B) (l : list nat)
  (j : nat) :
  NoDup l -> In j l -> (forall i, In i l -> i <> j -> f i = []) ->
  flat_map f l = f j.
Proof.
  induction l as [|a l IH]; simpl; [contradiction|].
  intros Hnd Hin Hf. inversion Hnd as [|? ? Ha Hl]; subst.
  destruct Hin as [->|Hin].
  - assert (E : flat_map f l = []).
    { clear IH Hnd Hl. induction l as [|b l IH]; simpl; [reflexivity|].
      rewrite (Hf b).
      - apply IH.
        + intros H. apply Ha. now right.
        + intros i [Hi|Hi] Hne; apply Hf; simpl; auto.
      - right. now left.
      - intros ->. apply Ha. now left. }
    rewrite E. apply app_nil_r.
  - rewrite (Hf a).
    + apply IH; trivial. intros i Hi. apply Hf. now right.
    + now left.
    + intros ->. contradiction.
Qed.

Lemma filter_nil_intro {A : Type} (p : A -> bool) (l : list A) :
  (forall y, In y l -> p y = false) -> filter p l = [].
Proof.
  induction l as [|a l IH]; simpl; intros H; [reflexivity|].
  rewrite (H a) by now left. apply IH. intros y Hy. apply H. now right.
Qed.

(** In a list without two elements of one key, the elements with the key
    of [x] are [x] alone. *)
Lemma filter_unique {A K : Type} (key : A -> K) (p : A -> bool)
  (l : list A) (x : A) :
  NoDup (map key l) -> In x l ->
  (forall y, In y l -> p y = true <-> key y = key x) ->
  filter p l = [x].
Proof.
  induction l as [|a l IH]; [contradiction|].
  intros Hnd Hin Hp. cbn [map] in Hnd.
  inversion Hnd as [|? ? Ha Hl]; subst.
  cbn [filter]. destruct Hin as [->|Hin].
  - rewrite (proj2 (Hp x (or_introl eq_refl)) eq_refl). f_equal.
    apply filter_nil_intro. intros y Hy.
    destruct (p y) eqn:E; [|reflexivity].
    exfalso. apply Ha. apply (Hp y (or_intror Hy)) in E.
    rewrite <- E. now apply in_map.
  - destruct (p a) eqn:E.
    + exfalso. apply Ha. apply (Hp a (or_introl eq_refl)) in E.
      rewrite E. now apply in_map.
    + apply IH; trivial. intros y Hy. apply Hp. now right.
Qed.

Lemma cells_eqb_eq (a b : list cell) : cells_eqb a b = true <-> a = b.
Proof.
  revert b. induction a as [|x a IH]; intros [|y b]; simpl; split;
    intros H; try discriminate; try reflexivity.
  - apply andb_prop in H as [H1 H2]. apply cell_eqb_eq in H1.
    apply IH in H2. now subst.
  - injection H as -> ->. rewrite cell_eqb_refl. now apply IH.
Qed.

Lemma split_cell_injective (s t : string) :
  split_cell (Str s) = split_cell (Str t) -> s = t.
Proof.
  simpl. intros H. apply (split_injective ","%char).
  revert H. generalize (split "," s) (split "," t).
  induction l as [|a l IH]; intros [|b l']; simpl; intros H;
    try discriminate; [reflexivity|].
  injection H as -> H. f_equal. now apply IH.
Qed.

End Melt.

Section Reshape.

Variable df : DataFrame.
Variable cols : list string.
Variable first_col : string.
Hypothesis Hrs : reshapable df cols first_col.

Let years := map strip (year_labels df first_col).

Lemma key_fields_length (r : list cell) :
  In r (rows df) -> length (key_fields df first_col r) = length cols.
Proof.
  intros Hr. pose proof (rs_fields Hrs) as H. rewrite Forall_forall in H.
  destruct (H r Hr) as (s & E & Hlen). unfold key_fields. rewrite E.
  simpl. now rewrite length_map.
Qed.

Lemma year_cells_length (r : list cell) :
  In r (rows df) ->
  length (year_cells df first_col r) = length (year_labels df first_col).
Proof.
  intros Hr. pose proof (rs_wide Hrs) as H. rewrite Forall_forall in H.
  specialize (H r Hr). unfold year_cells, year_labels.
  generalize (drop_mask first_col (columns df)). revert H.
  generalize (columns df). revert r Hr. intros r _.
  induction r as [|x r IH]; intros [|c l] H m; try discriminate.
  - now destruct m.
  - destruct m as [|b m]; [reflexivity|]. injection H as H.
    destruct b; simpl; now rewrite (IH l H m).
Qed.

Lemma compound_has_text :
  str_accessor (map (fun r => field df r first_col) (rows df))
  = Ok (map (fun r => field df r first_col) (rows df)).
Proof.
  unfold str_accessor.
  pose proof (rs_rows Hrs) as Hne. pose proof (rs_fields Hrs) as Hf.
  destruct (rows df) as [|r rs]; [contradiction|].
  inversion Hf as [|? ? (s & E & _) _]; subst. simpl. now rewrite E.
Qed.

Lemma compound_width :
  split_width (map (fun r => field df r first_col) (rows df)) = length cols.
Proof.
  unfold split_width. rewrite map_map. apply expand_width_uniform.
  - pose proof (rs_rows Hrs). now destruct (rows df).
  - apply Forall_forall. intros p Hp. apply in_map_iff in Hp as (r & <- & Hr).
    now apply key_fields_length.
Qed.

Lemma compound_split :
  str_split_expand (map (fun r => field df r first_col) (rows df))
  = map (key_fields df first_col) (rows df).
Proof.
  unfold str_split_expand. fold (split_width (map (fun r => field df r first_col) (rows df))).
  rewrite compound_width, !map_map. apply map_ext_in. intros r Hr.
  rewrite <- (key_fields_length r Hr). apply pad_row_full.
Qed.

Lemma cols_stripped : map strip cols = cols.
Proof.
  rewrite <- (map_id cols) at 2. apply map_ext_in. intros c Hc.
  pose proof (rs_trimmed Hrs) as H. rewrite Forall_forall in H.
  now apply trimmed_strip, H.
Qed.

Lemma value_mask :
  map (fun c => negb (has_label c cols)) (cols ++ years)
  = map (fun _ => false) cols ++ map (fun _ => true) years.
Proof.
  rewrite map_app. f_equal; apply map_ext_in; intros c Hc.
  - now rewrite (proj2 (has_label_true c cols) Hc).
  - apply negb_true_iff, has_label_false. intros Hin.
    now apply (rs_apart Hrs c Hin).
Qed.

(** The function returns, and returns the records of [tidy_rows] under the
    key names followed by ["TIME_PERIOD"] and ["value"]. *)
Lemma process_reshapable :
  process_road_euro_stat df cols first_col
  = Ok (mkDF (cols ++ ["TIME_PERIOD"; "value"]) (tidy_rows df first_col)).
Proof.
  rewrite (process_reshape_from df cols first_col (rs_first_col Hrs)).
  unfold reshape_from. rewrite compound_has_text. cbn [bind].
  rewrite compound_width, compound_split. unfold set_columns.
  rewrite Nat.eqb_refl. cbn [bind]. unfold concat_axis1. cbn [columns rows].
  rewrite combine_map, map_map. cbn [fst snd].
  rewrite map_app, cols_stripped.
  fold (year_labels df first_col). fold years.
  unfold melt. cbn [columns rows].
  assert (H1 : has_label "value" (cols ++ years) = false).
  { apply has_label_false. intros H. apply in_app_or in H as [H|H].
    - now apply (rs_value_key Hrs).
    - now apply (rs_value_year Hrs). }
  rewrite H1.
  assert (H2 : forallb (fun v => has_label v (cols ++ years)) cols = true).
  { apply forallb_forall. intros v Hv. apply has_label_true, in_or_app.
    now left. }
  rewrite H2. cbn [negb].
  assert (H3 : forallb (fun v => (count_label v (cols ++ years) =? 1)%nat) cols
               = true).
  { apply forallb_forall. intros v Hv. apply Nat.eqb_eq.
    rewrite count_label_app, (count_label_NoDup v cols (rs_distinct Hrs) Hv).
    rewrite (count_label_notin v years (rs_apart Hrs v Hv)). reflexivity. }
  rewrite H3. cbn [negb].
  rewrite (nodupb_NoDup cols (rs_distinct Hrs)). cbn [negb].
  rewrite value_mask.
  assert (Hsel : select (map (fun _ : string => false) cols
                         ++ map (fun _ : string => true) years)
                   (cols ++ years) = years).
  { rewrite select_app by (now rewrite length_map).
    rewrite select_none. simpl. now apply select_const_true. }
  rewrite Hsel. f_equal. f_equal. unfold tidy_rows. fold years.
  assert (Hlen : length years = length (year_labels df first_col))
    by (unfold years; apply length_map).
  rewrite Hlen. apply flat_map_ext_in. intros j _.
  rewrite map_map. apply map_ext_in. intros r Hr.
  pose proof (key_fields_length r Hr) as Hk.
  f_equal.
  - etransitivity; [|apply (nth_index_of cols (key_fields df first_col r)
                              (year_cells df first_col r)
                              (rs_distinct Hrs) Hk)].
    apply map_ext_in. intros v Hv.
    destruct (String.eqb_spec v "TIME_PERIOD") as [->|Hne].
    + now apply (rs_period Hrs) in Hv.
    + now rewrite (index_of_app_in v cols years Hv).
  - f_equal. f_equal.
    rewrite select_app by (now rewrite length_map, Hk).
    rewrite select_none. cbn [app]. fold (year_cells df first_col r).
    rewrite select_const_true; [reflexivity|].
    unfold years. rewrite length_map. now apply year_cells_length.
Qed.

End Reshape.

Section RoundTrip.

Variable df : DataFrame.
Variable cols : list string.
Variable first_col : string.
Hypothesis Hrs : reshapable df cols first_col.
Hypothesis Hkd : keyed df first_col.

Let years := map strip (year_labels df first_col).
Let tidy := mkDF (cols ++ ["TIME_PERIOD"; "value"]) (tidy_rows df first_col).

(** The three parts of a record of the tidy table, read by label. *)
Lemma tidy_record_fields (key : list cell) (y : string) (v : cell) :
  length key = length cols ->
  map (field tidy (key ++ [Str y; v])) cols = key
  /\ field tidy (key ++ [Str y; v]) "TIME_PERIOD" = Str y
  /\ field tidy (key ++ [Str y; v]) "value" = v.
Proof.
  intros Hlen. unfold field, tidy. cbn [columns]. split; [|split].
  - etransitivity; [|apply (nth_index_of cols key [Str y; v]
                              (rs_distinct Hrs) Hlen)].
    apply map_ext_in. intros c Hc. now rewrite (index_of_app_in c cols _ Hc).
  - rewrite (index_of_app_notin _ cols _ (rs_period Hrs)). cbn [index_of].
    rewrite String.eqb_refl, <- Hlen, Nat.add_0_r.
    rewrite app_nth2 by lia. now rewrite Nat.sub_diag.
  - rewrite (index_of_app_notin _ cols _ (rs_value_key Hrs)). cbn [index_of].
    change (String.eqb "TIME_PERIOD" "value") with false.
    rewrite String.eqb_refl, <- Hlen. cbn iota.
    rewrite app_nth2 by lia.
    replace (length key + 1 - length key) with 1 by lia. reflexivity.
Qed.

Lemma same_key_fields (r r' : list cell) :
  In r (rows df) -> In r' (rows df) ->
  key_fields df first_col r' = key_fields df first_col r
  <-> field df r' first_col = field df r first_col.
Proof.
  intros Hr Hr'. pose proof (rs_fields Hrs) as H. rewrite Forall_forall in H.
  destruct (H r Hr) as (s & E & _). destruct (H r' Hr') as (s' & E' & _).
  unfold key_fields. rewrite E, E'. split.
  - intros Hs. f_equal. now apply split_cell_injective.
  - now intros [= ->].
Qed.

(** Re-pivoting the records on the key fields of a row and a year gives the
    cell the wide table has for that row and year, and nothing else. *)
Lemma pivot_tidy_rows (r : list cell) (j : nat) :
  In r (rows df) -> j < length (year_labels df first_col) ->
  pivot_cell tidy cols (key_fields df first_col r) (nth j years "")
  = [nth j (year_cells df first_col r) NaN].
Proof.
  intros Hr Hj. unfold pivot_cell.
  change (rows tidy) with (tidy_rows df first_col).
  unfold tidy_rows. fold years. rewrite filter_flat_map.
  rewrite (flat_map_single _ (seq 0 (length (year_labels df first_col))) j).
  - rewrite filter_map_comm.
    rewrite (filter_unique (fun r => field df r first_col) _ (rows df) r
               (kd_rows Hkd) Hr).
    + cbn [map].
      destruct (tidy_record_fields (key_fields df first_col r) (nth j years "")
                  (nth j (year_cells df first_col r) NaN)
                  (key_fields_length df cols first_col Hrs r Hr))
        as (_ & _ & ->).
      reflexivity.
    + intros r' Hr'.
      destruct (tidy_record_fields (key_fields df first_col r')
                  (nth j years "")
                  (nth j (year_cells df first_col r') NaN)
                  (key_fields_length df cols first_col Hrs r' Hr'))
        as (-> & -> & _).
      rewrite cell_eqb_refl, andb_true_r, cells_eqb_eq.
      now apply same_key_fields.
  - apply seq_NoDup.
  - apply in_seq. lia.
  - intros i Hi Hne. apply in_seq in Hi. apply filter_nil_intro.
    intros rec Hrec. apply in_map_iff in Hrec as (r' & <- & Hr').
    destruct (tidy_record_fields (key_fields df first_col r')
                (nth i years "")
                (nth i (year_cells df first_col r') NaN)
                (key_fields_length df cols first_col Hrs r' Hr'))
      as (_ & -> & _).
    apply andb_false_iff. right.
    destruct (cell_eqb (Str (nth i years "")) (Str (nth j years ""))) eqn:E;
      [|reflexivity].
    exfalso. apply Hne. apply cell_eqb_eq in E. injection E as E.
    assert (Hlen : length years = length (year_labels df first_col))
      by (unfold years; apply length_map).
    apply (proj1 (NoDup_nth years "") (kd_years Hkd)); lia || exact E.
Qed.

End RoundTrip.

Lemma length_select_drop_mask (label : string) (labels : list string) :
  length (select (drop_mask label labels) labels)
  = length labels - count_label label labels.
Proof.
  induction labels as [|c l IH]; [reflexivity|].
  rewrite count_label_cons.
  change (drop_mask label (c :: l))
    with (negb (String.eqb c label) :: drop_mask label l).
  cbn [select length].
  assert (Hle : count_label label l <= length l)
    by apply count_occ_bound.
  destruct (String.eqb c label); cbn [negb length]; rewrite IH; lia.
Qed.

(** C2, as stated, fails on a wide table without rows: the split of an
    empty column has no column, the key names cannot be assigned to it, and
    the function raises instead of returning an empty tidy table. *)
Lemma C2_counterexample :
  Forall (fun r => exists s,
            field (mkDF ["k"; "2021 "; "2022 "] []) r "k" = Str s
            /\ length (split "," s) = 1)
         (rows (mkDF ["k"; "2021 "; "2022 "] []))
  /\ process_road_euro_stat (mkDF ["k"; "2021 "; "2022 "] []) ["geo"] "k"
     = Raise ValueError.
Proof. split; [constructor | reflexivity]. Qed.

(** Further inputs on which the statement fails: a key name with padding is
    stripped in the header but not in [id_vars]; two rows with one compound
    cell, or two year labels equal once stripped, give the tidy table two
    records per key and year. *)
Example padded_key_name_raises :
  process_road_euro_stat (mkDF ["k"; "2022 "] [[Str "BE"; Num 1]])
    ["geo "] "k"
  = Raise KeyError.
Proof. reflexivity. Qed.

Example repeated_compound_cell :
  exists tidy,
    process_road_euro_stat
      (mkDF ["k"; "2022 "] [[Str "BE"; Num 1]; [Str "BE"; Num 2]])
      ["geo"] "k" = Ok tidy
    /\ pivot_cell tidy ["geo"] [Str "BE"] "2022" = [Num 1; Num 2].
Proof. eexists. split; reflexivity. Qed.

Example year_labels_collide :
  exists tidy,
    process_road_euro_stat
      (mkDF ["k"; "2022"; "2022 "] [[Str "BE"; Num 1; Num 2]])
      ["geo"] "k" = Ok tidy
    /\ pivot_cell tidy ["geo"] [Str "BE"] "2022" = [Num 1; Num 2].
Proof. eexists. split; reflexivity. Qed.

(** C2, amended.  For a wide table with at least one row, whose compound
    column holds N comma-separated fields in each of its R rows and which has
    M other columns, and N trimmed, distinct key names that are none of the
    stripped labels of the other columns nor a reserved label,
    [process_road_euro_stat] returns a tidy table of exactly R * M records;
    and when the stripped year labels and the compound cells are pairwise
    distinct, re-pivoting it on the key fields and the year gives back each
    cell of the wide table. *)
Theorem C2_reshape_count_and_round_trip :
  forall (df : DataFrame) (cols : list string) (first_col : string),
    reshapable df cols first_col ->
    exists tidy,
      process_road_euro_stat df cols first_col = Ok tidy
      /\ columns tidy = cols ++ ["TIME_PERIOD"; "value"]
      /\ length (year_labels df first_col) = length (columns df) - 1
      /\ length (rows tidy)
         = length (rows df) * length (year_labels df first_col)
      /\ (keyed df first_col ->
          forall r j,
            In r (rows df) -> j < length (year_labels df first_col) ->
            pivot_cell tidy cols (key_fields df first_col r)
              (strip (nth j (year_labels df first_col) ""))
            = [nth j (year_cells df first_col r) NaN]).
Proof.
  intros df cols first_col Hrs.
  exists (mkDF (cols ++ ["TIME_PERIOD"; "value"]) (tidy_rows df first_col)).
  split; [now apply process_reshapable|].
  split; [reflexivity|]. split; [|split].
  - unfold year_labels.
    now rewrite length_select_drop_mask, (rs_first_col Hrs).
  - cbn [rows]. unfold tidy_rows.
    rewrite (length_flat_map_uniform _ _ (length (rows df))).
    + rewrite length_seq. apply Nat.mul_comm.
    + intros j. apply length_map.
  - intros Hkd r j Hr Hj.
    change (strip (nth j (year_labels df first_col) ""))
      with (strip (nth j (year_labels df first_col) (strip ""))).
    rewrite <- (map_nth strip).
    exact (pivot_tidy_rows df cols first_col Hrs Hkd r j Hr Hj).
Qed.

Ltac not_in_literal :=
  let H := fresh "H" in
  intros H; simpl in H;
  repeat (destruct H as [H|H]; [discriminate H|]); exact H.

Ltac reshapable_literal :=
  constructor;
  [ repeat constructor
  | reflexivity
  | discriminate
  | repeat constructor; eexists; split; reflexivity
  | repeat constructor
  | repeat constructor; not_in_literal
  | let c := fresh "c" in
    let Hc := fresh "Hc" in
    intros c Hc; simpl in Hc;
    repeat (destruct Hc as [<-|Hc]; [not_in_literal|]); destruct Hc
  | not_in_literal
  | not_in_literal
  | not_in_literal ].

(** ** Header padding *)



(** The compound column is looked up before the labels are stripped:
    [first_col] has to be its label as it stands in the table. *)
Example padded_compound_label_raises :
  process_road_euro_stat (mkDF [" k"; "2022"] [[Str "BE"; Num 1]])
    ["geo"] "k"
  = Raise KeyError.
Proof. reflexivity. Qed.


Lemma ex_wide_reshapable :
  reshapable ex_wide ["k"; "geo"] "k,geo\TIME_PERIOD".
Proof.
  constructor.
  - repeat constructor.
  - reflexivity.
  - discriminate.
  - repeat constructor; eexists; split; reflexivity.
  - repeat constructor.
  - repeat constructor; not_in_literal.
  - intros c [<-|[<-|[]]]; not_in_literal.
  - not_in_literal.
  - not_in_literal.
  - not_in_literal.
Defined.

Lemma ex_wide_keyed : keyed ex_wide "k,geo\TIME_PERIOD".
Proof.
  constructor; repeat constructor; not_in_literal.
Defined.

Lemma C2_witness :
  exists tidy,
    process_road_euro_stat ex_wide ["k"; "geo"] "k,geo\TIME_PERIOD" = Ok tidy
    /\ length (rows tidy) = 2 * 2
    /\ pivot_cell tidy ["k"; "geo"] [Str "B"; Str "FR"] "2022" = [Num 4].
Proof.
  destruct (C2_reshape_count_and_round_trip ex_wide ["k"; "geo"]
              "k,geo\TIME_PERIOD" ex_wide_reshapable)
    as (tidy & Hok & _ & _ & Hlen & Hpivot).
  exists tidy. split; [exact Hok|]. split; [exact Hlen|].
  apply (Hpivot ex_wide_keyed [Str "B,FR"; NaN; Num 4] 1).
  - right. now left.
  - simpl. lia.
Defined.

(** ** The tables the script filters *)

Section Annotated.

Lemma split_cell_no_number (c : cell) :
  Forall (fun x => is_num x = false) (split_cell c).
Proof.
  destruct c as [s|v|]; simpl; repeat constructor.
  apply Forall_forall. intros x Hx. apply in_map_iff in Hx as (t & <- & _).
  reflexivity.
Qed.

Lemma tidy_key_frame (df : DataFrame) (cols : list string)
  (first_col : string) :
  reshapable df cols first_col ->
  key_frame cols (mkDF (cols ++ ["TIME_PERIOD"; "value"])
                       (tidy_rows df first_col)).
Proof.
  intros Hrs. split; [now exists ["TIME_PERIOD"; "value"]|].
  cbn [columns rows]. apply Forall_forall. intros rec Hrec.
  unfold tidy_rows in Hrec. apply in_flat_map in Hrec as (j & _ & Hrec).
  apply in_map_iff in Hrec as (r & <- & Hr).
  pose proof (key_fields_length df cols first_col Hrs r Hr) as Hk. split.
  - rewrite !length_app, Hk. reflexivity.
  - rewrite <- Hk, firstn_app, Nat.sub_diag, firstn_all. cbn [firstn].
    rewrite app_nil_r. apply split_cell_no_number.
Qed.

Lemma key_frame_joinable (cols : list string) (f : DataFrame)
  (merge_on new_column_name : string) :
  key_frame cols f -> In merge_on cols ->
  count_label merge_on (columns f) = 1 ->
  has_label "Country" (columns f) = false ->
  has_label "Alpha-2 code" (columns f) = false ->
  new_column_name <> "Alpha-2 code" ->
  joinable f merge_on new_column_name.
Proof.
  intros ((extra & Hc) & Hrows) Hon Hcount Hcountry Hcode Hnew.
  unfold joinable. repeat split; trivial.
  - apply Forall_forall. intros r Hr. rewrite Forall_forall in Hrows.
    now apply Hrows.
  - apply Forall_forall. intros r Hr. rewrite Forall_forall in Hrows.
    destruct (Hrows r Hr) as [Hlen Hkeys]. unfold field.
    rewrite Hc, (index_of_app_in merge_on cols extra Hon).
    assert (Hi : index_of merge_on cols < length cols).
    { clear -Hon. induction cols as [|c l IH]; [contradiction|]. simpl.
      destruct (String.eqb_spec c merge_on) as [_|Hne]; [lia|].
      destruct Hon as [Hon|Hon]; [contradiction|]. apply IH in Hon. lia. }
    rewrite Forall_forall in Hkeys. apply Hkeys.
    rewrite <- (firstn_skipn (length cols) r) at 1.
    assert (Hf : length (firstn (length cols) r) = length cols).
    { apply firstn_length_le. rewrite Hlen, Hc, length_app. lia. }
    rewrite app_nth1 by lia. apply nth_In. lia.
Qed.

Lemma joined_key_frame (excel : list CountryRow) (cols : list string)
  (f : DataFrame) (merge_on new_column_name : string) :
  key_frame cols f ->
  key_frame cols
    (mkDF (columns f ++ [new_column_name])
       (flat_map
          (fun l => map (fun n => l ++ [n])
                      (country_names (get_country_codes excel)
                                     (field f l merge_on)))
          (rows f))).
Proof.
  intros ((extra & Hc) & Hrows). split.
  - exists (extra ++ [new_column_name]). cbn [columns].
    now rewrite Hc, app_assoc.
  - cbn [columns rows]. apply Forall_forall. intros row Hrow.
    apply in_joined in Hrow as (l & n & Hl & _ & ->).
    rewrite Forall_forall in Hrows. destruct (Hrows l Hl) as [Hlen Hkeys].
    split.
    + rewrite !length_app, Hlen. reflexivity.
    + rewrite firstn_app.
      replace (length cols - length l) with 0
        by (rewrite Hlen, Hc, length_app; lia).
      cbn [firstn]. now rewrite app_nil_r.
Qed.

(** Reshaping and then annotating twice, on two key columns, returns a
    table with the key columns, the year, the value and the two name
    columns. *)
Lemma annotated_twice (excel : list CountryRow) (df : DataFrame)
  (cols : list string) (first_col on1 new1 on2 new2 : string) :
  reshapable df cols first_col ->
  In on1 cols -> In on2 cols ->
  ~ In "Country" cols -> ~ In "Alpha-2 code" cols ->
  new1 <> "Alpha-2 code" -> new2 <> "Alpha-2 code" ->
  new1 <> "Country" -> new1 <> on2 ->
  exists a,
    (t <- process_road_euro_stat df cols first_col ;;
     t <- merge_and_rename excel t on1 new1 ;;
     merge_and_rename excel t on2 new2) = Ok a
    /\ columns a = cols ++ ["TIME_PERIOD"; "value"; new1; new2].
Proof.
  intros Hrs H1 H2 Hcountry Hcode Hn1 Hn2 Hn1c Hn1o.
  rewrite (process_reshapable df cols first_col Hrs). cbn [bind].
  pose proof (tidy_key_frame df cols first_col Hrs) as Hk0.
  set (t0 := mkDF (cols ++ ["TIME_PERIOD"; "value"]) (tidy_rows df first_col))
    in *.
  assert (Hcount : forall on extra,
            In on cols -> ~ In on extra -> count_label on (cols ++ extra) = 1).
  { intros on extra Hin Hex.
    rewrite count_label_app, (count_label_NoDup on cols (rs_distinct Hrs) Hin).
    now rewrite (count_label_notin on extra Hex). }
  assert (Hex : forall on, In on cols -> ~ In on ["TIME_PERIOD"; "value"]).
  { intros on Hin [<-|[<-|[]]].
    - now apply (rs_period Hrs).
    - now apply (rs_value_key Hrs). }
  assert (Hj1 : joinable t0 on1 new1).
  { apply (key_frame_joinable cols); trivial.
    - now apply Hcount, Hex.
    - apply has_label_false. intros H. apply in_app_or in H as [H|H];
        [contradiction | simpl in H; intuition discriminate].
    - apply has_label_false. intros H. apply in_app_or in H as [H|H];
        [contradiction | simpl in H; intuition discriminate]. }
  rewrite (merge_and_rename_ok excel t0 on1 new1 Hj1). cbn [bind].
  pose proof (joined_key_frame excel cols t0 on1 new1 Hk0) as Hk1.
  set (t1 := mkDF (columns t0 ++ [new1]) _) in *.
  assert (Hj2 : joinable t1 on2 new2).
  { apply (key_frame_joinable cols); trivial; unfold t1, t0; cbn [columns];
      rewrite <- app_assoc.
    - apply Hcount; [exact H2|]. intros H. simpl in H.
      destruct H as [<-|[<-|[<-|[]]]].
      + now apply (rs_period Hrs).
      + now apply (rs_value_key Hrs).
      + now apply Hn1o.
    - apply has_label_false. intros H. apply in_app_or in H as [H|H];
        [contradiction|]. simpl in H.
      destruct H as [H|[H|[H|[]]]]; try discriminate. now apply Hn1c.
    - apply has_label_false. intros H. apply in_app_or in H as [H|H];
        [contradiction|]. simpl in H.
      destruct H as [H|[H|[H|[]]]]; try discriminate. now apply Hn1. }
  rewrite (merge_and_rename_ok excel t1 on2 new2 Hj2).
  eexists. split; [reflexivity|]. unfold t1, t0. cbn [columns].
  now rewrite <- !app_assoc.
Qed.

(** The three tables of the script, reshaped and annotated as at lines
    92-104, have the columns that the filters and the Belgium/France
    selections read. *)
Lemma script_tables_have_columns (excel : list CountryRow)
  (lgtt ugtt cross : DataFrame) :
  reshapable lgtt lgtt_cols lgtt_fc ->
  reshapable ugtt ugtt_cols ugtt_fc ->
  reshapable cross cross_cols cross_fc ->
  exists l u c,
    (t <- process_road_euro_stat lgtt lgtt_cols lgtt_fc ;;
     t <- merge_and_rename excel t "c_unload" "unload_country" ;;
     merge_and_rename excel t "geo" "geo_country") = Ok l
    /\ (t <- process_road_euro_stat ugtt ugtt_cols ugtt_fc ;;
        t <- merge_and_rename excel t "c_load" "load_country" ;;
        merge_and_rename excel t "geo" "geo_country") = Ok u
    /\ (t <- process_road_euro_stat cross cross_cols cross_fc ;;
        t <- merge_and_rename excel t "c_load" "load_country" ;;
        merge_and_rename excel t "c_unload" "unload_country") = Ok c
    /\ has_columns l ["tra_type"; "unit"; "nst07"; "TIME_PERIOD"; "c_unload";
                      "geo_country"; "unload_country"; "value"]
    /\ has_columns u ["tra_type"; "unit"; "nst07"; "TIME_PERIOD"; "c_load";
                      "load_country"; "geo_country"; "value"]
    /\ has_columns c ["tra_type"; "unit"; "nst07"; "TIME_PERIOD"; "c_load";
                      "c_unload"; "load_country"; "unload_country"; "value"].
Proof.
  intros Hl Hu Hc.
  destruct (annotated_twice excel lgtt lgtt_cols lgtt_fc
              "c_unload" "unload_country" "geo" "geo_country" Hl)
    as (l & Hlo & Hlc);
    try (simpl; auto 10; fail); try discriminate; try not_in_literal.
  destruct (annotated_twice excel ugtt ugtt_cols ugtt_fc
              "c_load" "load_country" "geo" "geo_country" Hu)
    as (u & Huo & Huc);
    try (simpl; auto 10; fail); try discriminate; try not_in_literal.
  destruct (annotated_twice excel cross cross_cols cross_fc
              "c_load" "load_country" "c_unload" "unload_country" Hc)
    as (c & Hco & Hcc);
    try (simpl; auto 10; fail); try discriminate; try not_in_literal.
  exists l, u, c. repeat split; trivial; unfold has_columns.
  - rewrite Hlc. repeat constructor.
  - rewrite Huc. repeat constructor.
  - rewrite Hcc. repeat constructor.
Qed.

End Annotated.

(** ** Reshaping: when the function returns, and what it returns *)

Section ReshapeReturns.

Lemma nodupb_true (l : list string) : nodupb l = true -> NoDup l.
Proof.
  induction l as [|x l IH]; simpl; intros H; [constructor|].
  apply andb_prop in H as [Hx Hl]. apply negb_true_iff in Hx.
  constructor; [now apply has_label_false | now apply IH].
Qed.

Lemma expand_width_ge (parts : list (list cell)) (p : list cell) :
  In p parts -> length p <= expand_width parts.
Proof.
  unfold expand_width. induction parts as [|q ps IH]; [contradiction|].
  intros [->|H]; simpl; [lia|]. apply IH in H. lia.
Qed.

(** The checks [melt] has passed when it returns, and the frame it
    returns. *)
Lemma melt_ok (df out : DataFrame) (id_vars : list string)
  (var_name value_name : string) :
  melt df id_vars var_name value_name = Ok out ->
  has_label value_name (columns df) = false
  /\ (forall v, In v id_vars -> count_label v (columns df) = 1)
  /\ NoDup id_vars
  /\ out
     = mkDF (id_vars ++ [var_name; value_name])
         (flat_map
            (fun j =>
               map (fun r =>
                      map (fun v =>
                             if String.eqb v var_name
                             then Str (nth j (filter
                                                (fun c => negb (has_label c id_vars))
                                                (columns df)) "")
                             else nth (index_of v (columns df)) r NaN) id_vars
                      ++ [Str (nth j (filter
                                        (fun c => negb (has_label c id_vars))
                                        (columns df)) "");
                          nth j (select
                                   (map (fun c => negb (has_label c id_vars))
                                        (columns df)) r) NaN])
                   (rows df))
            (seq 0 (length (filter (fun c => negb (has_label c id_vars))
                                   (columns df))))).
Proof.
  unfold melt.
  destruct (has_label value_name (columns df)); [discriminate|].
  destruct (forallb (fun v => has_label v (columns df)) id_vars);
    [|simpl; discriminate]. simpl.
  destruct (forallb (fun v => (count_label v (columns df) =? 1)%nat) id_vars)
    eqn:E; [|simpl; discriminate]. simpl.
  destruct (nodupb id_vars) eqn:En; [|simpl; discriminate]. simpl.
  rewrite select_map_filter.
  intros H. injection H as <-. split; [reflexivity|]. split; [|split].
  - intros v Hv. rewrite forallb_forall in E. now apply Nat.eqb_eq, E.
  - now apply nodupb_true.
  - reflexivity.
Qed.

Lemma process_ok_unique (df out : DataFrame) (cols : list string)
  (first_col : string) :
  process_road_euro_stat df cols first_col = Ok out ->
  count_label first_col (columns df) = 1.
Proof.
  unfold process_road_euro_stat, getitem.
  destruct (count_label first_col (columns df)) as [|[|n]];
    [discriminate | reflexivity | discriminate].
Qed.

(** The frame handed to [melt] when the function gets that far. *)
Lemma process_ok_melt (df out : DataFrame) (cols : list string)
  (first_col : string) :
  process_road_euro_stat df cols first_col = Ok out ->
  length cols
  = split_width (map (fun r => field df r first_col) (rows df))
  /\ melt (mkDF (map strip cols ++ map strip (year_labels df first_col))
             (map (fun r =>
                     pad_row (length cols) (key_fields df first_col r)
                     ++ year_cells df first_col r) (rows df)))
       cols "TIME_PERIOD" "value" = Ok out.
Proof.
  intros H. pose proof (process_ok_unique df out cols first_col H) as Hfc.
  rewrite (process_reshape_from df cols first_col Hfc) in H.
  unfold reshape_from in H.
  destruct (str_accessor _) as [c|e] eqn:Ec; [|discriminate].
  assert (c = map (fun r => field df r first_col) (rows df)) as ->.
  { unfold str_accessor in Ec. destruct (_ || _); now inversion Ec. }
  cbn [bind] in H. unfold set_columns in H.
  destruct (Nat.eqb_spec (length cols)
              (split_width (map (fun r => field df r first_col) (rows df))))
    as [Hw|Hw]; [|discriminate].
  split; [exact Hw|]. cbn [bind] in H.
  unfold concat_axis1 in H. cbn [columns rows] in H.
  rewrite map_app in H. unfold str_split_expand in H.
  fold (split_width (map (fun r => field df r first_col) (rows df))) in H.
  rewrite <- Hw, !map_map, combine_map, map_map in H. exact H.
Qed.

End ReshapeReturns.

Lemma process_ok_keys (df out : DataFrame) (cols : list string)
  (first_col : string) :
  process_road_euro_stat df cols first_col = Ok out ->
  Forall (fun c => trimmed c = true) cols
  /\ NoDup cols
  /\ (forall c, In c cols ->
                ~ In c (map strip (year_labels df first_col)))
  /\ ~ In "value" (cols ++ map strip (year_labels df first_col)).
Proof.
  intros H. destruct (process_ok_melt df out cols first_col H) as [_ Hm].
  apply melt_ok in Hm as (Hval & Hcount & Hnd & _). cbn [columns] in *.
  assert (Htrim : Forall (fun c => trimmed c = true) cols).
  { apply Forall_forall. intros c Hc. specialize (Hcount c Hc).
    apply count_label_in in Hcount. apply in_app_or in Hcount as [Hin|Hin];
      apply in_map_iff in Hin as (x & <- & _); apply strip_trimmed. }
  assert (Hcols : map strip cols = cols).
  { rewrite <- (map_id cols) at 2. apply map_ext_in. intros c Hc.
    rewrite Forall_forall in Htrim. now apply trimmed_strip, Htrim. }
  rewrite Hcols in *. apply has_label_false in Hval.
  split; [exact Htrim|]. split; [exact Hnd|]. split; [|exact Hval].
  intros c Hc Hin. specialize (Hcount c Hc).
  rewrite count_label_app, (count_label_NoDup c cols Hnd Hc) in Hcount.
  assert (count_label c (map strip (year_labels df first_col)) > 0).
  { unfold count_label. now apply count_occ_In. }
  lia.
Qed.



(** X1.  The function returns a table only if [first_col] labels exactly
    one column, the longest split of the compound column has as many
    fields as there are key names (so a table without rows needs an empty
    list of key names), the key names are trimmed and pairwise distinct,
    none of them is the stripped label of another column, and no stripped
    label is "value". *)
Theorem process_returns_only_if :
  forall (df out : DataFrame) (cols : list string) (first_col : string),
    process_road_euro_stat df cols first_col = Ok out ->
    count_label first_col (columns df) = 1
    /\ split_width (map (fun r => field df r first_col) (rows df))
       = length cols
    /\ (rows df = [] -> cols = [])
    /\ Forall (fun c => trimmed c = true) cols
    /\ NoDup cols
    /\ (forall c, In c cols ->
                  ~ In c (map strip (year_labels df first_col)))
    /\ ~ In "value" cols
    /\ ~ In "value" (map strip (year_labels df first_col)).
Proof.
  intros df out cols first_col H.
  pose proof (process_ok_unique df out cols first_col H) as Hfc.
  destruct (process_ok_melt df out cols first_col H) as [Hw _].
  destruct (process_ok_keys df out cols first_col H)
    as (Htrim & Hnd & Hapart & Hval).
  split; [exact Hfc|]. split; [now symmetry|].
  split; [|split; [|split; [|split; [|split]]]]; trivial.
  - intros Hr. rewrite Hr in Hw. simpl in Hw. now destruct cols.
  - intros Hin. apply Hval, in_or_app. now left.
  - intros Hin. apply Hval, in_or_app. now right.
Qed.

Lemma process_returns_only_if_witness :
  NoDup ["k"; "geo"]
  /\ Forall (fun c => trimmed c = true) ["k"; "geo"].
Proof.
  destruct (process_returns_only_if ex_wide
              (mkDF ["k"; "geo"; "TIME_PERIOD"; "value"]
                 [[Str "A"; Str "BE"; Str "2021"; Num 1];
                  [Str "B"; Str "FR"; Str "2021"; NaN];
                  [Str "A"; Str "BE"; Str "2022"; Num 2];
                  [Str "B"; Str "FR"; Str "2022"; Num 4]])
              ["k"; "geo"] "k,geo\TIME_PERIOD" eq_refl)
    as (_ & _ & _ & Ht & Hn & _).
  split; [exact Hn | exact Ht].
Defined.

(** X2.  Whatever the table, a record of a returned table is made of one
    cell per key name, then the stripped (hence trimmed) label of one of the
    other columns as text, then one cell: every row is as wide as the
    header. *)
Theorem process_record_shape :
  forall (df out : DataFrame) (cols : list string) (first_col : string),
    process_road_euro_stat df cols first_col = Ok out ->
    columns out = cols ++ ["TIME_PERIOD"; "value"]
    /\ forall rec,
         In rec (rows out) ->
         length rec = length (columns out)
         /\ exists keys year value,
              rec = keys ++ [Str year; value]
              /\ length keys = length cols
              /\ In year (map strip (year_labels df first_col))
              /\ trimmed year = true.
Proof.
  intros df out cols first_col H.
  destruct (process_ok_keys df out cols first_col H)
    as (Htrim & _ & Hapart & _).
  destruct (process_ok_melt df out cols first_col H) as [_ Hm].
  apply melt_ok in Hm as (_ & _ & _ & ->). cbn [columns rows].
  split; [reflexivity|]. intros rec Hrec.
  apply in_flat_map in Hrec as (j & Hj & Hrec).
  apply in_map_iff in Hrec as (r & <- & _). apply in_seq in Hj.
  set (names := filter _ _) in *.
  assert (Hy : In (nth j names "") names) by (apply nth_In; lia).
  unfold names in Hy at 2. apply filter_In in Hy as [Hin Hneg].
  apply negb_true_iff, has_label_false in Hneg.
  apply in_app_or in Hin as [Hin|Hin].
  - exfalso. apply in_map_iff in Hin as (c & E & Hc).
    rewrite Forall_forall in Htrim.
    rewrite (trimmed_strip c (Htrim c Hc)) in E. subst c. contradiction.
  - split.
    + rewrite !length_app, length_map. reflexivity.
    + eexists _, (nth j names ""), _. split; [reflexivity|].
      split; [apply length_map|]. split; [exact Hin|].
      apply in_map_iff in Hin as (x & <- & _). apply strip_trimmed.
Qed.

Lemma process_record_shape_witness :
  exists keys year value,
    [Str "B"; Str "FR"; Str "2022"; Num 4] = keys ++ [Str year; value]
    /\ length keys = 2
    /\ trimmed year = true.
Proof.
  destruct (process_record_shape ex_wide
              (mkDF ["k"; "geo"; "TIME_PERIOD"; "value"]
                 [[Str "A"; Str "BE"; Str "2021"; Num 1];
                  [Str "B"; Str "FR"; Str "2021"; NaN];
                  [Str "A"; Str "BE"; Str "2022"; Num 2];
                  [Str "B"; Str "FR"; Str "2022"; Num 4]])
              ["k"; "geo"] "k,geo\TIME_PERIOD" eq_refl) as [_ Hrec].
  destruct (Hrec [Str "B"; Str "FR"; Str "2022"; Num 4])
    as (_ & keys & year & value & E & Hk & _ & Ht).
  - simpl. auto 10.
  - exists keys, year, value. split; [exact E|]. split; [exact Hk | exact Ht].
Defined.

Section RecordOrder.

Lemma nth_error_flat_map_uniform {A B : Type} (f : A -> list B)
  (l : list A) (n j i : nat) (x : A) :
  (forall y, length (f y) = n) -> nth_error l j = Some x -> i < n ->
  nth_error (flat_map f l) (j * n + i) = nth_error (f x) i.
Proof.
  intros Hn. revert j. induction l as [|a l IH]; intros [|j] Hj Hi;
    try discriminate; simpl in *.
  - injection Hj as ->. apply nth_error_app1. now rewrite Hn.
  - rewrite nth_error_app2 by (rewrite Hn; lia). rewrite Hn.
    replace (n + j * n + i - n) with (j * n + i) by lia. now apply IH.
Qed.

End RecordOrder.

(** X3.  The records come year column by year column, and within a year
    column in the order of the rows: with R rows, the record at position
    [j * R + i] is the one of the row at position [i] and of the other column
    at position [j]. *)
Theorem process_record_order :
  forall (df : DataFrame) (cols : list string) (first_col : string)
         (i j : nat) (r : list cell),
    reshapable df cols first_col ->
    nth_error (rows df) i = Some r ->
    j < length (year_labels df first_col) ->
    exists tidy,
      process_road_euro_stat df cols first_col = Ok tidy
      /\ nth_error (rows tidy) (j * length (rows df) + i)
         = Some (key_fields df first_col r
                 ++ [Str (strip (nth j (year_labels df first_col) ""));
                     nth j (year_cells df first_col r) NaN]).
Proof.
  intros df cols first_col i j r Hrs Hi Hj.
  eexists. split; [apply (process_reshapable df cols first_col Hrs)|].
  cbn [rows]. unfold tidy_rows.
  assert (Hlt : i < length (rows df))
    by (apply nth_error_Some; now rewrite Hi).
  rewrite (nth_error_flat_map_uniform _ _ (length (rows df)) j i j).
  - rewrite nth_error_map, Hi. cbn [option_map].
    change "" with (strip "") at 1. now rewrite map_nth.
  - intros y. apply length_map.
  - rewrite nth_error_nth' with (d := 0) by (rewrite length_seq; lia).
    now rewrite seq_nth.
  - exact Hlt.
Qed.

Lemma process_record_order_witness :
  exists tidy,
    process_road_euro_stat ex_wide ["k"; "geo"] "k,geo\TIME_PERIOD" = Ok tidy
    /\ nth_error (rows tidy) (1 * 2 + 0)
       = Some [Str "A"; Str "BE"; Str "2022"; Num 2].
Proof.
  apply (process_record_order ex_wide ["k"; "geo"] "k,geo\TIME_PERIOD" 0 1
           [Str "A,BE"; Num 1; Num 2] ex_wide_reshapable);
    [reflexivity | simpl; lia].
Defined.

(** X4.  One row with more comma-separated fields than there are key names
    is enough for the call to raise [ValueError]: the split then has more
    columns than names. *)
Theorem process_too_many_fields :
  forall (df : DataFrame) (cols : list string) (first_col : string)
         (r : list cell) (s : string),
    count_label first_col (columns df) = 1 ->
    In r (rows df) ->
    field df r first_col = Str s ->
    length cols < length (split "," s) ->
    process_road_euro_stat df cols first_col = Raise ValueError.
Proof.
  intros df cols first_col r s Hfc Hr Hs Hlen.
  rewrite (process_reshape_from df cols first_col Hfc). unfold reshape_from.
  assert (Htext : str_accessor (map (fun r => field df r first_col) (rows df))
                  = Ok (map (fun r => field df r first_col) (rows df))).
  { unfold str_accessor.
    assert (E : existsb is_str (map (fun r => field df r first_col) (rows df))
                = true).
    { apply existsb_exists. exists (Str s). split; [|reflexivity].
      rewrite <- Hs. now apply (in_map (fun r => field df r first_col)). }
    now rewrite E. }
  rewrite Htext. cbn [bind]. unfold set_columns.
  assert (Hw : length (split "," s)
               <= split_width (map (fun r => field df r first_col) (rows df))).
  { unfold split_width. rewrite map_map.
    rewrite <- (length_map Str (split "," s)).
    apply expand_width_ge. apply in_map_iff. exists r.
    split; [now rewrite Hs | exact Hr]. }
  destruct (Nat.eqb_spec (length cols)
              (split_width (map (fun r => field df r first_col) (rows df))))
    as [E|_]; [lia | reflexivity].
Qed.

Lemma process_too_many_fields_witness :
  process_road_euro_stat
    (mkDF ["k"; "2022 "] [[Str "A,BE"; Num 1]; [Str "A,BE,x"; Num 2]])
    ["freq"; "geo"] "k"
  = Raise ValueError.
Proof.
  apply (process_too_many_fields
           (mkDF ["k"; "2022 "] [[Str "A,BE"; Num 1]; [Str "A,BE,x"; Num 2]])
           ["freq"; "geo"] "k" [Str "A,BE,x"; Num 2] "A,BE,x");
    [reflexivity | simpl; auto | reflexivity | simpl; lia].
Defined.

(** X6.  A label that is not in the header raises [KeyError], also when it
    is the stripped form of a label that is: the compound column is looked
    up before the labels are stripped. *)
Theorem process_missing_first_col :
  forall (df : DataFrame) (cols : list string) (first_col : string),
    ~ In first_col (columns df) ->
    process_road_euro_stat df cols first_col = Raise KeyError.
Proof.
  intros df cols first_col H. unfold process_road_euro_stat, getitem.
  now rewrite (count_label_notin first_col (columns df) H).
Qed.

Lemma process_missing_first_col_witness :
  In "k" (map strip [" k"; "2022"])
  /\ process_road_euro_stat (mkDF [" k"; "2022"] [[Str "BE"; Num 1]])
       ["geo"] "k"
     = Raise KeyError.
Proof.
  split; [now left|].
  apply (process_missing_first_col (mkDF [" k"; "2022"] [[Str "BE"; Num 1]])).
  not_in_literal.
Defined.

(** ** Reshaping: rows with fewer fields than key names *)

Section Ragged.

Variable df : DataFrame.
Variable cols : list string.
Variable first_col : string.

Hypothesis Hwide : Forall (fun r => length r = length (columns df)) (rows df).
Hypothesis Hfc : count_label first_col (columns df) = 1.
Hypothesis Htext :
  existsb is_str (map (fun r => field df r first_col) (rows df)) = true.
Hypothesis Hwidth :
  split_width (map (fun r => field df r first_col) (rows df)) = length cols.
Hypothesis Htrim : Forall (fun c => trimmed c = true) cols.
Hypothesis Hdist : NoDup cols.
Hypothesis Hapart :
  forall c, In c cols -> ~ In c (map strip (year_labels df first_col)).
Hypothesis Hvalue : ~ In "value" (cols ++ map strip (year_labels df first_col)).
Hypothesis Hperiod : ~ In "TIME_PERIOD" cols.

Let years := map strip (year_labels df first_col).

Lemma padded_keys_length (r : list cell) :
  In r (rows df) -> length (padded_keys df cols first_col r) = length cols.
Proof.
  intros Hr. unfold padded_keys, pad_row.
  rewrite length_app, repeat_length.
  assert (length (key_fields df first_col r) <= length cols).
  { rewrite <- Hwidth. unfold split_width. rewrite map_map.
    apply expand_width_ge. apply in_map_iff. now exists r. }
  lia.
Qed.

Lemma year_cells_wide (r : list cell) :
  In r (rows df) ->
  length (year_cells df first_col r) = length years.
Proof.
  intros Hr. rewrite Forall_forall in Hwide. specialize (Hwide r Hr).
  unfold years, year_cells, year_labels. rewrite length_map.
  generalize (drop_mask first_col (columns df)). revert Hwide.
  generalize (columns df). clear. revert r.
  induction r as [|x r IH]; intros [|c l] H m; try discriminate.
  - now destruct m.
  - destruct m as [|b m]; [reflexivity|]. injection H as H.
    destruct b; simpl; now rewrite (IH l H m).
Qed.

(** The function on a table whose longest split has as many fields as
    there are key names: it returns, and the rows with fewer fields get
    missing cells under the last key names. *)
Lemma process_padded :
  process_road_euro_stat df cols first_col
  = Ok (mkDF (cols ++ ["TIME_PERIOD"; "value"])
          (flat_map
             (fun j =>
                map (fun r => padded_keys df cols first_col r
                              ++ [Str (nth j years "");
                                  nth j (year_cells df first_col r) NaN])
                    (rows df))
             (seq 0 (length years)))).
Proof.
  rewrite (process_reshape_from df cols first_col Hfc).
  unfold reshape_from, str_accessor. rewrite Htext. cbn [orb bind].
  unfold set_columns. rewrite Hwidth, Nat.eqb_refl. cbn [bind].
  unfold concat_axis1, str_split_expand. cbn [columns rows].
  fold (split_width (map (fun r => field df r first_col) (rows df))).
  rewrite Hwidth, !map_map, combine_map, map_map. cbn [fst snd].
  rewrite map_app.
  assert (Hcols : map strip cols = cols).
  { rewrite <- (map_id cols) at 2. apply map_ext_in. intros c Hc.
    rewrite Forall_forall in Htrim. now apply trimmed_strip, Htrim. }
  rewrite Hcols. fold (year_labels df first_col). fold years.
  unfold melt. cbn [columns rows].
  rewrite (proj2 (has_label_false "value" (cols ++ years)) Hvalue).
  assert (H2 : forallb (fun v => has_label v (cols ++ years)) cols = true).
  { apply forallb_forall. intros v Hv. apply has_label_true, in_or_app.
    now left. }
  rewrite H2. cbn [negb].
  assert (H3 : forallb (fun v => (count_label v (cols ++ years) =? 1)%nat) cols
               = true).
  { apply forallb_forall. intros v Hv. apply Nat.eqb_eq.
    rewrite count_label_app, (count_label_NoDup v cols Hdist Hv).
    rewrite (count_label_notin v years (Hapart v Hv)). reflexivity. }
  rewrite H3. cbn [negb]. rewrite (nodupb_NoDup cols Hdist). cbn [negb].
  assert (Hmask : map (fun c => negb (has_label c cols)) (cols ++ years)
                  = map (fun _ => false) cols ++ map (fun _ => true) years).
  { rewrite map_app. f_equal; apply map_ext_in; intros c Hc.
    - now rewrite (proj2 (has_label_true c cols) Hc).
    - apply negb_true_iff, has_label_false. intros Hin.
      now apply (Hapart c Hin). }
  rewrite Hmask.
  assert (Hsel : select (map (fun _ : string => false) cols
                         ++ map (fun _ : string => true) years)
                   (cols ++ years) = years).
  { rewrite select_app by (now rewrite length_map).
    rewrite select_none. simpl. now apply select_const_true. }
  rewrite Hsel. f_equal. f_equal. apply flat_map_ext_in. intros j _.
  rewrite map_map. apply map_ext_in. intros r Hr.
  fold (key_fields df first_col r). fold (padded_keys df cols first_col r).
  fold (year_cells df first_col r).
  pose proof (padded_keys_length r Hr) as Hk.
  f_equal.
  - etransitivity; [|apply (nth_index_of cols (padded_keys df cols first_col r)
                              (year_cells df first_col r) Hdist Hk)].
    apply map_ext_in. intros v Hv.
    destruct (String.eqb_spec v "TIME_PERIOD") as [->|Hne];
      [contradiction|].
    now rewrite (index_of_app_in v cols years Hv).
  - f_equal. f_equal.
    rewrite select_app by (now rewrite length_map, Hk).
    rewrite select_none. cbn [app].
    rewrite select_const_true; [reflexivity|]. now apply year_cells_wide.
Qed.

End Ragged.

(** X5.  Rows with fewer fields than key names do not make the call fail,
    as long as the longest split has exactly as many fields as there are key
    names: such a row keeps its fields under the first key names and gets
    missing cells under the others, in each of its records. *)
Theorem process_short_row_padded :
  forall (df : DataFrame) (cols : list string) (first_col : string),
    Forall (fun r => length r = length (columns df)) (rows df) ->
    count_label first_col (columns df) = 1 ->
    existsb is_str (map (fun r => field df r first_col) (rows df)) = true ->
    split_width (map (fun r => field df r first_col) (rows df))
    = length cols ->
    Forall (fun c => trimmed c = true) cols ->
    NoDup cols ->
    (forall c, In c cols -> ~ In c (map strip (year_labels df first_col))) ->
    ~ In "value" (cols ++ map strip (year_labels df first_col)) ->
    ~ In "TIME_PERIOD" cols ->
    exists tidy,
      process_road_euro_stat df cols first_col = Ok tidy
      /\ length (rows tidy)
         = length (rows df) * length (year_labels df first_col)
      /\ forall i j r,
           nth_error (rows df) i = Some r ->
           j < length (year_labels df first_col) ->
           exists rec,
             nth_error (rows tidy) (j * length (rows df) + i) = Some rec
             /\ firstn (length (key_fields df first_col r)) rec
                = key_fields df first_col r
             /\ forall k,
                  length (key_fields df first_col r) <= k < length cols ->
                  nth k rec (Str "") = NaN.
Proof.
  intros df cols first_col Hwide Hfc Htext Hwidth Htrim Hdist Hapart Hvalue
    Hperiod.
  eexists. split; [apply process_padded; assumption|].
  cbn [rows]. rewrite length_map. split.
  - rewrite (length_flat_map_uniform _ _ (length (rows df))).
    + rewrite length_seq. apply Nat.mul_comm.
    + intros j. apply length_map.
  - intros i j r Hi Hj.
    assert (Hlt : i < length (rows df))
      by (apply nth_error_Some; now rewrite Hi).
    assert (Hr : In r (rows df)) by (now apply nth_error_In in Hi).
    eexists. split.
    + rewrite (nth_error_flat_map_uniform _ _ (length (rows df)) j i j).
      * rewrite nth_error_map, Hi. reflexivity.
      * intros y. apply length_map.
      * rewrite nth_error_nth' with (d := 0) by (rewrite length_seq; lia).
        now rewrite seq_nth.
      * exact Hlt.
    + assert (Hk : length (padded_keys df cols first_col r) = length cols)
        by (eapply padded_keys_length; eassumption).
      unfold padded_keys, pad_row in *. rewrite length_app, repeat_length in Hk.
      split.
      * rewrite <- !app_assoc, firstn_app, Nat.sub_diag, firstn_all.
        cbn [firstn]. apply app_nil_r.
      * intros k Hkk. rewrite <- !app_assoc.
        rewrite app_nth2 by lia. rewrite app_nth1 by (rewrite repeat_length; lia).
        apply nth_repeat_lt. lia.
Qed.

Lemma process_short_row_padded_witness :
  exists tidy,
    process_road_euro_stat
      (mkDF ["k"; "2022 "] [[Str "A,BE"; Num 1]; [Str "B"; Num 2]])
      ["freq"; "geo"] "k" = Ok tidy
    /\ exists rec,
         nth_error (rows tidy) (0 * 2 + 1) = Some rec
         /\ nth 1 rec (Str "") = NaN.
Proof.
  destruct (process_short_row_padded
              (mkDF ["k"; "2022 "] [[Str "A,BE"; Num 1]; [Str "B"; Num 2]])
              ["freq"; "geo"] "k") as (tidy & Hok & _ & Hrec).
  - repeat constructor.
  - reflexivity.
  - reflexivity.
  - reflexivity.
  - repeat constructor.
  - repeat constructor; not_in_literal.
  - intros c [<-|[<-|[]]]; not_in_literal.
  - not_in_literal.
  - not_in_literal.
  - exists tidy. split; [exact Hok|].
    destruct (Hrec 1 0 [Str "B"; Num 2]) as (rec & Hn & _ & Hnan);
      [reflexivity | simpl; lia |].
    exists rec. split; [exact Hn|]. apply Hnan. simpl. lia.
Defined.

(** ** The country table: what the corrections leave alone *)

Section CorrectionsKeep.

Lemma correct_row_keeps_codes (r : CountryRow) :
  Alpha3 (correct_row r) = Alpha3 r /\ Numeric (correct_row r) = Numeric r.
Proof.
  assert (Hn : Alpha3 (rename_row r) = Alpha3 r
               /\ Numeric (rename_row r) = Numeric r).
  { destruct (rename_row_cases r) as [(c & a3 & n & code & -> & Hc)|Hr].
    - simpl in Hc. destruct Hc as [<-|[<-|[<-|[<-|[]]]]]; split; reflexivity.
    - now rewrite Hr. }
  unfold correct_row.
  destruct (recode_row_cases (rename_row r))
    as [(a & a3 & n & name & E & Hc)|Hc].
  - rewrite E in *. simpl in Hc, Hn.
    destruct Hc as [<-|[<-|[]]]; exact Hn.
  - now rewrite Hc.
Qed.

Lemma correct_row_untouched (r : CountryRow) :
  (forall kv, In kv country_updates -> Alpha2 r <> Str (fst kv)) ->
  (forall kv, In kv code_updates -> Country r <> Str (fst kv)) ->
  correct_row r = r.
Proof.
  intros Hcode Hname. unfold correct_row.
  assert (Hr : rename_row r = r).
  { destruct (rename_row_cases r) as [(c & a3 & n & code & -> & Hc)|Hr];
      [|exact Hr].
    exfalso. simpl in Hc.
    destruct Hc as [<-|[<-|[<-|[<-|[]]]]].
    - apply (Hcode ("US", "United States")); simpl; auto.
    - apply (Hcode ("GB", "United Kingdom")); simpl; auto.
    - apply (Hcode ("NL", "Netherlands")); simpl; auto.
    - apply (Hcode ("MD", "Moldova")); simpl; auto 10. }
  rewrite Hr.
  destruct (recode_row_cases r) as [(a & a3 & n & name & -> & Hc)|Hc];
    [|exact Hc].
  exfalso. simpl in Hc. destruct Hc as [<-|[<-|[]]].
  - apply (Hname ("Greece", "EL")); simpl; auto.
  - apply (Hname ("United Kingdom", "UK")); simpl; auto.
Qed.

Lemma correct_row_renamed (r : CountryRow) (code name : string) :
  In (code, name) country_updates -> Alpha2 r = Str code ->
  Country (correct_row r) = Str name.
Proof.
  destruct r as [c a a3 n]. simpl.
  intros [E|[E|[E|[E|[]]]]] ->; injection E as <- <-; reflexivity.
Qed.

Lemma nth_error_get_country_codes (excel : list CountryRow) (i : nat)
  (r : CountryRow) :
  nth_error excel i = Some r ->
  nth_error (get_country_codes excel) i = Some (correct_row r).
Proof.
  intros Hi. unfold get_country_codes. rewrite corrections_map.
  rewrite nth_error_app1.
  - now rewrite nth_error_map, Hi.
  - rewrite length_map. apply nth_error_Some. now rewrite Hi.
Qed.

End CorrectionsKeep.

(** X7.  The corrections never touch the 3-letter and numeric codes, and
    keep the rows in place: the returned columns are those of the
    spreadsheet followed by the cell of the Kosovo row. *)
Theorem get_country_codes_keeps_other_codes :
  forall excel : list CountryRow,
    map Alpha3 (get_country_codes excel) = map Alpha3 excel ++ [Str "XKO"]
    /\ map Numeric (get_country_codes excel)
       = map Numeric excel ++ [Num 9999].
Proof.
  intros excel. unfold get_country_codes.
  rewrite corrections_map, !map_app, !map_map. split; f_equal;
    apply map_ext; intros r; apply correct_row_keeps_codes.
Qed.

(** X8.  Every entry of the first mapping is applied: a row whose
    2-letter code is a key of it is returned, at its position, with the
    mapped name, whatever name the spreadsheet gave it. *)
Theorem get_country_codes_renames :
  forall (excel : list CountryRow) (i : nat) (r : CountryRow)
         (code name : string),
    In (code, name) country_updates ->
    nth_error excel i = Some r ->
    Alpha2 r = Str code ->
    exists r',
      nth_error (get_country_codes excel) i = Some r'
      /\ Country r' = Str name.
Proof.
  intros excel i r code name Hin Hi Hcode.
  exists (correct_row r). split.
  - now apply nth_error_get_country_codes.
  - now apply (correct_row_renamed r code name).
Qed.

Lemma get_country_codes_renames_witness :
  exists r',
    nth_error
      (get_country_codes
         [mkCountry (Str "Netherlands (Kingdom of the)") (Str "NL")
                    (Str "NLD") (Num 528)]) 0 = Some r'
    /\ Country r' = Str "Netherlands".
Proof.
  apply (get_country_codes_renames _ 0
           (mkCountry (Str "Netherlands (Kingdom of the)") (Str "NL")
                      (Str "NLD") (Num 528)) "NL" "Netherlands");
    [simpl; auto | reflexivity | reflexivity].
Defined.

(** X9.  A row whose 2-letter code is no key of the first mapping and whose
    name is no key of the second is returned unchanged, at its position. *)
Theorem get_country_codes_keeps_other_rows :
  forall (excel : list CountryRow) (i : nat) (r : CountryRow),
    nth_error excel i = Some r ->
    (forall kv, In kv country_updates -> Alpha2 r <> Str (fst kv)) ->
    (forall kv, In kv code_updates -> Country r <> Str (fst kv)) ->
    nth_error (get_country_codes excel) i = Some r.
Proof.
  intros excel i r Hi Hcode Hname.
  rewrite (nth_error_get_country_codes excel i r Hi).
  now rewrite (correct_row_untouched r Hcode Hname).
Qed.

Lemma get_country_codes_keeps_other_rows_witness :
  nth_error (get_country_codes ex_excel) 1
  = Some (mkCountry (Str "France") (Str "FR") (Str "FRA") (Num 250)).
Proof.
  apply (get_country_codes_keeps_other_rows ex_excel 1); [reflexivity | |].
  - intros kv H. simpl in H.
    repeat (destruct H as [<-|H]; [discriminate|]). destruct H.
  - intros kv H. simpl in H.
    repeat (destruct H as [<-|H]; [discriminate|]). destruct H.
Defined.

(** ** Annotating: the codes the corrections are made for, and row counts *)

Section EurostatCodes.

Lemma correct_row_recoded (r : CountryRow) :
  Alpha2 (correct_row r) = Alpha2 r
  \/ (Country (correct_row r) = Str "Greece"
      /\ Alpha2 (correct_row r) = Str "EL")
  \/ (Country (correct_row r) = Str "United Kingdom"
      /\ Alpha2 (correct_row r) = Str "UK").
Proof.
  assert (Hn : Alpha2 (rename_row r) = Alpha2 r).
  { destruct (rename_row_cases r) as [(c & a3 & n & code & -> & Hc)|Hr].
    - simpl in Hc. destruct Hc as [<-|[<-|[<-|[<-|[]]]]]; reflexivity.
    - now rewrite Hr. }
  unfold correct_row.
  destruct (recode_row_cases (rename_row r))
    as [(a & a3 & n & name & -> & Hc)|Hc].
  - simpl in Hc. destruct Hc as [<-|[<-|[]]]; simpl; auto.
  - rewrite Hc. now left.
Qed.

Variable excel : list CountryRow.
Hypothesis Hiso : iso_spreadsheet excel.

Lemma eurostat_code_names (e : CountryRow) (code name : string) :
  In (code, name) eurostat_codes ->
  In e (get_country_codes excel) -> Alpha2 e = Str code ->
  Country e = Str name.
Proof.
  intros Hin He Hcode. destruct Hiso as (_ & _ & Hfree).
  apply in_get_country_codes in He as [(r & Hr & ->)| ->].
  - destruct (Hfree r Hr) as (Huk & Hel & Hxk).
    destruct (correct_row_recoded r) as [E|[[En Ec]|[En Ec]]];
      rewrite ?E, ?Ec in Hcode; simpl in Hin;
      destruct Hin as [H|[H|[H|[]]]]; injection H as <- <-;
      try discriminate; try contradiction; exact En.
  - simpl in Hin, Hcode.
    destruct Hin as [H|[H|[H|[]]]]; injection H as <- <-;
      try discriminate; reflexivity.
Qed.

Lemma eurostat_code_present (code name : string) :
  In (code, name) eurostat_codes ->
  exists e, In e (get_country_codes excel) /\ Alpha2 e = Str code.
Proof.
  intros Hin. destruct Hiso as ((g & Hg & Hgb) & (h & Hh & Hgr & Hname) & _).
  simpl in Hin. destruct Hin as [H|[H|[H|[]]]]; injection H as <- <-.
  - exists (correct_row g). split.
    + unfold get_country_codes. rewrite corrections_map.
      apply in_or_app. left. now apply in_map.
    + now rewrite (correct_row_gb g Hgb).
  - exists (correct_row h). split.
    + unfold get_country_codes. rewrite corrections_map.
      apply in_or_app. left. now apply in_map.
    + now apply correct_row_gr.
  - exists (mkCountry (Str "Kosovo") (Str "XK") (Str "XKO") (Num 9999)).
    split; [|reflexivity]. unfold get_country_codes. apply in_or_app.
    right. now left.
Qed.

End EurostatCodes.

(** X16.  With an ISO spreadsheet, annotating gives the rows that carry one
    of Eurostat's own codes "UK", "EL" and "XK" the names "United Kingdom",
    "Greece" and "Kosovo": each such row is in the output with that name,
    and with no other. *)
Theorem merge_and_rename_names_eurostat_codes :
  forall (excel : list CountryRow) (df : DataFrame)
         (merge_on new_column_name : string),
    iso_spreadsheet excel ->
    joinable df merge_on new_column_name ->
    exists out,
      merge_and_rename excel df merge_on new_column_name = Ok out
      /\ forall l code name,
           In l (rows df) ->
           In (code, name) eurostat_codes ->
           field df l merge_on = Str code ->
           In (l ++ [Str name]) (rows out)
           /\ forall n, In (l ++ [n]) (rows out) -> n = Str name.
Proof.
  intros excel df merge_on new_column_name Hiso Hj.
  eexists. split; [apply (merge_and_rename_ok excel _ _ _ Hj)|].
  cbn [rows]. intros l code name Hl Hin Hcode.
  set (t := get_country_codes excel).
  set (key := fun l => field df l merge_on).
  destruct (eurostat_code_present excel Hiso code name Hin) as (e & He & Hec).
  split.
  - apply (in_joined t key). exists l, (Str name). split; [exact Hl|].
    split; [|reflexivity].
    rewrite <- (eurostat_code_names excel Hiso e code name Hin He Hec).
    apply country_names_in; [exact He|]. unfold key. now rewrite Hcode.
  - intros n Hn. apply (in_joined t key) in Hn as (l' & n' & _ & Hn' & E).
    apply app_inj_tail in E as [<- <-]. unfold key in Hn'. rewrite Hcode in Hn'.
    apply country_names_cases in Hn' as [(e' & He' & Hc' & ->)|[Hno _]].
    + now apply (eurostat_code_names excel Hiso e' code name).
    + now apply Hno in He.
Qed.

Lemma ex_excel_iso : iso_spreadsheet ex_excel.
Proof.
  split; [|split].
  - exists (mkCountry (Str "United Kingdom of Great Britain") (Str "GB")
                      (Str "GBR") (Num 826)). simpl. auto 10.
  - exists (mkCountry (Str "Greece") (Str "GR") (Str "GRC") (Num 300)).
    simpl. auto 10.
  - intros r H. simpl in H.
    repeat (destruct H as [<-|H]; [repeat split; discriminate|]). destruct H.
Defined.

Lemma merge_and_rename_names_eurostat_codes_witness :
  exists out,
    merge_and_rename ex_excel
      (mkDF ["geo"; "value"] [[Str "EL"; Num 1]; [Str "XK"; Num 2]])
      "geo" "geo_country" = Ok out
    /\ In ([Str "EL"; Num 1] ++ [Str "Greece"]) (rows out)
    /\ In ([Str "XK"; Num 2] ++ [Str "Kosovo"]) (rows out).
Proof.
  destruct (merge_and_rename_names_eurostat_codes ex_excel
              (mkDF ["geo"; "value"] [[Str "EL"; Num 1]; [Str "XK"; Num 2]])
              "geo" "geo_country" ex_excel_iso) as (out & Hok & Hrows).
  - unfold joinable. repeat split; try reflexivity; try discriminate;
      repeat constructor.
  - exists out. split; [exact Hok|]. split.
    + apply (Hrows [Str "EL"; Num 1] "EL" "Greece"); simpl; auto.
    + apply (Hrows [Str "XK"; Num 2] "XK" "Kosovo"); simpl; auto 10.
Defined.

Section RowCount.

Lemma filter_key_unique {A : Type} (key : A -> cell) (k : cell)
  (l : list A) :
  NoDup (map key l) ->
  length (filter (fun e => cell_eqb (key e) k) l) <= 1.
Proof.
  induction l as [|a l IH]; simpl; intros Hnd; [lia|].
  inversion Hnd as [|? ? Ha Hl]; subst.
  destruct (cell_eqb (key a) k) eqn:E; [|now apply IH].
  apply cell_eqb_eq in E. subst k.
  rewrite filter_nil_intro; [simpl; lia|].
  intros y Hy. destruct (cell_eqb (key y) (key a)) eqn:E; [|reflexivity].
  exfalso. apply Ha. apply cell_eqb_eq in E. rewrite <- E. now apply in_map.
Qed.

Lemma country_names_length (t : list CountryRow) (k : cell) :
  length (country_names t k)
  = Nat.max 1 (length (filter (fun e => cell_eqb (Alpha2 e) k) t)).
Proof.
  unfold country_names. destruct (filter _ t) as [|m ms]; [reflexivity|].
  rewrite length_map. simpl. lia.
Qed.

Lemma length_flat_map {A B : Type} (f : A -> list B) (l : list A) :
  length (flat_map f l) = list_sum (map (fun x => length (f x)) l).
Proof.
  induction l as [|x l IH]; simpl; [reflexivity|].
  now rewrite length_app, IH.
Qed.

End RowCount.

(** X10.  The join gives each row one output row per entry of the
    corrected table that has its code, and one when there is none: the
    output is never shorter than the input, and has the same number of
    rows when no two entries of the corrected table share a code. *)
Theorem merge_and_rename_row_count :
  forall (excel : list CountryRow) (df : DataFrame)
         (merge_on new_column_name : string),
    joinable df merge_on new_column_name ->
    exists out,
      merge_and_rename excel df merge_on new_column_name = Ok out
      /\ length (rows out)
         = list_sum
             (map (fun l =>
                     Nat.max 1
                       (length (filter
                                  (fun e => cell_eqb (Alpha2 e)
                                                     (field df l merge_on))
                                  (get_country_codes excel))))
                  (rows df))
      /\ length (rows df) <= length (rows out)
      /\ (NoDup (map Alpha2 (get_country_codes excel)) ->
          length (rows out) = length (rows df)).
Proof.
  intros excel df merge_on new_column_name Hj.
  eexists. split; [apply (merge_and_rename_ok excel _ _ _ Hj)|].
  cbn [rows]. rewrite length_flat_map.
  assert (E : map (fun l => length
                      (map (fun n => l ++ [n])
                         (country_names (get_country_codes excel)
                            (field df l merge_on)))) (rows df)
              = map (fun l =>
                       Nat.max 1
                         (length (filter
                                    (fun e => cell_eqb (Alpha2 e)
                                                       (field df l merge_on))
                                    (get_country_codes excel))))
                    (rows df)).
  { apply map_ext. intros l. now rewrite length_map, country_names_length. }
  rewrite E. split; [reflexivity|]. split.
  - clear. unfold list_sum. induction (rows df) as [|l ls IH];
      cbn [map length fold_right] in *; [lia|].
    match goal with |- _ <= Nat.max 1 ?x + _ =>
      pose proof (Nat.le_max_l 1 x); generalize dependent (Nat.max 1 x) end.
    intros; lia.
  - intros Hnd. clear E. unfold list_sum. induction (rows df) as [|l ls IH];
      cbn [map length fold_right] in *; [reflexivity|].
    rewrite Nat.max_l; [lia|].
    apply (filter_key_unique Alpha2 (field df l merge_on)
             (get_country_codes excel) Hnd).
Qed.

Lemma merge_and_rename_row_count_witness :
  exists out,
    merge_and_rename ex_excel ex_codes "geo" "geo_country" = Ok out
    /\ length (rows out) = 5.
Proof.
  destruct (merge_and_rename_row_count ex_excel ex_codes "geo" "geo_country"
              ex_codes_joinable) as (out & Hok & _ & _ & Hsame).
  exists out. split; [exact Hok|]. apply Hsame.
  change (NoDup [Str "BE"; Str "FR"; Str "UK"; Str "EL"; Str "XK"]).
  repeat constructor; not_in_literal.
Defined.

(** A spreadsheet that already has a row coded "XK" gets a second one: the
    rows of the data coded "XK" are then doubled by the join. *)
Example kosovo_listed_twice :
  merge_and_rename
    [mkCountry (Str "Kosovo") (Str "XK") (Str "XKX") (Num 983)]
    (mkDF ["geo"; "value"] [[Str "XK"; Num 1]]) "geo" "geo_country"
  = Ok (mkDF ["geo"; "value"; "geo_country"]
          [[Str "XK"; Num 1; Str "Kosovo"]; [Str "XK"; Num 1; Str "Kosovo"]]).
Proof. reflexivity. Qed.

(** X11.  Annotating on a label that the table does not have raises
    [KeyError], whatever the spreadsheet. *)
Theorem merge_and_rename_missing_column :
  forall (excel : list CountryRow) (df : DataFrame)
         (merge_on new_column_name : string),
    ~ In merge_on (columns df) ->
    merge_and_rename excel df merge_on new_column_name = Raise KeyError.
Proof.
  intros excel df merge_on new_column_name H.
  unfold merge_and_rename, merge_left, merge_key.
  now rewrite (count_label_notin merge_on (columns df) H).
Qed.

Lemma merge_and_rename_missing_column_witness :
  merge_and_rename ex_excel ex_codes "c_load" "load_country" = Raise KeyError.
Proof.
  apply (merge_and_rename_missing_column ex_excel ex_codes). not_in_literal.
Defined.

(** ** The script as a whole *)

Section Script.

Lemma nth_not_text (l : list cell) (j : nat) :
  Forall (fun c => is_str c = false) l -> is_str (nth j l NaN) = false.
Proof.
  intros H. destruct (Nat.lt_ge_cases j (length l)) as [Hj|Hj].
  - rewrite Forall_forall in H. now apply H, nth_In.
  - now rewrite nth_overflow.
Qed.

Lemma index_of_lt (x : string) (l : list string) :
  In x l -> index_of x l < length l.
Proof.
  induction l as [|c l IH]; [contradiction|]. simpl.
  destruct (String.eqb_spec c x) as [_|Hne]; [lia|].
  intros [H|H]; [contradiction|]. apply IH in H. lia.
Qed.

Lemma nth_split_text (s : string) (i : nat) :
  i < length (split "," s) -> is_str (nth i (split_cell (Str s)) NaN) = true.
Proof.
  intros H. simpl.
  rewrite (nth_indep _ NaN (Str EmptyString)) by now rewrite length_map.
  now rewrite (map_nth Str).
Qed.

Lemma holds_text_all (df : DataFrame) (label : string) :
  Forall (fun r => is_str (field df r label) = true) (rows df) ->
  holds_text df label.
Proof.
  unfold holds_text. destruct (rows df) as [|r rs]; [now left|].
  intros H. right. exists r. split; [now left|].
  now apply Forall_inv in H.
Qed.

(** The three steps on one table: each returns, and the last table has the
    key columns, the year, the value and the two names, with text under the
    key columns and no text under "value". *)
Lemma annotated_steps (excel : list CountryRow) (df : DataFrame)
  (cols : list string) (first_col on1 new1 on2 new2 : string) :
  reshapable df cols first_col ->
  numeric_years df first_col ->
  In on1 cols -> In on2 cols ->
  ~ In "Country" cols -> ~ In "Alpha-2 code" cols ->
  new1 <> "Alpha-2 code" -> new2 <> "Alpha-2 code" ->
  new1 <> "Country" -> new1 <> on2 ->
  exists t0 t1 a,
    process_road_euro_stat df cols first_col = Ok t0
    /\ merge_and_rename excel t0 on1 new1 = Ok t1
    /\ merge_and_rename excel t1 on2 new2 = Ok a
    /\ columns a = cols ++ ["TIME_PERIOD"; "value"; new1; new2]
    /\ Forall (fun row => is_str (field a row "value") = false) (rows a)
    /\ forall k, In k cols -> holds_text a k.
Proof.
  intros Hrs Hnum H1 H2 Hcountry Hcode Hn1 Hn2 Hn1c Hn1o.
  pose proof (tidy_key_frame df cols first_col Hrs) as Hk0.
  set (t0 := mkDF (cols ++ ["TIME_PERIOD"; "value"]) (tidy_rows df first_col))
    in *.
  assert (Hcount : forall on extra,
            In on cols -> ~ In on extra -> count_label on (cols ++ extra) = 1).
  { intros on extra Hin Hex.
    rewrite count_label_app, (count_label_NoDup on cols (rs_distinct Hrs) Hin).
    now rewrite (count_label_notin on extra Hex). }
  assert (Hex : forall on, In on cols -> ~ In on ["TIME_PERIOD"; "value"]).
  { intros on Hin [<-|[<-|[]]].
    - now apply (rs_period Hrs).
    - now apply (rs_value_key Hrs). }
  assert (Hj1 : joinable t0 on1 new1).
  { apply (key_frame_joinable cols); trivial.
    - now apply Hcount, Hex.
    - apply has_label_false. intros H. apply in_app_or in H as [H|H];
        [contradiction | simpl in H; intuition discriminate].
    - apply has_label_false. intros H. apply in_app_or in H as [H|H];
        [contradiction | simpl in H; intuition discriminate]. }
  pose proof (joined_key_frame excel cols t0 on1 new1 Hk0) as Hk1.
  set (t1 := mkDF (columns t0 ++ [new1])
               (flat_map
                  (fun l => map (fun n => l ++ [n])
                              (country_names (get_country_codes excel)
                                             (field t0 l on1)))
                  (rows t0))) in *.
  assert (Hj2 : joinable t1 on2 new2).
  { apply (key_frame_joinable cols); trivial; unfold t1, t0; cbn [columns];
      rewrite <- app_assoc.
    - apply Hcount; [exact H2|]. intros H. simpl in H.
      destruct H as [<-|[<-|[<-|[]]]].
      + now apply (rs_period Hrs).
      + now apply (rs_value_key Hrs).
      + now apply Hn1o.
    - apply has_label_false. intros H. apply in_app_or in H as [H|H];
        [contradiction|]. simpl in H.
      destruct H as [H|[H|[H|[]]]]; try discriminate. now apply Hn1c.
    - apply has_label_false. intros H. apply in_app_or in H as [H|H];
        [contradiction|]. simpl in H.
      destruct H as [H|[H|[H|[]]]]; try discriminate. now apply Hn1. }
  exists t0, t1. eexists.
  split; [apply (process_reshapable df cols first_col Hrs)|].
  split; [apply (merge_and_rename_ok excel t0 on1 new1 Hj1)|].
  split; [apply (merge_and_rename_ok excel t1 on2 new2 Hj2)|].
  cbn [columns rows]. split; [|split].
  - unfold t1, t0. cbn [columns]. now rewrite <- !app_assoc.
  - apply Forall_forall. intros row Hrow.
    apply in_joined in Hrow as (l1 & n2 & Hl1 & _ & ->).
    unfold t1 in Hl1. cbn [rows] in Hl1.
    apply in_joined in Hl1 as (rec & n1 & Hrec & _ & ->).
    unfold t0 in Hrec. cbn [rows] in Hrec. unfold tidy_rows in Hrec.
    apply in_flat_map in Hrec as (j & _ & Hrec).
    apply in_map_iff in Hrec as (r & <- & Hr).
    pose proof (key_fields_length df cols first_col Hrs r Hr) as Hk.
    unfold field, t1, t0. cbn [columns]. rewrite <- !app_assoc.
    rewrite (index_of_app_notin "value" cols _ (rs_value_key Hrs)).
    cbn [index_of app]. change (String.eqb "TIME_PERIOD" "value") with false.
    rewrite String.eqb_refl. cbn iota.
    rewrite app_nth2 by lia.
    replace (length cols + 1 - length (key_fields df first_col r)) with 1
      by lia.
    cbn [nth]. apply nth_not_text.
    unfold numeric_years in Hnum. rewrite Forall_forall in Hnum.
    now apply Hnum.
  - intros k Hk. apply holds_text_all. cbn [rows].
    apply Forall_forall. intros row Hrow.
    apply in_joined in Hrow as (l1 & n2 & Hl1 & _ & ->).
    unfold t1 in Hl1. cbn [rows] in Hl1.
    apply in_joined in Hl1 as (rec & n1 & Hrec & _ & ->).
    unfold t0 in Hrec. cbn [rows] in Hrec. unfold tidy_rows in Hrec.
    apply in_flat_map in Hrec as (j & _ & Hrec).
    apply in_map_iff in Hrec as (r & <- & Hr).
    pose proof (index_of_lt k cols Hk) as Hi.
    pose proof (rs_fields Hrs) as Hf. rewrite Forall_forall in Hf.
    destruct (Hf r Hr) as (s & E & Hlen).
    unfold field at 1. cbn [columns]. unfold t1, t0. cbn [columns].
    rewrite <- !app_assoc, (index_of_app_in k cols _ Hk).
    unfold key_fields. rewrite E.
    assert (Hsl : length (split_cell (Str s)) = length cols)
      by (simpl; now rewrite length_map).
    rewrite app_nth1 by lia.
    apply nth_split_text. lia.
Qed.

Lemma filter_lgtt_rows (df : DataFrame) :
  has_columns df ["tra_type"; "unit"; "nst07"; "TIME_PERIOD"; "c_unload"] ->
  holds_text df "c_unload" ->
  filter_lgtt df
  = Ok (mkDF (columns df) (filter (keptb df ["c_unload"]) (rows df))).
Proof.
  intros H T. unfold has_columns in H. repeat rewrite Forall_cons_iff in H.
  destruct H as (L1 & L2 & L3 & L4 & L5 & _). unfold filter_lgtt.
  rewrite (getattr_unique _ _ L1), (getattr_unique _ _ L2),
    (getattr_unique _ _ L3), (getattr_unique _ _ L4),
    (getattr_unique _ _ L5).
  cbn [bind]. rewrite (str_accessor_text _ _ T). cbn [bind].
  unfold boolean_index.
  rewrite (conjunction_mask df ["c_unload"]).
  - now rewrite select_map_filter.
  - rewrite len_eq_2_map. apply map_ext. intros r. simpl.
    now rewrite andb_true_r.
Qed.

Lemma filter_ugtt_rows (df : DataFrame) :
  has_columns df ["tra_type"; "unit"; "nst07"; "TIME_PERIOD"; "c_load"] ->
  holds_text df "c_load" ->
  filter_ugtt df
  = Ok (mkDF (columns df) (filter (keptb df ["c_load"]) (rows df))).
Proof.
  intros H T. unfold has_columns in H. repeat rewrite Forall_cons_iff in H.
  destruct H as (L1 & L2 & L3 & L4 & L5 & _). unfold filter_ugtt.
  rewrite (getattr_unique _ _ L1), (getattr_unique _ _ L2),
    (getattr_unique _ _ L3), (getattr_unique _ _ L4),
    (getattr_unique _ _ L5).
  cbn [bind]. rewrite (str_accessor_text _ _ T). cbn [bind].
  unfold boolean_index.
  rewrite (conjunction_mask df ["c_load"]).
  - now rewrite select_map_filter.
  - rewrite len_eq_2_map. apply map_ext. intros r. simpl.
    now rewrite andb_true_r.
Qed.

Lemma filter_cross_rows (df : DataFrame) :
  has_columns df
    ["tra_type"; "unit"; "nst07"; "TIME_PERIOD"; "c_load"; "c_unload"] ->
  holds_text df "c_load" ->
  holds_text df "c_unload" ->
  filter_cross df
  = Ok (mkDF (columns df)
          (filter (keptb df ["c_load"; "c_unload"]) (rows df))).
Proof.
  intros H T1 T2. unfold has_columns in H. repeat rewrite Forall_cons_iff in H.
  destruct H as (L1 & L2 & L3 & L4 & L5 & L6 & _). unfold filter_cross.
  rewrite (getattr_unique _ _ L1), (getattr_unique _ _ L2),
    (getattr_unique _ _ L3), (getattr_unique _ _ L4),
    (getattr_unique _ _ L5), (getattr_unique _ _ L6).
  cbn [bind]. rewrite (str_accessor_text _ _ T1). cbn [bind].
  rewrite (str_accessor_text _ _ T2). cbn [bind].
  unfold boolean_index. f_equal. f_equal.
  rewrite <- select_map_filter. f_equal.
  rewrite !len_eq_2_map, !eq_scalar_map, !mask_and_map.
  apply map_ext. intros r. unfold keptb. simpl.
  now rewrite andb_true_r, !andb_assoc.
Qed.

Lemma lgtt_be_fr_values (df : DataFrame) :
  has_columns df ["geo_country"; "unload_country"; "value"] ->
  lgtt_be_fr df = values0 (be_fr_values df "geo_country" "unload_country").
Proof.
  intros H. unfold has_columns in H. repeat rewrite Forall_cons_iff in H.
  destruct H as (L1 & L2 & L3 & _). unfold lgtt_be_fr.
  rewrite (getattr_unique _ _ L1), (getattr_unique _ _ L2). cbn [bind].
  rewrite belgium_france_mask.
  now rewrite (getattr_unique (mkDF _ _) "value" L3).
Qed.

Lemma ugtt_be_fr_values (df : DataFrame) :
  has_columns df ["load_country"; "geo_country"; "value"] ->
  ugtt_be_fr df = values0 (be_fr_values df "load_country" "geo_country").
Proof.
  intros H. unfold has_columns in H. repeat rewrite Forall_cons_iff in H.
  destruct H as (L1 & L2 & L3 & _). unfold ugtt_be_fr.
  rewrite (getattr_unique _ _ L1), (getattr_unique _ _ L2). cbn [bind].
  rewrite belgium_france_mask.
  now rewrite (getattr_unique (mkDF _ _) "value" L3).
Qed.

Lemma cross_be_fr_values (np_sum : list Z -> Z) (df : DataFrame) :
  has_columns df ["load_country"; "unload_country"; "value"] ->
  cross_be_fr np_sum df
  = series_sum np_sum (be_fr_values df "load_country" "unload_country").
Proof.
  intros H. unfold has_columns in H. repeat rewrite Forall_cons_iff in H.
  destruct H as (L1 & L2 & L3 & _). unfold cross_be_fr.
  rewrite (getattr_unique _ _ L1), (getattr_unique _ _ L2). cbn [bind].
  rewrite belgium_france_mask.
  rewrite (getitem_unique (mkDF _ _) "value" L3). reflexivity.
Qed.

Lemma be_fr_values_not_text (df : DataFrame) (codes : list string)
  (a b : string) :
  Forall (fun row => is_str (field df row "value") = false) (rows df) ->
  Forall (fun v => is_str v = false)
    (be_fr_values (mkDF (columns df) (filter (keptb df codes) (rows df)))
       a b).
Proof.
  intros H. rewrite Forall_forall in *. intros v Hv.
  unfold be_fr_values, matching in Hv. cbn [rows] in Hv.
  apply in_map_iff in Hv as (r & <- & Hr).
  apply filter_In in Hr as [Hr _]. apply filter_In in Hr as [Hr _].
  now apply H.
Qed.

Lemma add_cell_not_text (np_add : Z -> Z -> Z) (a b : cell) :
  is_str a = false -> is_str b = false ->
  add_cell np_add a b = Ok (nan_add np_add a b).
Proof. destruct a, b; simpl; intros; try discriminate; reflexivity. Qed.

Lemma nan_add_not_text (np_add : Z -> Z -> Z) (a b : cell) :
  is_str (nan_add np_add a b) = false.
Proof. destruct a, b; reflexivity. Qed.

End Script.

Section ScriptValue.

Variable np_sum : list Z -> Z.
Variable np_add : Z -> Z -> Z.
Variable excel : list CountryRow.
Variables lgtt ugtt cross : DataFrame.
Hypothesis Hl : reshapable lgtt lgtt_cols lgtt_fc.
Hypothesis Hu : reshapable ugtt ugtt_cols ugtt_fc.
Hypothesis Hc : reshapable cross cross_cols cross_fc.
Hypothesis Nl : numeric_years lgtt lgtt_fc.
Hypothesis Nu : numeric_years ugtt ugtt_fc.
Hypothesis Nc : numeric_years cross cross_fc.

Lemma existsb_not_text (l : list cell) :
  Forall (fun v => is_str v = false) l -> existsb is_str l = false.
Proof.
  induction 1 as [|x l Hx _ IH]; simpl; [reflexivity|]. now rewrite Hx, IH.
Qed.

(** The number printed, from the three tables as they stand at lines
    125-127. *)
Lemma main_value :
  exists l u c,
    lgtt_table excel lgtt = Ok l
    /\ ugtt_table excel ugtt = Ok u
    /\ cross_table excel cross = Ok c
    /\ Forall (fun v => is_str v = false)
         (be_fr_values l "geo_country" "unload_country")
    /\ Forall (fun v => is_str v = false)
         (be_fr_values u "load_country" "geo_country")
    /\ main np_sum np_add excel lgtt ugtt cross
       = match be_fr_values l "geo_country" "unload_country",
               be_fr_values u "load_country" "geo_country" with
         | lv :: _, uv :: _ =>
             Ok (nan_add np_add
                   (nan_add np_add
                      (Num (array_sum np_sum
                              (map fill_zero
                                 (be_fr_values c "load_country"
                                               "unload_country"))))
                      lv)
                   uv)
         | _, _ => Raise IndexError
         end.
Proof.
  destruct (annotated_steps excel lgtt lgtt_cols lgtt_fc
              "c_unload" "unload_country" "geo" "geo_country" Hl Nl)
    as (l0 & l1 & la & El0 & El1 & Ela & Cl & Vl & Kl);
    try (simpl; auto 10; fail); try discriminate; try not_in_literal.
  destruct (annotated_steps excel ugtt ugtt_cols ugtt_fc
              "c_load" "load_country" "geo" "geo_country" Hu Nu)
    as (u0 & u1 & ua & Eu0 & Eu1 & Eua & Cu & Vu & Ku);
    try (simpl; auto 10; fail); try discriminate; try not_in_literal.
  destruct (annotated_steps excel cross cross_cols cross_fc
              "c_load" "load_country" "c_unload" "unload_country" Hc Nc)
    as (c0 & c1 & ca & Ec0 & Ec1 & Eca & Cc & Vc & Kc);
    try (simpl; auto 10; fail); try discriminate; try not_in_literal.
  assert (Fl : filter_lgtt la
               = Ok (mkDF (columns la)
                       (filter (keptb la ["c_unload"]) (rows la)))).
  { apply filter_lgtt_rows.
    - unfold has_columns. rewrite Cl. repeat constructor.
    - apply Kl. simpl. auto 10. }
  assert (Fu : filter_ugtt ua
               = Ok (mkDF (columns ua)
                       (filter (keptb ua ["c_load"]) (rows ua)))).
  { apply filter_ugtt_rows.
    - unfold has_columns. rewrite Cu. repeat constructor.
    - apply Ku. simpl. auto 10. }
  assert (Fc : filter_cross ca
               = Ok (mkDF (columns ca)
                       (filter (keptb ca ["c_load"; "c_unload"]) (rows ca)))).
  { apply filter_cross_rows.
    - unfold has_columns. rewrite Cc. repeat constructor.
    - apply Kc. simpl. auto 10.
    - apply Kc. simpl. auto 10. }
  set (l := mkDF (columns la) _) in *.
  set (u := mkDF (columns ua) _) in *.
  set (c := mkDF (columns ca) _) in *.
  exists l, u, c.
  split; [unfold lgtt_table; rewrite El0; cbn [bind]; rewrite El1; cbn [bind];
          rewrite Ela; exact Fl|].
  split; [unfold ugtt_table; rewrite Eu0; cbn [bind]; rewrite Eu1; cbn [bind];
          rewrite Eua; exact Fu|].
  split; [unfold cross_table; rewrite Ec0; cbn [bind]; rewrite Ec1; cbn [bind];
          rewrite Eca; exact Fc|].
  pose proof (be_fr_values_not_text la ["c_unload"]
                "geo_country" "unload_country" Vl) as Tl.
  pose proof (be_fr_values_not_text ua ["c_load"]
                "load_country" "geo_country" Vu) as Tu.
  pose proof (be_fr_values_not_text ca ["c_load"; "c_unload"]
                "load_country" "unload_country" Vc) as Tc.
  fold l in Tl. fold u in Tu. fold c in Tc.
  split; [exact Tl|]. split; [exact Tu|].
  unfold main. rewrite El0, Eu0, Ec0. cbn [bind].
  rewrite El1. cbn [bind]. rewrite Ela. cbn [bind].
  rewrite Eu1. cbn [bind]. rewrite Eua. cbn [bind].
  rewrite Ec1. cbn [bind]. rewrite Eca. cbn [bind].
  rewrite Fl, Fu, Fc. cbn [bind].
  rewrite (cross_be_fr_values np_sum c)
    by (unfold has_columns, c; cbn [columns]; rewrite Cc; repeat constructor).
  rewrite (lgtt_be_fr_values l)
    by (unfold has_columns, l; cbn [columns]; rewrite Cl; repeat constructor).
  rewrite (ugtt_be_fr_values u)
    by (unfold has_columns, u; cbn [columns]; rewrite Cu; repeat constructor).
  rewrite (series_sum_numbers np_sum _ (existsb_not_text _ Tc)). cbn [bind].
  destruct (be_fr_values l "geo_country" "unload_country") as [|lv ls];
    [reflexivity|]. cbn [values0 bind].
  destruct (be_fr_values u "load_country" "geo_country") as [|uv us];
    [reflexivity|]. cbn [values0 bind].
  inversion Tl as [|? ? Hlv _]; subst. inversion Tu as [|? ? Huv _]; subst.
  rewrite (add_cell_not_text np_add (Num _) lv (eq_refl false) Hlv).
  cbn [bind].
  now rewrite (add_cell_not_text np_add _ uv (nan_add_not_text _ _ _) Huv).
Qed.

End ScriptValue.

Lemma ex_lgtt_reshapable : reshapable ex_lgtt lgtt_cols lgtt_fc.
Proof. reshapable_literal. Defined.

Lemma ex_ugtt_reshapable : reshapable ex_ugtt ugtt_cols ugtt_fc.
Proof. reshapable_literal. Defined.

Lemma ex_cross_reshapable : reshapable ex_cross cross_cols cross_fc.
Proof. reshapable_literal. Defined.

Lemma ex_lgtt_numeric : numeric_years ex_lgtt lgtt_fc.
Proof. repeat constructor. Defined.

Lemma ex_ugtt_numeric : numeric_years ex_ugtt ugtt_fc.
Proof. repeat constructor. Defined.

Lemma ex_cross_numeric : numeric_years ex_cross cross_fc.
Proof. repeat constructor. Defined.

(** X12.  On three well-formed tables the reshaping and the four
    annotations of lines 92-104 all return, and the tables they leave have
    every column that the filters of lines 106-123 and the selections of
    lines 125-127 read. *)
Theorem script_tables_ready :
  forall (excel : list CountryRow) (lgtt ugtt cross : DataFrame),
    reshapable lgtt lgtt_cols lgtt_fc ->
    reshapable ugtt ugtt_cols ugtt_fc ->
    reshapable cross cross_cols cross_fc ->
    exists l u c,
      (t <- process_road_euro_stat lgtt lgtt_cols lgtt_fc ;;
       t <- merge_and_rename excel t "c_unload" "unload_country" ;;
       merge_and_rename excel t "geo" "geo_country") = Ok l
      /\ (t <- process_road_euro_stat ugtt ugtt_cols ugtt_fc ;;
          t <- merge_and_rename excel t "c_load" "load_country" ;;
          merge_and_rename excel t "geo" "geo_country") = Ok u
      /\ (t <- process_road_euro_stat cross cross_cols cross_fc ;;
          t <- merge_and_rename excel t "c_load" "load_country" ;;
          merge_and_rename excel t "c_unload" "unload_country") = Ok c
      /\ columns l
         = lgtt_cols ++ ["TIME_PERIOD"; "value"; "unload_country";
                         "geo_country"]
      /\ columns u
         = ugtt_cols ++ ["TIME_PERIOD"; "value"; "load_country";
                         "geo_country"]
      /\ columns c
         = cross_cols ++ ["TIME_PERIOD"; "value"; "load_country";
                          "unload_country"].
Proof.
  intros excel lgtt ugtt cross Hl Hu Hc.
  destruct (annotated_twice excel lgtt lgtt_cols lgtt_fc
              "c_unload" "unload_country" "geo" "geo_country" Hl)
    as (l & Hlo & Hlc);
    try (simpl; auto 10; fail); try discriminate; try not_in_literal.
  destruct (annotated_twice excel ugtt ugtt_cols ugtt_fc
              "c_load" "load_country" "geo" "geo_country" Hu)
    as (u & Huo & Huc);
    try (simpl; auto 10; fail); try discriminate; try not_in_literal.
  destruct (annotated_twice excel cross cross_cols cross_fc
              "c_load" "load_country" "c_unload" "unload_country" Hc)
    as (c & Hco & Hcc);
    try (simpl; auto 10; fail); try discriminate; try not_in_literal.
  exists l, u, c. repeat split; assumption.
Qed.

Lemma script_tables_ready_witness :
  exists l,
    (t <- process_road_euro_stat ex_lgtt lgtt_cols lgtt_fc ;;
     t <- merge_and_rename ex_excel t "c_unload" "unload_country" ;;
     merge_and_rename ex_excel t "geo" "geo_country") = Ok l
    /\ columns l
       = lgtt_cols ++ ["TIME_PERIOD"; "value"; "unload_country";
                       "geo_country"].
Proof.
  destruct (script_tables_ready ex_excel ex_lgtt ex_ugtt ex_cross
              ex_lgtt_reshapable ex_ugtt_reshapable ex_cross_reshapable)
    as (l & _ & _ & Hl & _ & _ & Hc & _).
  exists l. split; [exact Hl | exact Hc].
Defined.

(** X13.  On three well-formed tables of numbers the script prints the
    sum of the value column over the Belgium-to-France rows of the cross
    table (a missing value entering as zero), plus the value of the first
    Belgium/France row of lgtt, plus that of the first Belgium/France row of
    ugtt, whatever the machine sum [np_sum] and the machine addition
    [np_add] are; it raises [IndexError] when lgtt or ugtt has no such
    row. *)
Theorem script_prints :
  forall (np_sum : list Z -> Z) (np_add : Z -> Z -> Z)
         (excel : list CountryRow) (lgtt ugtt cross : DataFrame),
    reshapable lgtt lgtt_cols lgtt_fc ->
    reshapable ugtt ugtt_cols ugtt_fc ->
    reshapable cross cross_cols cross_fc ->
    numeric_years lgtt lgtt_fc ->
    numeric_years ugtt ugtt_fc ->
    numeric_years cross cross_fc ->
    exists l u c,
      lgtt_table excel lgtt = Ok l
      /\ ugtt_table excel ugtt = Ok u
      /\ cross_table excel cross = Ok c
      /\ main np_sum np_add excel lgtt ugtt cross
         = match be_fr_values l "geo_country" "unload_country",
                 be_fr_values u "load_country" "geo_country" with
           | lv :: _, uv :: _ =>
               Ok (nan_add np_add
                     (nan_add np_add
                        (Num (array_sum np_sum
                                (map fill_zero
                                   (be_fr_values c "load_country"
                                                 "unload_country"))))
                        lv)
                     uv)
           | _, _ => Raise IndexError
           end.
Proof.
  intros np_sum np_add excel lgtt ugtt cross Hl Hu Hc Nl Nu Nc.
  destruct (main_value np_sum np_add excel lgtt ugtt cross Hl Hu Hc Nl Nu Nc)
    as (l & u & c & El & Eu & Ec & _ & _ & Hm).
  now exists l, u, c.
Qed.

Lemma script_prints_witness :
  exists l u c,
    lgtt_table ex_excel ex_lgtt = Ok l
    /\ ugtt_table ex_excel ex_ugtt = Ok u
    /\ cross_table ex_excel ex_cross = Ok c
    /\ main Zsum Z.add ex_excel ex_lgtt ex_ugtt ex_cross
       = match be_fr_values l "geo_country" "unload_country",
               be_fr_values u "load_country" "geo_country" with
         | lv :: _, uv :: _ =>
             Ok (nan_add Z.add
                   (nan_add Z.add
                      (Num (array_sum Zsum
                              (map fill_zero
                                 (be_fr_values c "load_country"
                                               "unload_country"))))
                      lv)
                   uv)
         | _, _ => Raise IndexError
         end.
Proof.
  exact (script_prints Zsum Z.add ex_excel ex_lgtt ex_ugtt ex_cross
           ex_lgtt_reshapable ex_ugtt_reshapable ex_cross_reshapable
           ex_lgtt_numeric ex_ugtt_numeric ex_cross_numeric).
Defined.

(** X14.  On three well-formed tables of numbers the script has one way to
    fail: it raises [IndexError], and does so exactly when the filtered lgtt
    table or the filtered ugtt table has no Belgium/France row; what it
    prints otherwise is a number or a missing value. *)
Theorem script_fails_only_on_empty_selection :
  forall (np_sum : list Z -> Z) (np_add : Z -> Z -> Z)
         (excel : list CountryRow) (lgtt ugtt cross : DataFrame),
    reshapable lgtt lgtt_cols lgtt_fc ->
    reshapable ugtt ugtt_cols ugtt_fc ->
    reshapable cross cross_cols cross_fc ->
    numeric_years lgtt lgtt_fc ->
    numeric_years ugtt ugtt_fc ->
    numeric_years cross cross_fc ->
    exists l u,
      lgtt_table excel lgtt = Ok l
      /\ ugtt_table excel ugtt = Ok u
      /\ (main np_sum np_add excel lgtt ugtt cross = Raise IndexError
          <-> matching l "geo_country" "unload_country" = []
              \/ matching u "load_country" "geo_country" = [])
      /\ (forall e, main np_sum np_add excel lgtt ugtt cross = Raise e ->
                    e = IndexError)
      /\ (forall v, main np_sum np_add excel lgtt ugtt cross = Ok v ->
                    is_str v = false).
Proof.
  intros np_sum np_add excel lgtt ugtt cross Hl Hu Hc Nl Nu Nc.
  destruct (main_value np_sum np_add excel lgtt ugtt cross Hl Hu Hc Nl Nu Nc)
    as (l & u & c & El & Eu & Ec & _ & _ & Hm).
  exists l, u. split; [exact El|]. split; [exact Eu|]. rewrite Hm.
  unfold be_fr_values.
  destruct (matching l "geo_country" "unload_country") as [|rl ls];
    cbn [map].
  - split; [|split].
    + split; [now left | reflexivity].
    + now intros e [= <-].
    + discriminate.
  - destruct (matching u "load_country" "geo_country") as [|ru us];
      cbn [map].
    + split; [|split].
      * split; [now right | reflexivity].
      * now intros e [= <-].
      * discriminate.
    + split; [|split].
      * split; [discriminate | intros [H|H]; discriminate].
      * discriminate.
      * intros v [= <-]. apply nan_add_not_text.
Qed.

Lemma script_fails_only_on_empty_selection_witness :
  exists l u,
    lgtt_table ex_excel ex_lgtt = Ok l
    /\ ugtt_table ex_excel ex_ugtt = Ok u
    /\ (main Zsum Z.add ex_excel ex_lgtt ex_ugtt ex_cross = Raise IndexError
        <-> matching l "geo_country" "unload_country" = []
            \/ matching u "load_country" "geo_country" = [])
    /\ (forall e, main Zsum Z.add ex_excel ex_lgtt ex_ugtt ex_cross = Raise e ->
                  e = IndexError)
    /\ (forall v, main Zsum Z.add ex_excel ex_lgtt ex_ugtt ex_cross = Ok v ->
                  is_str v = false).
Proof.
  exact (script_fails_only_on_empty_selection
           Zsum Z.add ex_excel ex_lgtt ex_ugtt ex_cross
           ex_lgtt_reshapable ex_ugtt_reshapable ex_cross_reshapable
           ex_lgtt_numeric ex_ugtt_numeric ex_cross_numeric).
Defined.

(** X15.  Missing values are not treated alike: those of the cross table
    enter the sum as zero and the result stays a number, whereas a missing
    value in the first Belgium/France row of lgtt or of ugtt makes the printed
    result a missing value. *)
Theorem script_missing_values :
  forall (np_sum : list Z -> Z) (np_add : Z -> Z -> Z)
         (excel : list CountryRow) (lgtt ugtt cross : DataFrame),
    reshapable lgtt lgtt_cols lgtt_fc ->
    reshapable ugtt ugtt_cols ugtt_fc ->
    reshapable cross cross_cols cross_fc ->
    numeric_years lgtt lgtt_fc ->
    numeric_years ugtt ugtt_fc ->
    numeric_years cross cross_fc ->
    exists l u c,
      lgtt_table excel lgtt = Ok l
      /\ ugtt_table excel ugtt = Ok u
      /\ cross_table excel cross = Ok c
      /\ forall lv ls uv us,
           be_fr_values l "geo_country" "unload_country" = lv :: ls ->
           be_fr_values u "load_country" "geo_country" = uv :: us ->
           (lv = NaN \/ uv = NaN ->
            main np_sum np_add excel lgtt ugtt cross = Ok NaN)
           /\ forall x y,
                lv = Num x -> uv = Num y ->
                main np_sum np_add excel lgtt ugtt cross
                = Ok (Num (np_add
                             (np_add
                                (array_sum np_sum
                                   (map fill_zero
                                      (be_fr_values c "load_country"
                                                    "unload_country")))
                                x)
                             y)).
Proof.
  intros np_sum np_add excel lgtt ugtt cross Hl Hu Hc Nl Nu Nc.
  destruct (main_value np_sum np_add excel lgtt ugtt cross Hl Hu Hc Nl Nu Nc)
    as (l & u & c & El & Eu & Ec & Tl & Tu & Hm).
  exists l, u, c. split; [exact El|]. split; [exact Eu|]. split; [exact Ec|].
  intros lv ls uv us Hlv Huv. rewrite Hm, Hlv, Huv. split.
  - intros [-> | ->]; [reflexivity|]. now destruct lv.
  - intros x y -> ->. reflexivity.
Qed.

Lemma script_missing_values_witness :
  exists l u c,
    lgtt_table ex_excel ex_lgtt = Ok l
    /\ ugtt_table ex_excel ex_ugtt = Ok u
    /\ cross_table ex_excel ex_cross = Ok c
    /\ forall lv ls uv us,
         be_fr_values l "geo_country" "unload_country" = lv :: ls ->
         be_fr_values u "load_country" "geo_country" = uv :: us ->
         (lv = NaN \/ uv = NaN ->
          main Zsum Z.add ex_excel ex_lgtt ex_ugtt ex_cross = Ok NaN)
         /\ forall x y,
              lv = Num x -> uv = Num y ->
              main Zsum Z.add ex_excel ex_lgtt ex_ugtt ex_cross
              = Ok (Num (Z.add
                           (Z.add
                              (array_sum Zsum
                                 (map fill_zero
                                    (be_fr_values c "load_country"
                                                  "unload_country")))
                              x)
                           y)).
Proof.
  exact (script_missing_values Zsum Z.add ex_excel ex_lgtt ex_ugtt ex_cross
           ex_lgtt_reshapable ex_ugtt_reshapable ex_cross_reshapable
           ex_lgtt_numeric ex_ugtt_numeric ex_cross_numeric).
Defined.
